(** * OBBM-League: the gym environment (botbowl/ai/env.py) and the web
      hosting API (botbowl/web/api.py), embedded and verified.

    The rules engine, the feature layers, the loaders and the host are not
    part of the repository's sources.  The engine's game object is modelled
    as a record of the values its accessors return; what the engine does on
    [step] is a parameter of the development. *)

From Stdlib Require Import ZArith QArith Qround Lia List Bool String.
From Stdlib Require Ascii.
From stdpp Require Import base gmap strings list fin_maps pretty.

Local Open Scope string_scope.
Local Open Scope list_scope.
Local Open Scope Z_scope.

(** ** Python exceptions and results *)

Inductive PyError :=
| AssertionError | IndexError | KeyError | ValueError
| ZeroDivisionError | AttributeError.

Inductive result (A : Type) :=
| Ok (a : A)
| Raise (e : PyError).
Arguments Ok {A} a.
Arguments Raise {A} e.

#[global] Instance result_ret : MRet result := fun A a => Ok a.
#[global] Instance result_bind : MBind result := fun A B k m =>
  match m with Ok a => k a | Raise e => Raise e end.

Definition is_ok {A} (r : result A) : bool :=
  match r with Ok _ => true | Raise _ => false end.

(** [l[i]] on a Python list: a negative index counts from the end, an index
    out of range raises IndexError. *)
Definition py_getitem {A} (l : list A) (i : Z) : result A :=
  let n := Z.of_nat (length l) in
  let j := if i <? 0 then n + i else i in
  if (j <? 0) || (n <=? j) then Raise IndexError
  else match l !! Z.to_nat j with
       | Some a => Ok a
       | None => Raise IndexError
       end.

(** [l.index(x)]: position of the first element equal to [x]. *)
Fixpoint py_index `{EqDecision A} (x : A) (l : list A) : option nat :=
  match l with
  | [] => None
  | y :: l' => if decide (y = x) then Some 0%nat
               else S <$> py_index x l'
  end.

(** [x in l] *)
Definition py_in `{EqDecision A} (x : A) (l : list A) : bool :=
  bool_decide (x ∈ l).

(** Floor division and modulo raise on a zero divisor. *)
Definition py_floordiv (a b : Z) : result Z :=
  if b =? 0 then Raise ZeroDivisionError else Ok (a / b).
Definition py_mod (a b : Z) : result Z :=
  if b =? 0 then Raise ZeroDivisionError else Ok (a mod b).

(** ** The engine's enumerations, as far as the sources name them *)

Module ActionType.
Inductive t :=
| START_GAME | HEADS | TAILS | KICK | RECEIVE | END_PLAYER_TURN
| USE_REROLL | DONT_USE_REROLL | USE_SKILL | DONT_USE_SKILL | END_TURN
| STAND_UP | SELECT_ATTACKER_DOWN | SELECT_BOTH_DOWN | SELECT_PUSH
| SELECT_DEFENDER_STUMBLES | SELECT_DEFENDER_DOWN | SELECT_NONE
| USE_BRIBE | DONT_USE_BRIBE
| PLACE_BALL | PUSH | FOLLOW_UP | MOVE | BLOCK | PASS | FOUL | HANDOFF
| LEAP | STAB | SELECT_PLAYER | START_MOVE | START_BLOCK | START_BLITZ
| START_PASS | START_FOUL | START_HANDOFF
| END_SETUP | PLACE_PLAYER.

#[global] Instance eq_dec : EqDecision t.
Proof. solve_decision. Defined.
End ActionType.

Module WeatherType.
Inductive t := SWELTERING_HEAT | VERY_SUNNY | NICE | POURING_RAIN | BLIZZARD.
#[global] Instance eq_dec : EqDecision t.
Proof. solve_decision. Defined.
End WeatherType.

Module Skill.
Inductive t := BLOCK | DODGE | SURE_HANDS | CATCH | PASS.
#[global] Instance eq_dec : EqDecision t.
Proof. solve_decision. Defined.
End Skill.

Module PlayerActionType.
Inductive t := MOVE | BLOCK | BLITZ | PASS | HANDOFF | FOUL.
#[global] Instance eq_dec : EqDecision t.
Proof. solve_decision. Defined.
End PlayerActionType.

(** The procedure classes of [botbowl.core.procedure] that the sources name. *)
Module procedures.
Inductive t :=
| StartGame | CoinTossFlip | CoinTossKickReceive | Setup | PlaceBall
| HighKick | Touchback | Turn | MoveAction | BlockAction | BlitzAction
| PassAction | HandoffAction | FoulAction | ThrowBombAction | Block
| Push | FollowUp | Apothecary | PassAttempt | Interception | Reroll
| Ejection | Touchdown.
#[global] Instance eq_dec : EqDecision t.
Proof. solve_decision. Defined.
End procedures.

(** ** The engine's data, as the environment and the web API read it *)

(** The engine holds exactly two team objects; one is named by the side it
    plays, so that [team is game.state.home_team] is [team = Home]. *)
Inductive Team := Home | Away.
#[global] Instance Team_eq_dec : EqDecision Team.
Proof. solve_decision. Defined.

Record Square := { x : Z; y : Z }.
#[global] Instance Square_eq_dec : EqDecision Square.
Proof. solve_decision. Defined.

Record Formation := { formation_name : string; formation_size : Z }.
#[global] Instance Formation_eq_dec : EqDecision Formation.
Proof. solve_decision. Defined.

(** An entry of an action catalogue: [Union[ActionType, Formation]]. *)
Inductive ActionKind :=
| AT (a : ActionType.t)
| Form (f : Formation).
#[global] Instance ActionKind_eq_dec : EqDecision ActionKind.
Proof. solve_decision. Defined.

Record Player := {
  player_id : string;
  player_team : Team;
  player_position : option Square
}.
#[global] Instance Player_eq_dec : EqDecision Player.
Proof. solve_decision. Defined.

(** [Action(action_type, position=None, player=None)] *)
Record Action := {
  action_type : ActionKind;
  position : option Square;
  player : option Player
}.
#[global] Instance Action_eq_dec : EqDecision Action.
Proof. solve_decision. Defined.

Definition mkAction (k : ActionKind) : Action :=
  {| action_type := k; position := None; player := None |}.
Definition mkActionAt (k : ActionKind) (sq : Square) : Action :=
  {| action_type := k; position := Some sq; player := None |}.

Record ActionChoice := {
  choice_action_type : ActionType.t;
  choice_team : Team
}.

Record Agent := { agent_name : string; human : bool }.
#[global] Instance Agent_eq_dec : EqDecision Agent.
Proof. solve_decision. Defined.

Record Procedure := {
  proc_type : procedures.t;
  proc_player : option Player
}.

Record TeamState := {
  score : Z; turn : Z; rerolls_start : Z; rerolls : Z; ass_coaches : Z;
  cheerleaders : Z; bribes : Z; babes : Z; apothecaries : Z;
  reroll_used : bool; fame : Z
}.

Record GameState := {
  half : Z;
  round : Z;
  weather : WeatherType.t;
  current_team : option Team;
  kicking_first_half : option Team;
  kicking_this_drive : option Team;
  active_player : option Player;
  stack_items : list Procedure;
  game_over : bool;
  team_state : Team -> TeamState
}.

Record Game := {
  game_id : string;
  state : GameState;
  active_team : option Team;
  get_reserves : option Team -> list Player;
  get_knocked_out : option Team -> list Player;
  get_casualties : option Team -> list Player;
  current_turn : option Procedure;
  is_blitz_available : bool;
  is_pass_available : bool;
  is_handoff_available : bool;
  is_foul_available : bool;
  is_blitz : bool;
  is_quick_snap : bool;
  get_player_action_type : option PlayerActionType.t;
  get_available_actions : list ActionChoice;
  is_setup_legal : option Team -> bool;
  get_ball_carrier : option Player;
  is_started : bool;
  home_agent : Agent;
  away_agent : Agent
}.

(** Modelled from the spec: the engine's accessors that the sources call and
    that are functions of the fields above (the engine is not in the
    sources): the opposing team, the procedure on top of the stack, the board
    cell at a column and a row, and the agent of a team or of the other
    side. *)
Definition get_opp_team (g : Game) (t : option Team) : Team :=
  match t with Some Away => Home | _ => Away end.

Definition get_procedure (g : Game) : option Procedure :=
  last (stack_items (state g)).

Definition get_square (g : Game) (col row : Z) : Square :=
  {| x := col; y := row |}.

Definition get_team_agent (g : Game) (t : Team) : Agent :=
  match t with Home => home_agent g | Away => away_agent g end.

Definition get_other_agent (g : Game) (a : Agent) : Agent :=
  if decide (a = home_agent g) then away_agent g else home_agent g.


(** A call that the sources make into the engine and that changes the game:
    the development keeps the calls in the order they are made. *)
Inductive EngineCall :=
| CallStep (a : option Action)
| CallPush (p : Procedure)
| CallSetAvailableActions.

(** ** Feature layers and the configuration object *)

Inductive FeatureLayer :=
| AvailablePositionLayer (a : ActionType.t)
| OccupiedLayer | OwnPlayerLayer | OppPlayerLayer | OwnTackleZoneLayer
| OppTackleZoneLayer | UpLayer | StunnedLayer | UsedLayer
| RollProbabilityLayer | BlockDiceLayer | ActivePlayerLayer
| TargetPlayerLayer | MALayer | STLayer | AGLayer | AVLayer
| MovementLeftLayer | GFIsLeftLayer | BallLayer | OwnHalfLayer
| OwnTouchdownLayer | OppTouchdownLayer
| SkillLayer (s : Skill.t)
| CustomLayer (name : string).

Record Configuration := {
  config_name : string;
  pathfinding_enabled : bool;
  config_ruleset : string;
  config_arena : string;
  pitch_max : Z
}.

Record Arena := { arena_width : Z; arena_height : Z }.

(** A 2D array, rows first, and a stack of them. *)
Abbreviation Grid := (list (list Q)) (only parsing).
Abbreviation Tensor := (list (list (list Q))) (only parsing).

(** * botbowl/ai/env.py *)

Module Env.

(** [take(n, iterable)] on the [count()] iterator, and the other uses of the
    iterator in [get_state]: the non-spatial buffer is threaded together with
    the next value of the counter. *)
Abbreviation NonSpatial := (list Q * nat)%type (only parsing).

(** [non_spatial_obs[next(index)] = v]; numpy raises IndexError out of range. *)
Definition ns_put (v : Q) (st : NonSpatial) : result NonSpatial :=
  let '(buf, i) := st in
  if decide (i < length buf)%nat then Ok (<[i := v]> buf, S i)
  else Raise IndexError.

Fixpoint ns_put_all (vs : list Q) (st : NonSpatial) : result NonSpatial :=
  match vs with
  | [] => Ok st
  | v :: vs' => st' ← ns_put v st; ns_put_all vs' st'
  end.

Definition take (n : nat) (st : NonSpatial) : NonSpatial :=
  (st.1, (st.2 + n)%nat).

(** [for i, x in zip(index, xs): non_spatial_obs[i] = f x].  [zip] asks the
    counter first: when [xs] is exhausted one more value of the counter has
    been drawn and is lost. *)
Fixpoint ns_zip_put {A} (f : A -> Q) (xs : list A) (st : NonSpatial)
  : result NonSpatial :=
  match xs with
  | [] => Ok (take 1 st)
  | a :: xs' => st' ← ns_put (f a) st; ns_zip_put f xs' st'
  end.

(** [buf[lo:lo+len(vs)] = vs] on a numpy array: the slice is clipped to the
    buffer; a value of another length than the slice is broadcast when it has
    one element and refused otherwise. *)
Definition ns_slice_assign (buf : list Q) (lo : nat) (vs : list Q)
  : result (list Q) :=
  let n := length buf in
  let a := Nat.min lo n in
  let b := Nat.min (lo + length vs) n in
  if decide ((b - a)%nat = length vs) then
    Ok (firstn a buf ++ vs ++ skipn b buf)
  else match vs with
       | [v] => Ok (firstn a buf ++ replicate (b - a) v ++ skipn b buf)
       | _ => Raise ValueError
       end.

(** [1.0 * b] for a boolean [b], and an [int] read as a number. *)
Definition b2q (b : bool) : Q := if b then 1%Q else 0%Q.
Definition z2q (z : Z) : Q := inject_Z z.
Definition len2q {A} (l : list A) : Q := inject_Z (Z.of_nat (length l)).

(** [v > 0.0] *)
Definition positive (v : Q) : bool := negb (Qle_bool v 0).

Definition formation_defaults : gmap Z (list string) :=
  <[1 := ["def_spread.txt"; "def_zone.txt"; "off_line.txt"; "off_wedge.txt"]]>
  (<[3 := ["def_spread.txt"; "off_wedge.txt"]]>
  (<[5 := ["def_spread.txt"; "off_wedge.txt"]]>
  (<[7 := ["def_spread.txt"; "off_wedge.txt"]]>
  (<[11 := ["def_spread.txt"; "def_zone.txt"; "off_line.txt"; "off_wedge.txt"]]>
   ∅)))).

(** Modelled from the spec: [load_formation] (not in the sources) resolves a
    formation file for a board size into a formation object. *)
Definition load_formation (name : string) (size : Z) : Formation :=
  {| formation_name := name; formation_size := size |}.

Record EnvConf := {
  size : Z;
  config : Configuration;
  simple_action_types : list ActionKind;
  positional_action_types : list ActionType.t;
  action_types : list ActionKind;
  layers : list FeatureLayer;
  conf_procedures : list procedures.t;
  formations : list Formation
}.

Definition set_pathfinding (c : Configuration) (b : bool) : Configuration :=
  {| config_name := config_name c; pathfinding_enabled := b;
     config_ruleset := config_ruleset c; config_arena := config_arena c;
     pitch_max := pitch_max c |}.

Definition fixed_simple_action_types : list ActionType.t :=
  [ ActionType.START_GAME; ActionType.HEADS; ActionType.TAILS;
    ActionType.KICK; ActionType.RECEIVE; ActionType.END_PLAYER_TURN;
    ActionType.USE_REROLL; ActionType.DONT_USE_REROLL; ActionType.USE_SKILL;
    ActionType.DONT_USE_SKILL; ActionType.END_TURN; ActionType.STAND_UP;
    ActionType.SELECT_ATTACKER_DOWN; ActionType.SELECT_BOTH_DOWN;
    ActionType.SELECT_PUSH; ActionType.SELECT_DEFENDER_STUMBLES;
    ActionType.SELECT_DEFENDER_DOWN; ActionType.SELECT_NONE;
    ActionType.USE_BRIBE; ActionType.DONT_USE_BRIBE ].

Definition fixed_positional_action_types : list ActionType.t :=
  [ ActionType.PLACE_BALL; ActionType.PUSH; ActionType.FOLLOW_UP;
    ActionType.MOVE; ActionType.BLOCK; ActionType.PASS; ActionType.FOUL;
    ActionType.HANDOFF; ActionType.LEAP; ActionType.STAB;
    ActionType.SELECT_PLAYER; ActionType.START_MOVE; ActionType.START_BLOCK;
    ActionType.START_BLITZ; ActionType.START_PASS; ActionType.START_FOUL;
    ActionType.START_HANDOFF ].

Definition fixed_layers : list FeatureLayer :=
  [ OccupiedLayer; OwnPlayerLayer; OppPlayerLayer; OwnTackleZoneLayer;
    OppTackleZoneLayer; UpLayer; StunnedLayer; UsedLayer;
    RollProbabilityLayer; BlockDiceLayer; ActivePlayerLayer;
    TargetPlayerLayer; MALayer; STLayer; AGLayer; AVLayer;
    MovementLeftLayer; GFIsLeftLayer; BallLayer; OwnHalfLayer;
    OwnTouchdownLayer; OppTouchdownLayer;
    SkillLayer Skill.BLOCK; SkillLayer Skill.DODGE;
    SkillLayer Skill.SURE_HANDS; SkillLayer Skill.CATCH;
    SkillLayer Skill.PASS ].

Definition fixed_procedures : list procedures.t :=
  [ procedures.StartGame; procedures.CoinTossFlip;
    procedures.CoinTossKickReceive; procedures.Setup; procedures.PlaceBall;
    procedures.HighKick; procedures.Touchback; procedures.Turn;
    procedures.MoveAction; procedures.BlockAction; procedures.BlitzAction;
    procedures.PassAction; procedures.HandoffAction; procedures.FoulAction;
    procedures.ThrowBombAction; procedures.Block; procedures.Push;
    procedures.FollowUp; procedures.Apothecary; procedures.PassAttempt;
    procedures.Interception; procedures.Reroll; procedures.Ejection ].

Section EnvConf.
(** The loader of configuration files, by name. *)
Variable load_config : string -> result Configuration.

(** [EnvConf.__init__] *)
Definition EnvConf_init (size : Z) (extra_formations : option (list Formation))
    (extra_feature_layers : option (list FeatureLayer)) (pathfinding : bool)
  : result EnvConf :=
  cfg ← load_config ("gym-" +:+ pretty size);
  let cfg := set_pathfinding cfg pathfinding in
  names ← match formation_defaults !! size with
          | Some ns => Ok ns
          | None => Raise KeyError
          end;
  let formations := (fun n => load_formation n size) <$> names in
  let formations := match extra_formations with
                    | Some ex => formations ++ ex
                    | None => formations
                    end in
  let simple := (AT <$> fixed_simple_action_types) ++ (Form <$> formations) in
  let positional := fixed_positional_action_types in
  let ls := AvailablePositionLayer <$> positional in
  let ls := ls ++ fixed_layers in
  let ls := match extra_feature_layers with
            | Some ex => ls ++ ex
            | None => ls
            end in
  Ok {| size := size; config := cfg;
        simple_action_types := simple;
        positional_action_types := positional;
        action_types := simple ++ (AT <$> positional);
        layers := ls;
        conf_procedures := fixed_procedures;
        formations := formations |}.
End EnvConf.

(** The instance attributes of [BotBowlEnv] that the code reads or writes.
    The random stream is the seed it was made from and the number of draws
    taken; [engine_log] keeps the calls made into the engine. *)
Record BotBowlEnv := {
  env_conf : EnvConf;
  game : Game;
  width : Z;
  height : Z;
  board_squares : Z;
  num_non_spatial_observables : option nat;
  _seed : Z;
  rng_draws : nat;
  engine_log : list EngineCall
}.

Definition set_game (g : Game) (calls : list EngineCall) (env : BotBowlEnv)
  : BotBowlEnv :=
  {| env_conf := env_conf env; game := g; width := width env;
     height := height env; board_squares := board_squares env;
     num_non_spatial_observables := num_non_spatial_observables env;
     _seed := _seed env; rng_draws := rng_draws env;
     engine_log := engine_log env ++ calls |}.

Definition set_num_non_spatial_observables (n : nat) (env : BotBowlEnv)
  : BotBowlEnv :=
  {| env_conf := env_conf env; game := game env; width := width env;
     height := height env; board_squares := board_squares env;
     num_non_spatial_observables := Some n;
     _seed := _seed env; rng_draws := rng_draws env;
     engine_log := engine_log env |}.

Definition EnvObs : Type := Tensor * list Q * list bool.
Definition StepObs : Type := option Tensor * option (list Q) * option (list bool).
Definition Info := gmap string string.
Definition EnvStepReturn : Type := StepObs * Q * bool * Info.

(** [np.stack]: the arrays must have one shape, and there must be one. *)
Definition grid_shape (g : Grid) : nat * nat :=
  (length g, match g with [] => 0%nat | r :: _ => length r end).

Definition np_stack (gs : list Grid) : result Tensor :=
  match gs with
  | [] => Raise ValueError
  | g0 :: _ =>
      if forallb (fun g => bool_decide (grid_shape g = grid_shape g0)) gs
      then Ok gs else Raise ValueError
  end.

(** [np.flip(t, axis=2)]: every row is reversed. *)
Definition np_flip2 (t : Tensor) : Tensor :=
  (fun g : Grid => (reverse <$> g) : Grid) <$> t.

(** [t[:n].flatten()] *)
Definition flatten_first (n : nat) (t : Tensor) : list Q :=
  concat (concat (firstn n t)).

Definition team_block (ts : TeamState) : list Q :=
  [ z2q (score ts) / 16; z2q (turn ts) / 8; z2q (rerolls_start ts) / 8;
    z2q (rerolls ts) / 8; z2q (ass_coaches ts) / 8;
    z2q (cheerleaders ts) / 8; z2q (bribes ts) / 4; z2q (babes ts) / 4;
    z2q (apothecaries ts) / 2; b2q (negb (reroll_used ts));
    z2q (fame ts) / 2 ]%Q.

(** The loop over [enumerate(action_types)] of [get_state]: the value that
    ends up in [aa_types[i]], which [np.zeros] initialised to zero. *)
Definition aa_entry (g : Game) (active : option Team) (is_setup : bool)
    (game_aa_types : list ActionKind) (k : ActionKind) : Q :=
  if bool_decide (k = AT ActionType.END_SETUP) && negb (is_setup_legal g active)
  then 0%Q
  else if is_setup && (match k with Form _ => true | AT _ => false end)
  then 1%Q
  else b2q (py_in k game_aa_types).

Definition home_team_active (env : BotBowlEnv) : bool :=
  bool_decide (active_team (game env) = Some Home).
Definition away_team_active (env : BotBowlEnv) : bool :=
  bool_decide (active_team (game env) = Some Away).

Section BotBowlEnv.
(** The parts of the engine and of the libraries that are not in the
    sources: what a layer returns for a game, the placement actions of a
    formation, what a step and [set_available_actions] make of a game, the
    game that [Game(...); game.init()] gives for a configuration and a
    seed, and the draws of the random stream of a seed. *)
Variable layer_get : FeatureLayer -> Game -> Grid.
Variable formation_actions : Formation -> Game -> option Team -> list Action.
Variable game_step : option Action -> Game -> Game.
Variable set_available_actions : Game -> Game.
Variable make_game : EnvConf -> Z -> Game.
Variable randint : Z -> nat -> Z.

(** [BotBowlEnv.get_state] *)
Definition get_state (flip : option bool) (env : BotBowlEnv)
  : result (EnvObs * BotBowlEnv) :=
  let flip := match flip with Some b => b | None => away_team_active env end in
  let g := game env in
  let conf := env_conf env in
  let active := active_team g in
  let act_player := active_player (state g) in
  let opp_team := match active with
                  | Some _ => Some (get_opp_team g active)
                  | None => None
                  end in
  (* Spatial state *)
  spatial_obs ← np_stack ((fun l => layer_get l g) <$> layers conf);
  let spatial_obs := if flip then np_flip2 spatial_obs else spatial_obs in
  (* Non spatial state *)
  let buf := match num_non_spatial_observables env with
             | None => replicate 2000 0%Q
             | Some n => replicate n 0%Q
             end in
  st ← ns_put_all
       [ (z2q (half (state g)) - 1)%Q;
         (z2q (round (state g)) / 8)%Q;
         b2q (bool_decide (weather (state g) = WeatherType.SWELTERING_HEAT));
         b2q (bool_decide (weather (state g) = WeatherType.VERY_SUNNY));
         b2q (bool_decide (weather (state g) = WeatherType.NICE));
         b2q (bool_decide (weather (state g) = WeatherType.POURING_RAIN));
         b2q (bool_decide (weather (state g) = WeatherType.BLIZZARD));
         b2q (bool_decide (current_team (state g) = active));
         b2q (bool_decide (kicking_first_half (state g) = active));
         b2q (bool_decide (kicking_this_drive (state g) = active));
         (len2q (get_reserves g active) / 16)%Q;
         (len2q (get_knocked_out g active) / 16)%Q;
         (len2q (get_casualties g active) / 16)%Q;
         (len2q (get_reserves g (Some (get_opp_team g active))) / 16)%Q;
         (len2q (get_knocked_out g (Some (get_opp_team g active))) / 16)%Q;
         (len2q (get_casualties g (Some (get_opp_team g active))) / 16)%Q ]
       (buf, 0%nat);
  st ← match active, opp_team with
       | Some a, Some o =>
           ns_put_all (team_block (team_state (state g) a)
                       ++ team_block (team_state (state g) o)) st
       | _, _ => Ok (take 22 st)
       end;
  st ← match current_turn g with
       | Some _ =>
           ns_put_all [ b2q (is_blitz_available g); b2q (is_pass_available g);
                        b2q (is_handoff_available g);
                        b2q (is_foul_available g); b2q (is_blitz g);
                        b2q (is_quick_snap g) ] st
       | None => Ok (take 6 st)
       end;
  st ← match act_player with
       | Some _ =>
           let pat := get_player_action_type g in
           ns_put_all
             [ b2q (bool_decide (pat = Some PlayerActionType.MOVE));
               b2q (bool_decide (pat = Some PlayerActionType.BLOCK));
               b2q (bool_decide (pat = Some PlayerActionType.BLITZ));
               b2q (bool_decide (pat = Some PlayerActionType.PASS));
               b2q (bool_decide (pat = Some PlayerActionType.HANDOFF));
               b2q (bool_decide (pat = Some PlayerActionType.FOUL)) ] st
       | None => Ok (take 6 st)
       end;
  (* Procedures in stack *)
  let all_proc_types := proc_type <$> stack_items (state g) in
  st ← ns_zip_put (fun pt => b2q (py_in pt all_proc_types))
                  (conf_procedures conf) st;
  (* Available action types *)
  let game_aa_types :=
    (fun c => AT (choice_action_type c)) <$> get_available_actions g in
  let is_setup :=
    bool_decide (proc_type <$> get_procedure g = Some procedures.Setup) in
  let aa_types :=
    aa_entry g active is_setup game_aa_types <$> action_types conf in
  let next_index := st.2 in
  buf ← ns_slice_assign st.1 next_index aa_types;
  let '(non_spatial_obs, env') :=
    match num_non_spatial_observables env with
    | None =>
        let n := (next_index + length aa_types)%nat in
        (firstn n buf, set_num_non_spatial_observables n env)
    | Some _ => (buf, env)
    end in
  (* Action mask *)
  let num_simple_actions := length (simple_action_types conf) in
  let action_mask :=
    positive <$> (firstn num_simple_actions aa_types
                  ++ flatten_first (length (positional_action_types conf))
                                   spatial_obs) in
  if py_in true action_mask
  then Ok ((spatial_obs, non_spatial_obs, action_mask), env')
  else Raise AssertionError.

(** [BotBowlEnv._compute_action] *)
Definition _compute_action (action_idx : option Z) (flip : option bool)
    (env : BotBowlEnv) : result (list (option Action)) :=
  match action_idx with
  | None => Ok [None]
  | Some action_idx =>
      let flip :=
        match flip with Some b => b | None => away_team_active env end in
      let conf := env_conf env in
      let n_simple := Z.of_nat (length (simple_action_types conf)) in
      if action_idx <? n_simple then
        if n_simple - Z.of_nat (length (formations conf)) <=? action_idx then
          formation ← py_getitem (simple_action_types conf) action_idx;
          match formation with
          | Form f =>
              Ok ((Some <$> formation_actions f (game env)
                                              (active_team (game env)))
                  ++ [Some (mkAction (AT ActionType.END_SETUP))])
          | AT _ => Raise AttributeError
          end
        else
          k ← py_getitem (simple_action_types conf) action_idx;
          Ok [Some (mkAction k)]
      else
        let spatial_idx := action_idx - n_simple in
        spatial_pos_idx ← py_mod spatial_idx (board_squares env);
        spatial_y ← py_floordiv spatial_pos_idx (width env);
        spatial_x ← py_mod spatial_pos_idx (width env);
        let spatial_x :=
          if flip then width env - spatial_x - 1 else spatial_x in
        q ← py_floordiv spatial_idx (board_squares env);
        spatial_action_type ← py_getitem (positional_action_types conf) q;
        Ok [Some (mkActionAt (AT spatial_action_type)
                             (get_square (game env) spatial_x spatial_y))]
  end.

(** [BotBowlEnv._compute_action_idx] *)
Definition _compute_action_idx (action : Action) (flip : option bool)
    (env : BotBowlEnv) : result Z :=
  let flip :=
    match flip with Some b => b | None => away_team_active env end in
  let conf := env_conf env in
  let positional := AT <$> positional_action_types conf in
  if py_in (action_type action) (simple_action_types conf) then
    match py_index (action_type action) (simple_action_types conf) with
    | Some i => Ok (Z.of_nat i)
    | None => Raise ValueError
    end
  else if py_in (action_type action) positional then
    pos ← match position action with
          | Some p => Ok p
          | None =>
              match player action with
              | Some pl => match player_position pl with
                           | Some p => Ok p
                           | None => Raise AttributeError
                           end
              | None => Raise AttributeError
              end
          end;
    let x0 := if flip then width env - x pos - 1 else x pos in
    let spatial_index := x0 + y pos * width env in
    match py_index (action_type action) positional with
    | Some position_action_index =>
        Ok (Z.of_nat (length (simple_action_types conf))
            + board_squares env * Z.of_nat position_action_index
            + spatial_index)
    | None => Raise ValueError
    end
  else Raise AttributeError.

(** [BotBowlEnv.get_step_return] *)
Definition get_step_return (skip_observation : bool) (env : BotBowlEnv)
  : result (EnvStepReturn * BotBowlEnv) :=
  let done := game_over (state (game env)) in
  r ← (if done || skip_observation
       then Ok ((None, None, None) : StepObs, env)
       else o ← get_state None env;
            Ok ((Some o.1.1.1, Some o.1.1.2, Some o.1.2) : StepObs, o.2));
  let info : Info := ∅ in
  let reward := 0%Q in
  Ok ((r.1, reward, done, info), r.2).

(** [self.game.step(action)], the call recorded. *)
Definition do_game_step (a : option Action) (env : BotBowlEnv) : BotBowlEnv :=
  set_game (game_step a (game env)) [CallStep a] env.

(** [BotBowlEnv.step] *)
Definition step (action_idx : option Z) (skip_observation : bool)
    (env : BotBowlEnv) : result (EnvStepReturn * BotBowlEnv) :=
  action_objects ← _compute_action action_idx None env;
  let env := foldl (fun e a => do_game_step a e) env action_objects in
  get_step_return skip_observation env.

(** [BotBowlEnv.reset]: a sub-seed is drawn and a new game replaces the
    old one. *)
Definition reset (skip_observation : bool) (env : BotBowlEnv)
  : result (option EnvObs * BotBowlEnv) :=
  let seed := randint (_seed env) (rng_draws env) in
  let env :=
    {| env_conf := env_conf env; game := make_game (env_conf env) seed;
       width := width env; height := height env;
       board_squares := board_squares env;
       num_non_spatial_observables := num_non_spatial_observables env;
       _seed := _seed env; rng_draws := S (rng_draws env);
       engine_log := engine_log env |} in
  if skip_observation then Ok (None, env)
  else o ← get_state None env; Ok (Some o.1, o.2).

(** [BotBowlEnv.__init__] for a configuration and a seed, with the arena
    that [load_arena] returned: the attributes are set with no
    non-spatial length yet, and [reset] makes the first game and the first
    observation. *)
Definition BotBowlEnv_init (conf : EnvConf) (arena : Arena) (seed : Z)
  : result BotBowlEnv :=
  let sub_seed := randint seed 0 in
  let env :=
    {| env_conf := conf; game := make_game conf sub_seed;
       width := arena_width arena; height := arena_height arena;
       board_squares := arena_width arena * arena_height arena;
       num_non_spatial_observables := None;
       _seed := seed; rng_draws := 1;
       engine_log := [] |} in
  o ← get_state None env; Ok o.2.

(** ** The wrappers.  The wrapped environment is what its [step] does. *)
Definition StepFn : Type :=
  option Z -> bool -> BotBowlEnv -> result (EnvStepReturn * BotBowlEnv).



Definition Touchdown (p : Player) : Procedure :=
  {| proc_type := procedures.Touchdown; proc_player := Some p |}.



End BotBowlEnv.

(** ** The vocabulary of the properties of the environment *)

(** What [EnvConf.__init__] leaves in a configuration, whatever the size and
    the extras: the twenty fixed simple action types followed by the
    formations, the seventeen positional ones, their concatenation, the
    procedures tracked, and the available-position layers first. *)
Record conf_built (conf : EnvConf) : Prop := {
  built_simple :
    simple_action_types conf
    = (AT <$> fixed_simple_action_types) ++ (Form <$> formations conf);
  built_positional :
    positional_action_types conf = fixed_positional_action_types;
  built_action_types :
    action_types conf
    = simple_action_types conf ++ (AT <$> positional_action_types conf);
  built_procedures : conf_procedures conf = fixed_procedures;
  built_layers :
    exists rest,
      layers conf
      = (AvailablePositionLayer <$> fixed_positional_action_types) ++ rest
}.

(** The indices of the formation entries of the simple catalogue. *)
Definition formation_index (conf : EnvConf) (i : Z) : Prop :=
  Z.of_nat (length (simple_action_types conf))
  - Z.of_nat (length (formations conf)) <= i
  < Z.of_nat (length (simple_action_types conf)).

(** The size of the index space: what the action mask covers. *)
Definition num_actions (env : BotBowlEnv) : Z :=
  Z.of_nat (length (simple_action_types (env_conf env)))
  + Z.of_nat (length (positional_action_types (env_conf env)))
    * board_squares env.

(** An array of [h] rows and [w] columns. *)
Definition is_grid (h w : nat) (g : Grid) : Prop :=
  length g = h /\ Forall (fun r => length r = w) g.

(** The length of the buffer that a call of [get_state] allocates. *)
Definition buffer_len (env : BotBowlEnv) : nat :=
  match num_non_spatial_observables env with None => 2000 | Some n => n end.

(** The length of the layout that [get_state] writes, the index after the
    last slot written: 16 slots of game state, 22 of team state, 6 of the
    turn, 6 of the player action, 23 procedures, the counter value that [zip]
    drops, and the legality flags. *)
Definition layout_len (conf : EnvConf) : nat :=
  (74 + length (action_types conf))%nat.

(** The legality flags that [get_state] computes for an environment. *)
Definition aa_types_of (env : BotBowlEnv) : list Q :=
  let g := game env in
  aa_entry g (active_team g)
    (bool_decide (proc_type <$> get_procedure g = Some procedures.Setup))
    ((fun c => AT (choice_action_type c)) <$> get_available_actions g)
  <$> action_types (env_conf env).

(** The flip that a call uses: the one given, or whether away is active. *)
Definition flip_of (flip : option bool) (env : BotBowlEnv) : bool :=
  match flip with Some b => b | None => away_team_active env end.

(** The environment that a call of [get_state] leaves. *)
Definition after_get_state (env : BotBowlEnv) : BotBowlEnv :=
  match num_non_spatial_observables env with
  | None => set_num_non_spatial_observables (layout_len (env_conf env)) env
  | Some _ => env
  end.

(** [None, None, None] *)
Definition none_obs : StepObs := (None, None, None).

Section Observation.
Variable layer_get : FeatureLayer -> Game -> Grid.

(** The spatial observation and the action mask that [get_state] computes
    for an environment. *)
Definition spatial_of (flip : option bool) (env : BotBowlEnv) : Tensor :=
  let t : Tensor := (fun l => layer_get l (game env)) <$> layers (env_conf env) in
  if flip_of flip env then np_flip2 t else t.

Definition mask_of (flip : option bool) (env : BotBowlEnv) : list bool :=
  positive <$> (firstn (length (simple_action_types (env_conf env)))
                       (aa_types_of env)
                ++ flatten_first
                     (length (positional_action_types (env_conf env)))
                     (spatial_of flip env)).

(** The layers return arrays of the board's dimensions. *)
Definition layers_shaped (env : BotBowlEnv) : Prop :=
  forall l g, is_grid (Z.to_nat (height env)) (Z.to_nat (width env))
                      (layer_get l g).

End Observation.

End Env.

(** * botbowl/web/api.py *)

Module Api.

(** A Python dict whose order of insertion matters: the items in order, one
    per key.  [d[k] = v] keeps the place of a key that is there and appends a
    new one. *)
Fixpoint dict_set {V} (k : Z) (v : V) (d : list (Z * V)) : list (Z * V) :=
  match d with
  | [] => [(k, v)]
  | (k', v') :: d' =>
      if decide (k' = k) then (k, v) :: d' else (k', v') :: dict_set k v d'
  end.

Record ReplayStep := { step_payload : string }.

Record Replay := {
  replay_id : string;
  steps : list (Z * ReplayStep)
}.

Definition set_steps (r : Replay) (s : list (Z * ReplayStep)) : Replay :=
  {| replay_id := replay_id r; steps := s |}.

Record LoadedTeam := { loaded_team_name : string; loaded_board_size : Z }.

(** The module's globals: the in-memory host (modelled from the spec: a
    registry from game identifiers to live games), the two caches, and the
    calls made into the engine, each with the identifier of its game.
    [uuid_count] numbers the identifiers drawn so far. *)
Record ApiState := {
  host : gmap string Game;
  replay_cache : gmap string Replay;
  step_cache : gmap string (list (Z * ReplayStep));
  uuid_count : nat;
  api_log : list (string * EngineCall)
}.

Definition initial_state : ApiState :=
  {| host := ∅; replay_cache := ∅; step_cache := ∅; uuid_count := 0%nat;
     api_log := [] |}.

Definition get_config_name (board_size : Z) : string :=
  "web-" +:+ pretty board_size +:+ ".json".

Definition game_modes : gmap string string :=
  <["standard" := get_config_name 11]>
  (<["7v7" := get_config_name 7]>
  (<["5v5" := get_config_name 5]>
  (<["3v3" := get_config_name 3]>
  (<["1v1" := get_config_name 1]> ∅)))).

(** The default of [new_game]'s [game_mode] argument. *)
Definition default_game_mode : string := "Standard".

Section Api.
(** What is not in the sources: the loaders, the identifiers that [uuid1]
    gives, the game that [Game(...); game.init()] gives, what a step makes of
    a game, and the replay that storage holds for an identifier. *)
Variable load_config : string -> result Configuration.
Variable load_team_by_name : string -> Z -> result LoadedTeam.
Variable uuid1 : nat -> string.
Variable make_game :
  string -> LoadedTeam -> LoadedTeam -> Agent -> Agent -> Configuration -> Game.
Variable game_step : option Action -> Game -> Game.
Variable load_replay : string -> result Replay.

(** [new_game]; an absent [game_mode] is the default. *)
Definition new_game (away_team_name home_team_name : string)
    (away_agent home_agent : option Agent) (game_mode : option string)
    (st : ApiState) : result (Game * ApiState) :=
  let game_mode := default default_game_mode game_mode in
  away_agent ← match away_agent with
               | Some a => Ok a | None => Raise AssertionError end;
  home_agent ← match home_agent with
               | Some a => Ok a | None => Raise AssertionError end;
  config_name ← match game_modes !! game_mode with
                | Some n => Ok n | None => Raise KeyError end;
  config ← load_config config_name;
  let board_size := pitch_max config in
  home ← load_team_by_name home_team_name board_size;
  away ← load_team_by_name away_team_name board_size;
  let game_id := uuid1 (uuid_count st) in
  let game := make_game game_id home away home_agent away_agent config in
  Ok (game,
      {| host := <[game_id := game]> (host st);
         replay_cache := replay_cache st; step_cache := step_cache st;
         uuid_count := S (uuid_count st); api_log := api_log st |}).

(** [game.step(a)] on the game registered under [game_id]: the game object
    is changed in place, so the host sees the change. *)
Definition host_step (game_id : string) (a : option Action) (game : Game)
    (st : ApiState) : Game * ApiState :=
  let game' := game_step a game in
  (game',
   {| host := <[game_id := game']> (host st);
      replay_cache := replay_cache st; step_cache := step_cache st;
      uuid_count := uuid_count st;
      api_log := api_log st ++ [(game_id, CallStep a)] |}).

(** [step] *)
Definition step (game_id : string) (action : option Action) (st : ApiState)
  : result (Game * ApiState) :=
  match host st !! game_id with
  | None => Raise AttributeError
  | Some game =>
      inject ←
        (if negb (is_started game) then
           match get_available_actions game with
           | [] => Raise IndexError
           | action_choice :: _ =>
               let agent := get_team_agent game (choice_team action_choice) in
               let other_agent := get_other_agent game agent in
               Ok (negb (human agent) && human other_agent)
           end
         else Ok false);
      if inject : bool then
        let a := mkAction (AT ActionType.START_GAME) in
        Ok (host_step game_id (Some a) game st)
      else
        Ok (host_step game_id action game st)
  end.

(** The loop of [get_replay] over the cached items, with its [break]. *)
Fixpoint replay_window (items steps : list (Z * ReplayStep))
  : list (Z * ReplayStep) :=
  match items with
  | [] => steps
  | (i, s) :: items' =>
      if 100 <=? Z.of_nat (length steps) then steps
      else replay_window items' (dict_set i s steps)
  end.

(** [get_replay].  The replay object returned is the one in the cache: its
    [steps] attribute is assigned, and the cache sees it. *)
Definition get_replay (rid : string) (st : ApiState)
  : result (Replay * ApiState) :=
  r ← match replay_cache st !! rid with
      | Some replay => Ok (replay, st)
      | None =>
          replay ← load_replay rid;
          let steps := foldl (fun d it => dict_set it.1 it.2 d) [] (steps replay) in
          let replay := set_steps replay [] in
          Ok (replay,
              {| host := host st;
                 replay_cache := <[rid := replay]> (replay_cache st);
                 step_cache := <[rid := steps]> (step_cache st);
                 uuid_count := uuid_count st; api_log := api_log st |})
      end;
  let '(replay, st) := r in
  full ← match step_cache st !! rid with
         | Some d => Ok d | None => Raise KeyError end;
  let replay := set_steps replay (replay_window full []) in
  Ok (replay,
      {| host := host st;
         replay_cache := <[rid := replay]> (replay_cache st);
         step_cache := step_cache st;
         uuid_count := uuid_count st; api_log := api_log st |}).

(** The loop of [get_replay_steps], with its counter [c]. *)
Fixpoint replay_steps_loop (from_idx num_steps : Z)
    (items : list (Z * ReplayStep)) (c : Z) (steps : list (Z * ReplayStep))
  : list (Z * ReplayStep) :=
  match items with
  | [] => steps
  | (i, s) :: items' =>
      if c <? from_idx then
        replay_steps_loop from_idx num_steps items' (c + 1) steps
      else if num_steps <=? Z.of_nat (length steps) then steps
      else replay_steps_loop from_idx num_steps items' (c + 1)
                             (dict_set i s steps)
  end.

(** [get_replay_steps] *)
Definition get_replay_steps (rid : string) (from_idx num_steps : Z)
    (st : ApiState) : result (list (Z * ReplayStep)) :=
  match replay_cache st !! rid with
  | None => Ok []
  | Some _ =>
      full ← match step_cache st !! rid with
             | Some d => Ok d | None => Raise KeyError end;
      Ok (replay_steps_loop from_idx num_steps full 0 [])
  end.

End Api.

(** The state of the caches that the code keeps: a replay in the replay
    cache has its history in the step cache, and a cached history has one
    item per key. *)
Definition caches_ok (st : ApiState) : Prop :=
  (forall rid, is_Some (replay_cache st !! rid) -> is_Some (step_cache st !! rid))
  /\ (forall rid d, step_cache st !! rid = Some d -> NoDup d.*1).

(** The test of [step] on a game that has not started: the first available
    action is of a team whose agent is not human, and the other agent is. *)
Definition bot_starts (game : Game) : Prop :=
  is_started game = false
  /\ exists action_choice rest,
       get_available_actions game = action_choice :: rest
       /\ human (get_team_agent game (choice_team action_choice)) = false
       /\ human (get_other_agent game
                   (get_team_agent game (choice_team action_choice))) = true.

(** The other cases in which [step] goes on: the game has started, or the
    first available action is of a human's team, or the other agent is not
    human. *)
Definition caller_steps (game : Game) : Prop :=
  is_started game = true
  \/ exists action_choice rest,
       get_available_actions game = action_choice :: rest
       /\ (human (get_team_agent game (choice_team action_choice)) = true
           \/ human (get_other_agent game
                       (get_team_agent game (choice_team action_choice)))
              = false).

End Api.

(** * More of botbowl/ai/env.py *)

Module EnvMore.
Import Env.

(** The argument of [gym.spaces.Discrete] in [BotBowlEnv.__init__]: the
    size of the action space that the environment declares. *)
Definition action_space (env : BotBowlEnv) : Z :=
  Z.of_nat (length (action_types (env_conf env))).

(** [BotBowlEnv.seed]: a seed given replaces the seed and restarts the
    random stream; the seed in use is returned. *)
Definition seed (s : option Z) (env : BotBowlEnv) : Z * BotBowlEnv :=
  match s with
  | Some s =>
      (s, {| env_conf := env_conf env; game := game env; width := width env;
             height := height env; board_squares := board_squares env;
             num_non_spatial_observables := num_non_spatial_observables env;
             _seed := s; rng_draws := 0; engine_log := engine_log env |})
  | None => (_seed env, env)
  end.

Section Reset.
Variable layer_get : FeatureLayer -> Game -> Grid.
Variable make_game : EnvConf -> Z -> Game.
Variable randint : Z -> nat -> Z.

(** The environment that a [reset] without observation leaves. *)
Definition after_reset (env : BotBowlEnv) : BotBowlEnv :=
  match reset layer_get make_game randint true env with
  | Ok r => r.2
  | Raise _ => env
  end.
End Reset.

(** Two buffers that agree outside the slots from [lo] to [hi - 1]. *)
Definition same_outside (lo hi : nat) (b b' : list Q) : Prop :=
  forall j, (j < lo \/ hi <= j)%nat -> b' !! j = b !! j.

(** What [_create_agent] is given: an agent object or a name. *)
Inductive AgentOption :=
| OptAgent (a : Agent)
| OptName (name : string).

Section CreateAgent.
(** Not in the sources: the random bot of a name and a seed, the names the
    registry lists and the bot it makes for a name. *)
Variable RandomBot : string -> option Z -> Agent.
Variable registry_list : list string.
Variable registry_make : string -> Agent.

(** [BotBowlEnv._create_agent] *)
Definition _create_agent (agent_option : AgentOption) (seed : option Z)
  : result Agent :=
  match agent_option with
  | OptAgent a => Ok a
  | OptName name =>
      if decide (name = "human") then
        Ok {| agent_name := "Gym Learner"; human := true |}
      else if decide (name = "random") then
        Ok (RandomBot "Random bot" seed)
      else if py_in name registry_list then
        Ok (registry_make name)
      else Raise AttributeError
  end.
End CreateAgent.

(** ** The chain of wrappers, as the objects that [env] links *)

Inductive WrapperType :=
| TBotBowlEnv | TBotBowlWrapper | TRewardWrapper | TScriptedActionWrapper
| TPPCGWrapper.
#[global] Instance WrapperType_eq_dec : EqDecision WrapperType.
Proof. solve_decision. Defined.

Inductive Wrapped :=
| RootEnv
| BotBowlWrapper (env : Wrapped)
| RewardWrapper (env : Wrapped) (home_reward_func : Game -> Q)
                (away_reward_func : option (Game -> Q))
| ScriptedActionWrapper (env : Wrapped) (scripted_func : Game -> option Action)
| PPCGWrapper (env : Wrapped) (difficulty : Q).

(** [type(w)] *)
Definition type_of (w : Wrapped) : WrapperType :=
  match w with
  | RootEnv => TBotBowlEnv
  | BotBowlWrapper _ => TBotBowlWrapper
  | RewardWrapper _ _ _ => TRewardWrapper
  | ScriptedActionWrapper _ _ => TScriptedActionWrapper
  | PPCGWrapper _ _ => TPPCGWrapper
  end.

(** [w.env] of a wrapper *)
Definition inner_env (w : Wrapped) : option Wrapped :=
  match w with
  | RootEnv => None
  | BotBowlWrapper e | RewardWrapper e _ _ | ScriptedActionWrapper e _
  | PPCGWrapper e _ => Some e
  end.

(** [BotBowlWrapper.get_wrapper_with_type]: the walk stops at the first
    object that is no wrapper. *)
Fixpoint get_wrapper_with_type (w : Wrapped) (wrapper_type : WrapperType)
  : option Wrapped :=
  match w with
  | RootEnv => None
  | BotBowlWrapper e | RewardWrapper e _ _ | ScriptedActionWrapper e _
  | PPCGWrapper e _ =>
      if decide (type_of w = wrapper_type) then Some w
      else get_wrapper_with_type e wrapper_type
  end.

(** The wrappers of a chain, outermost first. *)
Fixpoint wrappers (w : Wrapped) : list Wrapped :=
  match w with
  | RootEnv => []
  | BotBowlWrapper e | RewardWrapper e _ _ | ScriptedActionWrapper e _
  | PPCGWrapper e _ => w :: wrappers e
  end.

Section ScriptedActionWrapper.
Variable layer_get : FeatureLayer -> Game -> Grid.
Variable game_step : option Action -> Game -> Game.

(** [ScriptedActionWrapper.do_scripted_actions].  The loop runs as long as
    the scripted function gives actions; [fuel] bounds the number of
    iterations, and [None] is a loop that has not ended within it. *)
Fixpoint do_scripted_actions (fuel : nat)
    (scripted_func : Game -> option Action) (env : BotBowlEnv)
  : option BotBowlEnv :=
  match fuel with
  | O => None
  | S fuel' =>
      if negb (game_over (state (game env)))
         && (0 <? Z.of_nat (length (stack_items (state (game env)))))
      then match scripted_func (game env) with
           | None => Some env
           | Some action =>
               do_scripted_actions fuel' scripted_func
                 (do_game_step game_step (Some action) env)
           end
      else Some env
  end.

(** [ScriptedActionWrapper.step] *)
Definition ScriptedActionWrapper_step (fuel : nat) (inner : StepFn)
    (scripted_func : Game -> option Action)
    (action : option Z) (skip_observation : bool) (env : BotBowlEnv)
  : option (result (EnvStepReturn * BotBowlEnv)) :=
  match inner action true env with
  | Raise e => Some (Raise e)
  | Ok r =>
      env' ← do_scripted_actions fuel scripted_func r.2;
      Some (get_step_return layer_get skip_observation env')
  end.

(** [ScriptedActionWrapper.reset], over the [reset] of the wrapped
    environment. *)
Definition ScriptedActionWrapper_reset (fuel : nat)
    (inner_reset : BotBowlEnv -> result (option EnvObs * BotBowlEnv))
    (scripted_func : Game -> option Action) (env : BotBowlEnv)
  : option (result (EnvObs * BotBowlEnv)) :=
  match inner_reset env with
  | Raise e => Some (Raise e)
  | Ok r =>
      env' ← do_scripted_actions fuel scripted_func r.2;
      Some (get_state layer_get None env')
  end.
End ScriptedActionWrapper.


End EnvMore.

(** * More of botbowl/web/api.py *)

Module ApiMore.
Import Api.

(** [s.replace(c, "")] for a pattern of one character. *)
Fixpoint remove_char (c : Ascii.ascii) (s : string) : string :=
  match s with
  | EmptyString => EmptyString
  | String a s' =>
      if decide (a = c) then remove_char c s' else String a (remove_char c s')
  end.

(** [s.lower()] on a string of ASCII characters. *)
Definition lower_ascii (a : Ascii.ascii) : Ascii.ascii :=
  let n := Ascii.nat_of_ascii a in
  if (65 <=? n)%nat && (n <=? 90)%nat then Ascii.ascii_of_nat (n + 32) else a.

Fixpoint lower (s : string) : string :=
  match s with
  | EmptyString => EmptyString
  | String a s' => String (lower_ascii a) (lower s')
  end.

Fixpoint chars (s : string) : list Ascii.ascii :=
  match s with
  | EmptyString => []
  | String a s' => a :: chars s'
  end.

Definition is_ascii (s : string) : Prop :=
  Forall (fun a => (Ascii.nat_of_ascii a < 128)%nat) (chars s).

(** The characters "/" and ".". *)
Definition slash : Ascii.ascii := Ascii.ascii_of_nat 47.
Definition dot : Ascii.ascii := Ascii.ascii_of_nat 46.

(** The name that [save_game] hands to the host. *)
Definition saved_name (name : string) : string :=
  lower (remove_char dot (remove_char slash name)).

Section ApiMore.
(** Not in the sources: the host's store of saved games with what
    [host.save_game] makes of it, the current actor of a game, what
    [game.refresh()] makes of a game, and the loaders. *)
Variable Saves : Type.
Variable host_save_game : string -> string -> Saves -> Saves.
Variable actor : Game -> option Agent.
Variable refresh : Game -> Game.
Variable load_config : string -> result Configuration.
Variable load_all_teams : Z -> list LoadedTeam.

(** [save_game] *)
Definition save_game (game_id name : string) (saves : Saves) : Saves :=
  host_save_game game_id (saved_name name) saves.

(** [save_game_exists], over what [host.get_saved_games()] returned: a list
    of tuples whose second component is the name. *)
Definition save_game_exists (saved_games : list (string * string))
    (name : string) : bool :=
  existsb (fun save => bool_decide (save.2 = lower name)) saved_games.

(** [get_game]: the game object is refreshed in place, so the host sees
    the refreshed game. *)
Definition get_game (game_id : string) (st : ApiState)
  : option Game * ApiState :=
  match host st !! game_id with
  | None => (None, st)
  | Some game =>
      match actor game with
      | Some a =>
          if human a then
            let game' := refresh game in
            (Some game',
             {| host := <[game_id := game']> (host st);
                replay_cache := replay_cache st;
                step_cache := step_cache st;
                uuid_count := uuid_count st; api_log := api_log st |})
          else (Some game, st)
      | None => (Some game, st)
      end
  end.

(** [get_teams] *)
Definition get_teams (game_mode : string) : result (list LoadedTeam) :=
  config_name ← match game_modes !! game_mode with
                | Some n => Ok n | None => Raise KeyError end;
  config ← load_config config_name;
  let board_size := pitch_max config in
  Ok (load_all_teams board_size).

End ApiMore.

End ApiMore.

(** * Concrete instances

    A small engine and board on which the definitions above evaluate. *)

Module Demo.
Import Env.

Definition load_config (name : string) : result Configuration :=
  Ok {| config_name := name; pathfinding_enabled := true;
        config_ruleset := "BB2016"; config_arena := "ff-pitch-3.txt";
        pitch_max := 3 |}.

Definition arena : Arena := {| arena_width := 8; arena_height := 3 |}.

Definition carrier : Player :=
  {| player_id := "home-1"; player_team := Home;
     player_position := Some {| x := 6; y := 1 |} |}.

Definition team0 : TeamState :=
  {| score := 0; turn := 1; rerolls_start := 3; rerolls := 3;
     ass_coaches := 0; cheerleaders := 0; bribes := 0; babes := 0;
     apothecaries := 1; reroll_used := false; fame := 0 |}.

Definition game0 (active : option Team) : Game :=
  {| game_id := "g1";
     state := {| half := 1; round := 0; weather := WeatherType.NICE;
                 current_team := Some Home; kicking_first_half := Some Away;
                 kicking_this_drive := Some Away;
                 active_player := Some carrier;
                 stack_items := [ {| proc_type := procedures.Turn;
                                     proc_player := None |} ];
                 game_over := false;
                 team_state := fun _ => team0 |};
     active_team := active;
     get_reserves := fun _ => [];
     get_knocked_out := fun _ => [];
     get_casualties := fun _ => [];
     current_turn := Some {| proc_type := procedures.Turn;
                             proc_player := None |};
     is_blitz_available := true; is_pass_available := true;
     is_handoff_available := true; is_foul_available := true;
     is_blitz := false; is_quick_snap := false;
     get_player_action_type := Some PlayerActionType.MOVE;
     get_available_actions :=
       [ {| choice_action_type := ActionType.MOVE; choice_team := Home |};
         {| choice_action_type := ActionType.END_PLAYER_TURN;
            choice_team := Home |} ];
     is_setup_legal := fun _ => true;
     get_ball_carrier := Some carrier;
     is_started := true;
     home_agent := {| agent_name := "Gym Learner"; human := true |};
     away_agent := {| agent_name := "Random bot"; human := false |} |}.

Definition grid_of (h w : nat) (v : Q) : Grid := replicate h (replicate w v).

(** The squares a move may go to are all squares; no other layer is set. *)
Definition layer_get (l : FeatureLayer) (g : Game) : Grid :=
  match l with
  | AvailablePositionLayer ActionType.MOVE => grid_of 3 8 1%Q
  | _ => grid_of 3 8 0%Q
  end.

Definition formation_actions (f : Formation) (g : Game) (t : option Team)
  : list Action := [].

(** An engine whose step and whose [set_available_actions] change nothing,
    a game constructor that always gives the same game, and a random stream
    that counts up from its seed. *)
Definition game_step (a : option Action) (g : Game) : Game := g.
Definition make_game (conf : EnvConf) (seed : Z) : Game := game0 (Some Home).
Definition randint (seed : Z) (n : nat) : Z := seed + Z.of_nat n.

Definition conf : EnvConf :=
  {| size := 3;
     config := {| config_name := "gym-3"; pathfinding_enabled := false;
                  config_ruleset := "BB2016";
                  config_arena := "ff-pitch-3.txt"; pitch_max := 3 |};
     simple_action_types :=
       (AT <$> fixed_simple_action_types)
       ++ [Form (load_formation "def_spread.txt" 3);
           Form (load_formation "off_wedge.txt" 3)];
     positional_action_types := fixed_positional_action_types;
     action_types :=
       ((AT <$> fixed_simple_action_types)
        ++ [Form (load_formation "def_spread.txt" 3);
            Form (load_formation "off_wedge.txt" 3)])
       ++ (AT <$> fixed_positional_action_types);
     layers := (AvailablePositionLayer <$> fixed_positional_action_types)
               ++ fixed_layers;
     conf_procedures := fixed_procedures;
     formations := [load_formation "def_spread.txt" 3;
                    load_formation "off_wedge.txt" 3] |}.

(** An environment before its first observation and after it. *)
Definition env_new (active : option Team) : BotBowlEnv :=
  {| env_conf := conf; game := game0 active;
     width := 8; height := 3; board_squares := 24;
     num_non_spatial_observables := None;
     _seed := 7; rng_draws := 1; engine_log := [] |}.

Definition env0 (active : option Team) : BotBowlEnv :=
  set_num_non_spatial_observables 113 (env_new active).

(** The web side: a game that has not started, whose first available action
    is of the away team, played by a bot against a human. *)
Definition web_game : Game :=
  {| game_id := "g1";
     state := state (game0 None);
     active_team := Some Away;
     get_reserves := fun _ => [];
     get_knocked_out := fun _ => [];
     get_casualties := fun _ => [];
     current_turn := None;
     is_blitz_available := false; is_pass_available := false;
     is_handoff_available := false; is_foul_available := false;
     is_blitz := false; is_quick_snap := false;
     get_player_action_type := None;
     get_available_actions :=
       [ {| choice_action_type := ActionType.START_GAME;
            choice_team := Away |} ];
     is_setup_legal := fun _ => false;
     get_ball_carrier := None;
     is_started := false;
     home_agent := {| agent_name := "human"; human := true |};
     away_agent := {| agent_name := "scripted"; human := false |} |}.

Definition web_state : Api.ApiState :=
  {| Api.host := {[ "g1" := web_game ]};
     Api.replay_cache := ∅; Api.step_cache := ∅;
     Api.uuid_count := 0; Api.api_log := [] |}.

Definition end_turn : option Action :=
  Some (mkAction (AT ActionType.END_TURN)).

(** Storage holds one replay, of three steps. *)
Definition load_replay (rid : string) : result Api.Replay :=
  if decide (rid = "r1") then
    Ok {| Api.replay_id := rid;
          Api.steps := [ (0, {| Api.step_payload := "a" |});
                         (1, {| Api.step_payload := "b" |});
                         (2, {| Api.step_payload := "c" |}) ] |}
  else Raise KeyError.

End Demo.

(** More instances: an engine whose step ends the turn of the active team,
    a scripted function that ends the turn of the home team, the loaders of
    the web side with a game that offers no action, and a store of saved
    games. *)
Module DemoMore.
Import Env.

Definition game_step (a : option Action) (g : Game) : Game := Demo.game0 None.

Definition scripted_func (g : Game) : option Action :=
  if bool_decide (active_team g = Some Home) then Demo.end_turn else None.

Definition load_config (name : string) : result Configuration :=
  Ok {| config_name := name; pathfinding_enabled := true;
        config_ruleset := "BB2016"; config_arena := "ff-pitch-11.txt";
        pitch_max := 11 |}.

Definition load_team_by_name (name : string) (board_size : Z)
  : result Api.LoadedTeam :=
  Ok {| Api.loaded_team_name := name; Api.loaded_board_size := board_size |}.

Definition uuid1 (n : nat) : string := "game-" +:+ pretty n.

Definition make_game (id : string) (home away : Api.LoadedTeam)
    (home_agent away_agent : Agent) (config : Configuration) : Game :=
  {| game_id := id;
     state := state (Demo.game0 None);
     active_team := None;
     get_reserves := fun _ => [];
     get_knocked_out := fun _ => [];
     get_casualties := fun _ => [];
     current_turn := None;
     is_blitz_available := false; is_pass_available := false;
     is_handoff_available := false; is_foul_available := false;
     is_blitz := false; is_quick_snap := false;
     get_player_action_type := None;
     get_available_actions := [];
     is_setup_legal := fun _ => false;
     get_ball_carrier := None;
     is_started := false;
     home_agent := home_agent;
     away_agent := away_agent |}.

Definition learner : Agent := {| agent_name := "human"; human := true |}.
Definition bot : Agent := {| agent_name := "scripted"; human := false |}.

(** The actor of a game is its home agent; refreshing changes nothing. *)
Definition actor (g : Game) : option Agent := Some (home_agent g).
Definition refresh (g : Game) : Game := g.

(** A host with one game, which has not started and offers no action. *)
Definition idle_game : Game :=
  make_game "g2" {| Api.loaded_team_name := "human"; Api.loaded_board_size := 11 |}
            {| Api.loaded_team_name := "orc"; Api.loaded_board_size := 11 |}
            learner bot
            {| config_name := "web-11.json"; pathfinding_enabled := true;
               config_ruleset := "BB2016"; config_arena := "ff-pitch-11.txt";
               pitch_max := 11 |}.

Definition idle_state : Api.ApiState :=
  {| Api.host := {[ "g2" := idle_game ]};
     Api.replay_cache := ∅; Api.step_cache := ∅;
     Api.uuid_count := 1; Api.api_log := [] |}.

(** Saved games as the tuples of a file and a name. *)
Definition host_save_game (game_id name : string)
    (saves : list (string * string)) : list (string * string) :=
  (game_id, name) :: saves.

End DemoMore.

(** * Properties *)

(** ** Python list operations *)

Lemma py_getitem_lookup {A} (l : list A) (i : nat) (a : A) :
  l !! i = Some a -> py_getitem l (Z.of_nat i) = Ok a.
Proof.
  intros Hl. unfold py_getitem.
  pose proof (lookup_lt_Some _ _ _ Hl) as Hlt.
  destruct (Z.ltb_spec (Z.of_nat i) 0) as [Hneg|_]; [lia|].
  destruct (Z.ltb_spec (Z.of_nat i) 0) as [Hneg|_]; [lia|].
  destruct (Z.leb_spec (Z.of_nat (length l)) (Z.of_nat i)) as [Hge|_]; [lia|].
  cbn [orb]. rewrite Nat2Z.id, Hl. reflexivity.
Qed.

Lemma py_getitem_elem_of {A} (l : list A) (i : Z) (a : A) :
  py_getitem l i = Ok a -> a ∈ l.
Proof.
  unfold py_getitem. destruct (_ || _); [discriminate|].
  destruct (l !! _) as [b|] eqn:E; [|discriminate].
  intros [= <-]. eapply list_elem_of_lookup_2, E.
Qed.

Lemma py_index_lookup `{EqDecision A} (l : list A) (n : nat) (a : A) :
  NoDup l -> l !! n = Some a -> py_index a l = Some n.
Proof.
  revert n. induction l as [|b l IH]; intros n Hnd Hl; [discriminate|].
  apply NoDup_cons in Hnd as [Hnotin Hnd]. cbn [py_index].
  destruct n as [|n]; cbn in Hl.
  - injection Hl as ->. rewrite decide_True; [reflexivity|reflexivity].
  - rewrite decide_False.
    + rewrite (IH n Hnd Hl). reflexivity.
    + intros ->. apply Hnotin. eapply list_elem_of_lookup_2, Hl.
Qed.

Lemma py_index_app_l `{EqDecision A} (l1 l2 : list A) (n : nat) (a : A) :
  py_index a l1 = Some n -> py_index a (l1 ++ l2) = Some n.
Proof.
  revert n. induction l1 as [|b l1 IH]; intros n; cbn [py_index app]; [discriminate|].
  destruct (decide (b = a)); [trivial|].
  destruct (py_index a l1) as [m|]; [|discriminate].
  intros [= <-]. rewrite (IH m eq_refl). reflexivity.
Qed.

Lemma py_in_true `{EqDecision A} (a : A) (l : list A) :
  py_in a l = true <-> a ∈ l.
Proof. unfold py_in. apply bool_decide_eq_true. Qed.

Lemma py_in_false `{EqDecision A} (a : A) (l : list A) :
  py_in a l = false <-> a ∉ l.
Proof. unfold py_in. apply bool_decide_eq_false. Qed.

(** A closed decidable proposition, settled by evaluating its decision. *)
Ltac by_evaluation :=
  match goal with
  | |- ?P =>
      let H := fresh in
      assert (H : bool_decide P = true) by (vm_compute; reflexivity);
      exact (bool_decide_eq_true_1 P H)
  end.

Module EnvProofs.
Import Env.

(** ** What [EnvConf.__init__] builds *)

Lemma EnvConf_init_built load_config size ef el pf conf :
  EnvConf_init load_config size ef el pf = Ok conf -> conf_built conf.
Proof.
  unfold EnvConf_init.
  destruct (load_config _) as [cfg|]; [|discriminate]. cbn.
  destruct (formation_defaults !! size) as [names|]; [|discriminate]. cbn.
  intros [= <-]. split; cbn; try reflexivity.
  destruct el as [ex|].
  - exists (fixed_layers ++ ex). reflexivity.
  - exists fixed_layers. reflexivity.
Qed.

Lemma fixed_simple_NoDup : NoDup (AT <$> fixed_simple_action_types).
Proof. by_evaluation. Qed.

Lemma fixed_positional_NoDup : NoDup (AT <$> fixed_positional_action_types).
Proof. by_evaluation. Qed.

Lemma fixed_positional_not_simple a :
  a ∈ fixed_positional_action_types -> a ∉ fixed_simple_action_types.
Proof.
  intros Hin Hin'.
  assert (Forall (fun a => a ∉ fixed_simple_action_types)
                 fixed_positional_action_types) as HF.
  { by_evaluation. }
  rewrite Forall_forall in HF. exact (HF a Hin Hin').
Qed.

Lemma END_SETUP_not_fixed :
  (ActionType.END_SETUP ∉ fixed_simple_action_types)
  /\ (ActionType.END_SETUP ∉ fixed_positional_action_types).
Proof.
  split; by_evaluation.
Qed.

Lemma AT_elem_of_fmap a (l : list ActionType.t) : AT a ∈ AT <$> l <-> a ∈ l.
Proof.
  rewrite list_elem_of_fmap. split.
  - intros (b & [= ->] & Hb). exact Hb.
  - intros Ha. exists a. split; [reflexivity|exact Ha].
Qed.

Lemma AT_not_Form a (fs : list Formation) : AT a ∉ Form <$> fs.
Proof. rewrite list_elem_of_fmap. intros (f & [=] & _). Qed.

Lemma END_SETUP_not_action_type conf :
  conf_built conf -> AT ActionType.END_SETUP ∉ action_types conf.
Proof.
  intros [Hs Hp Ha _ _]. rewrite Ha, Hs, Hp.
  rewrite !elem_of_app, !AT_elem_of_fmap.
  destruct END_SETUP_not_fixed as [H1 H2].
  intros [[H|H]|H]; [exact (H1 H)|exact (AT_not_Form _ _ H)|exact (H2 H)].
Qed.

(** ** The action codec *)

Lemma simple_length conf :
  conf_built conf ->
  length (simple_action_types conf) = (20 + length (formations conf))%nat.
Proof.
  intros [Hs _ _ _ _]. rewrite Hs, length_app, !length_fmap. reflexivity.
Qed.

Lemma action_types_length conf :
  conf_built conf ->
  length (action_types conf) = (length (simple_action_types conf) + 17)%nat.
Proof.
  intros [_ Hp Ha _ _]. rewrite Ha, Hp, length_app, !length_fmap. reflexivity.
Qed.

Lemma simple_lookup_fixed conf (n : nat) :
  conf_built conf -> (n < 20)%nat ->
  exists a, fixed_simple_action_types !! n = Some a
            /\ simple_action_types conf !! n = Some (AT a).
Proof.
  intros [Hs _ _ _ _] Hn.
  destruct (lookup_lt_is_Some_2 fixed_simple_action_types n Hn) as [a Ha].
  exists a. split; [exact Ha|].
  rewrite Hs, lookup_app_l by (rewrite length_fmap; exact Hn).
  rewrite list_lookup_fmap, Ha. reflexivity.
Qed.

Section Codec.
Variable formation_actions : Formation -> Game -> option Team -> list Action.

Lemma decode_simple conf env flip (n : nat) :
  conf_built conf -> env_conf env = conf -> (n < 20)%nat ->
  exists a, fixed_simple_action_types !! n = Some a
    /\ _compute_action formation_actions (Some (Z.of_nat n)) flip env
       = Ok [Some (mkAction (AT a))].
Proof.
  intros Hb <- Hn.
  destruct (simple_lookup_fixed _ n Hb Hn) as (a & Ha & Hl).
  exists a. split; [exact Ha|].
  pose proof (simple_length _ Hb) as Hlen.
  unfold _compute_action.
  destruct (Z.ltb_spec (Z.of_nat n)
              (Z.of_nat (length (simple_action_types (env_conf env)))))
    as [_|Hge]; [|lia].
  destruct (Z.leb_spec
              (Z.of_nat (length (simple_action_types (env_conf env)))
               - Z.of_nat (length (formations (env_conf env))))
              (Z.of_nat n)) as [Hle|_]; [lia|].
  rewrite (py_getitem_lookup _ _ _ Hl). reflexivity.
Qed.

Lemma encode_simple conf env flip (n : nat) a :
  conf_built conf -> env_conf env = conf ->
  fixed_simple_action_types !! n = Some a ->
  _compute_action_idx (mkAction (AT a)) flip env = Ok (Z.of_nat n).
Proof.
  intros Hb <- Ha. destruct Hb as [Hs _ _ _ _].
  unfold _compute_action_idx. cbn [action_type mkAction].
  assert (py_index (AT a) (simple_action_types (env_conf env)) = Some n) as Hi.
  { rewrite Hs. apply py_index_app_l, py_index_lookup.
    - exact fixed_simple_NoDup.
    - rewrite list_lookup_fmap, Ha. reflexivity. }
  assert (py_in (AT a) (simple_action_types (env_conf env)) = true) as Hin.
  { apply py_in_true. rewrite Hs, elem_of_app. left.
    apply AT_elem_of_fmap. eapply list_elem_of_lookup_2, Ha. }
  rewrite Hin, Hi. reflexivity.
Qed.

Lemma decode_positional conf env flip (i : Z) :
  conf_built conf -> env_conf env = conf ->
  0 < width env -> 0 < height env ->
  board_squares env = width env * height env ->
  Z.of_nat (length (simple_action_types conf)) <= i < num_actions env ->
  let s := i - Z.of_nat (length (simple_action_types conf)) in
  let p := s mod board_squares env in
  let fl := match flip with Some b => b | None => away_team_active env end in
  exists a,
    fixed_positional_action_types !! Z.to_nat (s / board_squares env) = Some a
    /\ _compute_action formation_actions (Some i) flip env
       = Ok [Some (mkActionAt (AT a)
               {| x := if fl then width env - p mod width env - 1
                       else p mod width env;
                  y := p / width env |})].
Proof.
  intros Hb <- Hw Hh Hbs Hi s p fl.
  pose proof Hb as [_ Hp _ _ _].
  unfold num_actions in Hi. rewrite Hp in Hi.
  change (length fixed_positional_action_types) with 17%nat in Hi.
  assert (0 < board_squares env) as Hpos by nia.
  assert (0 <= s < 17 * board_squares env) as Hs by (unfold s; lia).
  assert (0 <= s / board_squares env < 17) as Hq.
  { split; [apply Z.div_pos; lia|].
    apply Z.div_lt_upper_bound; lia. }
  destruct (lookup_lt_is_Some_2 fixed_positional_action_types
              (Z.to_nat (s / board_squares env))) as [a Ha].
  { change (length fixed_positional_action_types) with 17%nat. lia. }
  exists a. split; [exact Ha|].
  unfold _compute_action.
  destruct (Z.ltb_spec i (Z.of_nat (length (simple_action_types (env_conf env)))))
    as [Hlt|_]; [lia|].
  unfold py_mod, py_floordiv.
  destruct (Z.eqb_spec (board_squares env) 0) as [E|_]; [lia|].
  destruct (Z.eqb_spec (width env) 0) as [E|_]; [lia|].
  cbn [mbind result_bind].
  rewrite Hp.
  assert (py_getitem fixed_positional_action_types (s / board_squares env)
          = Ok a) as Hget.
  { rewrite <- (Z2Nat.id (s / board_squares env)) by lia.
    apply py_getitem_lookup, Ha. }
  unfold s in Hget. rewrite Hget. reflexivity.
Qed.

Lemma encode_positional conf env flip (q : nat) a (flipped : bool) (p : Z) :
  conf_built conf -> env_conf env = conf ->
  0 < width env ->
  fixed_positional_action_types !! q = Some a ->
  flipped = match flip with Some b => b | None => away_team_active env end ->
  _compute_action_idx
    (mkActionAt (AT a)
       {| x := if flipped then width env - p mod width env - 1
               else p mod width env;
          y := p / width env |}) flip env
  = Ok (Z.of_nat (length (simple_action_types conf))
        + board_squares env * Z.of_nat q + p).
Proof.
  intros Hb <- Hw Ha ->. destruct Hb as [Hs Hp _ _ _].
  unfold _compute_action_idx. cbn [action_type position mkActionAt x y].
  assert (a ∈ fixed_positional_action_types) as Hin
    by (eapply list_elem_of_lookup_2, Ha).
  assert (py_in (AT a) (simple_action_types (env_conf env)) = false) as Hnot.
  { apply py_in_false. rewrite Hs, elem_of_app, AT_elem_of_fmap.
    intros [H|H]; [exact (fixed_positional_not_simple _ Hin H)
                  |exact (AT_not_Form _ _ H)]. }
  rewrite Hnot, Hp.
  assert (py_in (AT a) (AT <$> fixed_positional_action_types) = true) as Hyes
    by (apply py_in_true, AT_elem_of_fmap, Hin).
  rewrite Hyes. cbn [mbind result_bind].
  rewrite (py_index_lookup _ q (AT a) fixed_positional_NoDup)
    by (rewrite list_lookup_fmap, Ha; reflexivity).
  f_equal.
  pose proof (Z.div_mod p (width env) ltac:(lia)) as Hdm.
  set (d := p / width env) in *. set (m := p mod width env) in *.
  clearbody d m.
  destruct (match flip with Some b => b | None => away_team_active env end);
    cbn [x y]; lia.
Qed.

(** The round trip on the whole index space. *)
Lemma action_index_roundtrip_full load_config size ef el pf conf env flip i :
  EnvConf_init load_config size ef el pf = Ok conf ->
  env_conf env = conf ->
  0 < width env -> 0 < height env ->
  board_squares env = width env * height env ->
  0 <= i < num_actions env ->
  ~ formation_index conf i ->
  exists a,
    _compute_action formation_actions (Some i) flip env = Ok [Some a]
    /\ _compute_action_idx a flip env = Ok i.
Proof.
  intros Hinit Hconf Hw Hh Hbs Hi Hnf.
  pose proof (EnvConf_init_built _ _ _ _ _ _ Hinit) as Hb.
  pose proof (simple_length _ Hb) as Hlen.
  unfold formation_index in Hnf.
  destruct (Z_lt_le_dec i (Z.of_nat (length (simple_action_types conf))))
    as [Hlt|Hge].
  - assert (i = Z.of_nat (Z.to_nat i)) as Hn by lia.
    assert (Z.to_nat i < 20)%nat as Hn20 by lia.
    destruct (decode_simple conf env flip _ Hb Hconf Hn20) as (a & Ha & Hdec).
    exists (mkAction (AT a)). rewrite Hn. split; [exact Hdec|].
    exact (encode_simple conf env flip _ a Hb Hconf Ha).
  - destruct (decode_positional conf env flip i Hb Hconf Hw Hh Hbs
                ltac:(lia)) as (a & Ha & Hdec).
    eexists. split; [exact Hdec|].
    rewrite (encode_positional conf env flip _ a _ _ Hb Hconf Hw Ha eq_refl).
    f_equal.
    set (s := i - Z.of_nat (length (simple_action_types conf))) in *.
    assert (0 < board_squares env) as Hpos by nia.
    assert (0 <= s) as Hs0 by (unfold s; lia).
    rewrite Z2Nat.id by (apply Z.div_pos; lia).
    pose proof (Z.div_mod s (board_squares env) ltac:(lia)) as Hdm.
    set (d := s / board_squares env) in *.
    set (m := s mod board_squares env) in *.
    clearbody d m. unfold s in *. lia.
Qed.

End Codec.

Section CodecClaims.
Variable formation_actions : Formation -> Game -> option Team -> list Action.

(** C1.  For a configuration built by [EnvConf.__init__] and an environment
    on a board with squares, every index [i] with
    [0 <= i < len(action_types)] that is not the index of a formation decodes
    with [_compute_action], under any flip choice, to exactly one action,
    and [_compute_action_idx] of that action under the same flip choice
    is [i]. *)
Theorem action_index_roundtrip load_config size ef el pf conf env flip i :
  EnvConf_init load_config size ef el pf = Ok conf ->
  env_conf env = conf ->
  0 < width env -> 0 < height env ->
  board_squares env = width env * height env ->
  0 <= i < Z.of_nat (length (action_types conf)) ->
  ~ formation_index conf i ->
  exists a,
    _compute_action formation_actions (Some i) flip env = Ok [Some a]
    /\ _compute_action_idx a flip env = Ok i.
Proof.
  intros Hinit Hconf Hw Hh Hbs Hi Hnf.
  pose proof (EnvConf_init_built _ _ _ _ _ _ Hinit) as Hb.
  apply (action_index_roundtrip_full formation_actions
           load_config size ef el pf conf env flip i); try assumption.
  rewrite (action_types_length _ Hb) in Hi.
  unfold num_actions. rewrite Hconf.
  destruct Hb as [_ Hp _ _ _]. rewrite Hp.
  change (length fixed_positional_action_types) with 17%nat.
  nia.
Qed.

(** A formation index decodes to the placements of its formation followed
    by one END_SETUP action. *)
Lemma decode_formation conf env flip i :
  conf_built conf -> env_conf env = conf ->
  formation_index conf i -> 0 <= i ->
  exists f,
    simple_action_types conf !! Z.to_nat i = Some (Form f)
    /\ _compute_action formation_actions (Some i) flip env
       = Ok ((Some <$> formation_actions f (game env) (active_team (game env)))
             ++ [Some (mkAction (AT ActionType.END_SETUP))]).
Proof.
  intros Hb <- [Hlo Hhi] H0.
  pose proof (simple_length _ Hb) as Hlen.
  pose proof Hb as [Hs _ _ _ _].
  destruct (lookup_lt_is_Some_2 (formations (env_conf env))
              (Z.to_nat i - 20)) as [f Hf]; [lia|].
  assert (simple_action_types (env_conf env) !! Z.to_nat i = Some (Form f))
    as Hl.
  { rewrite Hs, lookup_app_r by (rewrite length_fmap; cbn; lia).
    rewrite length_fmap. change (length fixed_simple_action_types) with 20%nat.
    rewrite list_lookup_fmap, Hf. reflexivity. }
  exists f. split; [exact Hl|].
  unfold _compute_action.
  destruct (Z.ltb_spec i (Z.of_nat (length (simple_action_types (env_conf env)))))
    as [_|Hge]; [|lia].
  destruct (Z.leb_spec
              (Z.of_nat (length (simple_action_types (env_conf env)))
               - Z.of_nat (length (formations (env_conf env)))) i)
    as [_|Hlt]; [|lia].
  rewrite <- (Z2Nat.id i) at 1 by lia.
  rewrite (py_getitem_lookup _ _ _ Hl). reflexivity.
Qed.

(** An index that is not the index of a formation never decodes to an
    END_SETUP action. *)
Lemma decode_no_END_SETUP conf env flip i acts a :
  conf_built conf -> env_conf env = conf ->
  ~ formation_index conf i ->
  _compute_action formation_actions (Some i) flip env = Ok acts ->
  Some a ∈ acts -> action_type a <> AT ActionType.END_SETUP.
Proof.
  intros Hb <- Hnf Hdec Hin.
  pose proof (END_SETUP_not_action_type _ Hb) as Hnot.
  pose proof Hb as [_ _ Hat _ _].
  cbn in Hdec. unfold formation_index in Hnf.
  destruct (Z.ltb_spec i (Z.of_nat (length (simple_action_types (env_conf env)))))
    as [Hlt|Hge].
  - destruct (Z.leb_spec
                (Z.of_nat (length (simple_action_types (env_conf env)))
                 - Z.of_nat (length (formations (env_conf env)))) i)
      as [Hle|_]; [lia|].
    destruct (py_getitem _ i) as [k|] eqn:Hk; [|discriminate].
    cbn in Hdec. injection Hdec as <-.
    apply list_elem_of_singleton in Hin. injection Hin as ->.
    cbn. intros ->. apply Hnot. rewrite Hat, elem_of_app. left.
    eapply py_getitem_elem_of, Hk.
  - destruct (py_mod _ _) as [p|]; [|discriminate]. cbn in Hdec.
    destruct (py_floordiv p _) as [r|]; [|discriminate]. cbn in Hdec.
    destruct (py_mod p _) as [c|]; [|discriminate]. cbn in Hdec.
    destruct (py_floordiv _ _) as [q|]; [|discriminate]. cbn in Hdec.
    destruct (py_getitem _ q) as [t|] eqn:Ht; [|discriminate].
    cbn in Hdec. injection Hdec as <-.
    apply list_elem_of_singleton in Hin. injection Hin as ->.
    cbn. intros [= ->]. apply Hnot. rewrite Hat, elem_of_app. right.
    apply AT_elem_of_fmap. eapply py_getitem_elem_of, Ht.
Qed.

(** C10.  For every configuration that [EnvConf.__init__] builds, END_SETUP
    is no element of [action_types]; so in the legality loop of [get_state]
    the END_SETUP test fails for every entry, and the value written for an
    entry does not depend on [is_setup_legal].  When an index is decoded, an
    END_SETUP action appears as the action appended after the placements of
    a formation, and for no index that is not a formation index. *)
Theorem END_SETUP_only_after_formation load_config size ef el pf conf :
  EnvConf_init load_config size ef el pf = Ok conf ->
  (AT ActionType.END_SETUP ∉ action_types conf)
  /\ (forall g active is_setup game_aa_types k,
        k ∈ action_types conf ->
        aa_entry g active is_setup game_aa_types k
        = if is_setup && (match k with Form _ => true | AT _ => false end)
          then 1%Q else b2q (py_in k game_aa_types))
  /\ (forall g g' active active' is_setup game_aa_types,
        aa_entry g active is_setup game_aa_types <$> action_types conf
        = aa_entry g' active' is_setup game_aa_types <$> action_types conf)
  /\ (forall env flip i,
        env_conf env = conf -> formation_index conf i -> 0 <= i ->
        exists placements,
          _compute_action formation_actions (Some i) flip env
          = Ok (placements ++ [Some (mkAction (AT ActionType.END_SETUP))]))
  /\ (forall env flip i acts a,
        env_conf env = conf -> ~ formation_index conf i ->
        _compute_action formation_actions (Some i) flip env = Ok acts ->
        Some a ∈ acts -> action_type a <> AT ActionType.END_SETUP).
Proof.
  intros Hinit.
  pose proof (EnvConf_init_built _ _ _ _ _ _ Hinit) as Hb.
  pose proof (END_SETUP_not_action_type _ Hb) as Hnot.
  assert (forall g active is_setup game_aa_types k,
            k ∈ action_types conf ->
            aa_entry g active is_setup game_aa_types k
            = if is_setup && (match k with Form _ => true | AT _ => false end)
              then 1%Q else b2q (py_in k game_aa_types)) as Hentry.
  { intros g active is_setup tys k Hk. unfold aa_entry.
    rewrite bool_decide_eq_false_2; [reflexivity|].
    intros ->. exact (Hnot Hk). }
  split; [exact Hnot|]. split; [exact Hentry|]. split; [|split].
  - intros g g' active active' is_setup tys.
    apply list_fmap_ext. intros n k Hk.
    apply list_elem_of_lookup_2 in Hk.
    rewrite !Hentry by exact Hk. reflexivity.
  - intros env flip i Hconf Hf H0.
    destruct (decode_formation conf env flip i Hb Hconf Hf H0) as (f & _ & Hd).
    eexists. exact Hd.
  - intros env flip i acts a Hconf Hnf Hdec Hin.
    exact (decode_no_END_SETUP conf env flip i acts a Hb Hconf Hnf Hdec Hin).
Qed.

End CodecClaims.

(** ** The non-spatial buffer *)

Lemma ns_put_Ok v buf i buf' i' :
  ns_put v (buf, i) = Ok (buf', i') ->
  i' = S i /\ length buf' = length buf /\ (i < length buf)%nat.
Proof.
  unfold ns_put. destruct (decide (i < length buf)%nat) as [Hlt|]; [|discriminate].
  intros [= <- <-]. rewrite length_insert. auto.
Qed.

Lemma ns_put_all_Ok vs buf i buf' i' :
  ns_put_all vs (buf, i) = Ok (buf', i') ->
  i' = (i + length vs)%nat /\ length buf' = length buf
  /\ (vs <> [] -> (i + length vs <= length buf)%nat).
Proof.
  revert buf i. induction vs as [|v vs IH]; intros buf i; cbn [ns_put_all].
  - intros [= <- <-]. cbn. split; [lia|]. split; [reflexivity|]. intros H; destruct (H eq_refl).
  - destruct (ns_put v (buf, i)) as [[b1 i1]|] eqn:E; [|discriminate].
    cbn [mbind result_bind]. intros H.
    apply ns_put_Ok in E as (-> & Hl & Hlt).
    apply IH in H as (-> & Hl' & Hroom). cbn [length].
    split; [lia|]. split; [congruence|]. intros _.
    destruct vs as [|w vs]; [cbn; lia|].
    specialize (Hroom ltac:(discriminate)). cbn [length] in *. lia.
Qed.

Lemma ns_put_all_room vs buf i :
  (i + length vs <= length buf)%nat ->
  exists buf', ns_put_all vs (buf, i) = Ok (buf', (i + length vs)%nat)
               /\ length buf' = length buf.
Proof.
  revert buf i. induction vs as [|v vs IH]; intros buf i Hroom; cbn [ns_put_all].
  - exists buf. rewrite Nat.add_0_r. auto.
  - cbn [length] in Hroom. unfold ns_put.
    rewrite decide_True by lia. cbn [mbind result_bind].
    destruct (IH (<[i:=v]> buf) (S i)) as (b & E & Hl).
    { rewrite length_insert. lia. }
    exists b. rewrite E. cbn [length]. rewrite length_insert in Hl.
    split; [f_equal; f_equal; lia|exact Hl].
Qed.

Lemma ns_zip_put_Ok {A} (f : A -> Q) xs buf i buf' i' :
  ns_zip_put f xs (buf, i) = Ok (buf', i') ->
  i' = (i + length xs + 1)%nat /\ length buf' = length buf
  /\ (i + length xs <= length buf \/ xs = [])%nat.
Proof.
  revert buf i. induction xs as [|a xs IH]; intros buf i; cbn [ns_zip_put].
  - intros [= <- <-]. cbn. split; [lia|]. auto.
  - destruct (ns_put (f a) (buf, i)) as [[b1 i1]|] eqn:E; [|discriminate].
    cbn [mbind result_bind]. intros H.
    apply ns_put_Ok in E as (-> & Hl & Hlt).
    apply IH in H as (-> & Hl' & Hroom). cbn [length].
    split; [lia|]. split; [congruence|]. left.
    destruct Hroom as [Hroom| ->]; cbn [length] in *; lia.
Qed.

Lemma ns_zip_put_room {A} (f : A -> Q) xs buf i :
  (i + length xs <= length buf)%nat ->
  exists buf', ns_zip_put f xs (buf, i) = Ok (buf', (i + length xs + 1)%nat)
               /\ length buf' = length buf.
Proof.
  revert buf i. induction xs as [|a xs IH]; intros buf i Hroom; cbn [ns_zip_put].
  - exists buf. unfold take. cbn. split; [f_equal; f_equal; lia|reflexivity].
  - cbn [length] in Hroom. unfold ns_put.
    rewrite decide_True by lia. cbn [mbind result_bind].
    destruct (IH (<[i:=f a]> buf) (S i)) as (b & E & Hl).
    { rewrite length_insert. lia. }
    exists b. rewrite E. cbn [length]. rewrite length_insert in Hl.
    split; [f_equal; f_equal; lia|exact Hl].
Qed.

Lemma ns_slice_assign_Ok buf lo vs buf' :
  ns_slice_assign buf lo vs = Ok buf' ->
  length buf' = length buf
  /\ ((2 <= length vs)%nat ->
      (lo + length vs <= length buf)%nat
      /\ buf' = firstn lo buf ++ vs ++ skipn (lo + length vs) buf).
Proof.
  unfold ns_slice_assign.
  destruct (decide _) as [E|N].
  - intros [= <-]. rewrite !length_app, length_take, length_drop.
    split; [lia|]. intros H2.
    assert (lo + length vs <= length buf)%nat as Hroom by lia.
    split; [exact Hroom|].
    rewrite (Nat.min_l lo) by lia. rewrite (Nat.min_l (lo + length vs)) by lia.
    reflexivity.
  - destruct vs as [|v [|w vs]]; try discriminate.
    intros [= <-].
    rewrite !length_app, length_take, length_replicate, length_drop.
    cbn [length]. split; lia.
Qed.

Lemma ns_slice_assign_room buf lo vs :
  (lo + length vs <= length buf)%nat ->
  exists buf', ns_slice_assign buf lo vs = Ok buf'
               /\ length buf' = length buf.
Proof.
  intros Hroom. unfold ns_slice_assign.
  rewrite decide_True by lia. eexists. split; [reflexivity|].
  rewrite !length_app, length_take, length_drop. lia.
Qed.

Lemma take_layout (pre aa post : list Q) (n : nat) :
  length pre = n -> firstn (n + length aa) (pre ++ aa ++ post) = pre ++ aa.
Proof.
  intros <-. rewrite app_assoc, <- length_app. apply take_app_length.
Qed.

Lemma team_block_length ts : length (team_block ts) = 11%nat.
Proof. reflexivity. Qed.

(** ** Shapes of the spatial observation *)

Lemma is_grid_shape h w g :
  is_grid h w g -> grid_shape g = (h, match h with O => O | _ => w end).
Proof.
  intros [Hl Hr]. unfold grid_shape. rewrite Hl. f_equal.
  destruct g as [|r g]; cbn in *; subst; [reflexivity|].
  apply Forall_cons in Hr as [Hr _]. exact Hr.
Qed.

Lemma np_stack_grids h w (gs : list Grid) :
  gs <> [] -> Forall (is_grid h w) gs -> np_stack gs = Ok gs.
Proof.
  intros Hne HF. unfold np_stack. destruct gs as [|g0 gs]; [congruence|].
  rewrite (proj2 (forallb_forall _ _)); [reflexivity|].
  intros g Hg. apply bool_decide_eq_true.
  rewrite Forall_forall in HF.
  rewrite (is_grid_shape h w g), (is_grid_shape h w g0); [reflexivity| |].
  - apply HF. left.
  - apply HF. apply list_elem_of_In. exact Hg.
Qed.

Lemma np_stack_Ok gs t : np_stack gs = Ok t -> t = gs.
Proof.
  unfold np_stack. destruct gs as [|g0 gs]; [discriminate|].
  destruct (forallb _ _); [|discriminate]. intros [= <-]. reflexivity.
Qed.

Lemma is_grid_flip h w (g : Grid) :
  is_grid h w g -> is_grid h w (reverse <$> g).
Proof.
  intros [Hl Hr]. split; [rewrite length_fmap; exact Hl|].
  rewrite Forall_fmap. eapply Forall_impl; [exact Hr|].
  intros r Hrl. cbn. rewrite length_reverse. exact Hrl.
Qed.

Lemma concat_grid_length h w (g : Grid) :
  is_grid h w g -> length (concat g) = (h * w)%nat.
Proof.
  intros [<- Hr]. induction Hr as [|r g Hrl Hr IH]; [reflexivity|].
  cbn. rewrite length_app, IH, Hrl. reflexivity.
Qed.

Lemma flatten_grids_length h w (t : Tensor) :
  Forall (is_grid h w) t ->
  length (concat (concat t)) = (length t * (h * w))%nat.
Proof.
  induction 1 as [|g t Hg Ht IH]; [reflexivity|].
  cbn [concat length]. rewrite concat_app, length_app, IH.
  rewrite (concat_grid_length h w g Hg). reflexivity.
Qed.

(** ** [get_state] *)

Section GetState.
Variable layer_get : FeatureLayer -> Game -> Grid.

Local Abbreviation spatial_of := (Env.spatial_of layer_get).
Local Abbreviation mask_of := (Env.mask_of layer_get).
Local Abbreviation layers_shaped := (Env.layers_shaped layer_get).

Ltac bind_ok H b i E :=
  match type of H with
  | mbind _ ?m = Ok _ =>
      destruct m as [[b i]|] eqn:E; [|discriminate H];
      cbn [mbind result_bind] in H
  end.

Lemma get_state_Ok flip env sp ns mask env' :
  conf_built (env_conf env) ->
  get_state layer_get flip env = Ok ((sp, ns, mask), env') ->
  (layout_len (env_conf env) <= buffer_len env)%nat
  /\ length ns = match num_non_spatial_observables env with
                 | None => layout_len (env_conf env)
                 | Some n => n
                 end
  /\ env' = after_get_state env
  /\ np_stack ((fun l => layer_get l (game env)) <$> layers (env_conf env))
     = Ok ((fun l => layer_get l (game env)) <$> layers (env_conf env))
  /\ sp = spatial_of flip env
  /\ mask = mask_of flip env
  /\ true ∈ mask
  /\ (exists pre post,
        ns = pre ++ aa_types_of env ++ post /\ length pre = 74%nat
        /\ (num_non_spatial_observables env = None -> post = [])).
Proof.
  intros Hb H. unfold get_state in H.
  destruct (np_stack _) as [t|] eqn:Hstack; [|discriminate H].
  pose proof (np_stack_Ok _ _ Hstack) as ->.
  cbn [mbind result_bind] in H.
  set (buf0 := match num_non_spatial_observables env with
               | None => replicate 2000 0%Q
               | Some n => replicate n 0%Q
               end) in H.
  assert (length buf0 = buffer_len env) as Hbuf0.
  { unfold buf0, buffer_len.
    destruct (num_non_spatial_observables env); apply length_replicate. }
  clearbody buf0.
  bind_ok H b1 i1 E. apply ns_put_all_Ok in E as (-> & L1 & _).
  bind_ok H b2 i2 E.
  assert (i2 = 38 /\ length b2 = length buf0)%nat as [-> L2].
  { destruct (active_team (game env)).
    - apply ns_put_all_Ok in E as (-> & L & _).
      rewrite length_app, !team_block_length. cbn. split; [lia|congruence].
    - injection E as <- <-. cbn. split; [lia|congruence]. }
  clear E. bind_ok H b3 i3 E.
  assert (i3 = 44 /\ length b3 = length buf0)%nat as [-> L3].
  { destruct (current_turn (game env)).
    - apply ns_put_all_Ok in E as (-> & L & _). cbn. split; [lia|congruence].
    - injection E as <- <-. cbn. split; [lia|congruence]. }
  clear E. bind_ok H b4 i4 E.
  assert (i4 = 50 /\ length b4 = length buf0)%nat as [-> L4].
  { destruct (active_player (state (game env))).
    - apply ns_put_all_Ok in E as (-> & L & _). cbn. split; [lia|congruence].
    - injection E as <- <-. cbn. split; [lia|congruence]. }
  clear E. bind_ok H b5 i5 E.
  apply ns_zip_put_Ok in E as (-> & L5 & _).
  destruct Hb as [Hs Hp Hat Hpr Hly]. rewrite Hpr in *.
  change (length fixed_procedures) with 23%nat in *.
  cbn [fst snd] in H.
  fold (aa_types_of env) in H.
  destruct (ns_slice_assign _ _ _) as [buf|] eqn:Hslice;
    cbn [mbind result_bind] in H; [|inversion H].
  apply ns_slice_assign_Ok in Hslice as [L6 Hroom].
  assert (length (aa_types_of env) = length (action_types (env_conf env)))
    as Haa by (unfold aa_types_of; apply length_fmap).
  assert (2 <= length (aa_types_of env))%nat as H2.
  { rewrite Haa, Hat, Hp, length_app, !length_fmap.
    change (length fixed_positional_action_types) with 17%nat. lia. }
  destruct (Hroom H2) as [Hfit Hbuf]. clear Hroom.
  change (50 + 23 + 1)%nat with 74%nat in *.
  assert (layout_len (env_conf env) <= buffer_len env)%nat as Hlay.
  { unfold layout_len. lia. }
  assert (length (firstn 74 b5) = 74%nat) as Hpre
    by (rewrite length_take; lia).
  fold (flip_of flip env) in H.
  fold (spatial_of flip env) in H.
  fold (mask_of flip env) in H.
  unfold after_get_state, layout_len in *.
  destruct (num_non_spatial_observables env) as [n|] eqn:Hnum;
    (destruct (py_in true (mask_of flip env)) eqn:Hmask; [|discriminate H]);
    apply py_in_true in Hmask;
    injection H as <- <- <- <-.
  - unfold buffer_len in *. rewrite Hnum in *.
    repeat split; try reflexivity; try assumption; [congruence|].
    eexists _, _. split; [exact Hbuf|]. split; [exact Hpre|discriminate].
  - unfold buffer_len in *. rewrite Hnum in *.
    repeat split; try reflexivity; try assumption.
    + rewrite length_take, Haa. lia.
    + f_equal. rewrite Haa. reflexivity.
    + exists (firstn 74 b5), []. split; [|split; [exact Hpre|reflexivity]].
      rewrite Hbuf, app_nil_r.
      exact (take_layout (firstn 74 b5) (aa_types_of env) _ 74 Hpre).
Qed.

(** [get_state] reads the game: it makes no call into the engine. *)
Lemma get_state_reads flip env o env' :
  get_state layer_get flip env = Ok (o, env') ->
  game env' = game env /\ engine_log env' = engine_log env
  /\ env_conf env' = env_conf env.
Proof.
  intros H. unfold get_state in H.
  destruct (np_stack _) as [t|]; [|discriminate H].
  cbn [mbind result_bind] in H.
  bind_ok H b1 i1 E1. bind_ok H b2 i2 E2. bind_ok H b3 i3 E3.
  bind_ok H b4 i4 E4. bind_ok H b5 i5 E5.
  destruct (ns_slice_assign _ _ _) as [buf|];
    cbn [mbind result_bind] in H; [|inversion H].
  destruct (num_non_spatial_observables env);
    (destruct (py_in true _); [|discriminate H]);
    injection H as <- <-; auto.
Qed.

Lemma get_step_return_reads skip env r env' :
  get_step_return layer_get skip env = Ok (r, env') ->
  game env' = game env /\ engine_log env' = engine_log env.
Proof.
  intros H. unfold get_step_return in H.
  destruct (game_over (state (game env)) || skip);
    cbn [mbind result_bind] in H.
  - injection H as <- <-. auto.
  - destruct (get_state layer_get None env) as [o|] eqn:Hg;
      cbn [mbind result_bind] in H; [|discriminate H].
    injection H as <- <-. destruct o as [o e]. cbn.
    apply get_state_reads in Hg as (Hgame & Hlog & _). auto.
Qed.

Ltac put_room :=
  match goal with
  | |- context [ns_put_all ?vs (?b, ?i)] =>
      let b' := fresh "b" in
      let E := fresh "E" in
      let L := fresh "L" in
      destruct (ns_put_all_room vs b i) as (b' & E & L);
      [ rewrite ?length_app, ?team_block_length; cbn [length]; lia
      | rewrite E; clear E; cbn [mbind result_bind] ]
  end.

Lemma get_state_runs flip env :
  conf_built (env_conf env) ->
  (layout_len (env_conf env) <= buffer_len env)%nat ->
  np_stack ((fun l => layer_get l (game env)) <$> layers (env_conf env))
  = Ok ((fun l => layer_get l (game env)) <$> layers (env_conf env)) ->
  exists ns,
    length ns = match num_non_spatial_observables env with
                | None => layout_len (env_conf env)
                | Some n => n
                end
    /\ get_state layer_get flip env
       = if py_in true (mask_of flip env)
         then Ok ((spatial_of flip env, ns, mask_of flip env),
                  after_get_state env)
         else Raise AssertionError.
Proof.
  intros Hb Hroom Hstack. unfold get_state. rewrite Hstack.
  cbn [mbind result_bind].
  set (buf0 := match num_non_spatial_observables env with
               | None => replicate 2000 0%Q
               | Some n => replicate n 0%Q
               end).
  assert (length buf0 = buffer_len env) as Hbuf0.
  { unfold buf0, buffer_len.
    destruct (num_non_spatial_observables env); apply length_replicate. }
  clearbody buf0.
  pose proof Hb as [Hs Hp Hat Hpr Hly].
  assert (length (aa_types_of env) = length (action_types (env_conf env)))
    as Haa by (unfold aa_types_of; apply length_fmap).
  unfold layout_len in Hroom.
  put_room. cbn [length Nat.add].
  match goal with
  | |- context [mbind _ ?m] =>
      assert (exists b2, length b2 = length buf0 /\ m = Ok (b2, 38%nat))
        as (b2 & L2 & ->)
  end.
  { destruct (active_team (game env)).
    - put_room. eexists. split; [|reflexivity]. congruence.
    - exists b. split; [congruence|reflexivity]. }
  cbn [mbind result_bind].
  match goal with
  | |- context [mbind _ ?m] =>
      assert (exists b3, length b3 = length buf0 /\ m = Ok (b3, 44%nat))
        as (b3 & L3 & ->)
  end.
  { destruct (current_turn (game env)).
    - put_room. eexists. split; [|reflexivity]. congruence.
    - exists b2. split; [congruence|reflexivity]. }
  cbn [mbind result_bind].
  match goal with
  | |- context [mbind _ ?m] =>
      assert (exists b4, length b4 = length buf0 /\ m = Ok (b4, 50%nat))
        as (b4 & L4 & ->)
  end.
  { destruct (active_player (state (game env))).
    - put_room. eexists. split; [|reflexivity]. congruence.
    - exists b3. split; [congruence|reflexivity]. }
  cbn [mbind result_bind].
  rewrite Hpr.
  match goal with
  | |- context [ns_zip_put ?f fixed_procedures (b4, 50%nat)] =>
      destruct (ns_zip_put_room f fixed_procedures b4 50) as (b5 & -> & L5)
  end.
  { change (length fixed_procedures) with 23%nat. lia. }
  cbn [mbind result_bind fst snd].
  fold (aa_types_of env).
  change (50 + length fixed_procedures + 1)%nat with 74%nat.
  destruct (ns_slice_assign_room b5 74 (aa_types_of env)) as (buf & -> & L6);
    [lia|].
  cbn [mbind result_bind].
  fold (flip_of flip env). fold (spatial_of flip env). fold (mask_of flip env).
  unfold after_get_state, layout_len.
  destruct (num_non_spatial_observables env) as [n|] eqn:Hnum.
  - exists buf. split; [|reflexivity].
    unfold buffer_len in Hbuf0. rewrite Hnum in Hbuf0. congruence.
  - eexists. split; [|rewrite Haa; reflexivity].
    rewrite length_take. unfold buffer_len in *. rewrite Hnum in *. lia.
Qed.

(** ** The action mask *)

Lemma spatial_of_grids flip env :
  layers_shaped env ->
  Forall (is_grid (Z.to_nat (height env)) (Z.to_nat (width env)))
         (spatial_of flip env).
Proof.
  intros Hsh. unfold spatial_of.
  destruct (flip_of flip env); unfold np_flip2; rewrite ?Forall_fmap;
    apply Forall_forall; intros l _; cbn; [apply is_grid_flip|]; apply Hsh.
Qed.

Lemma spatial_of_length flip env :
  length (spatial_of flip env) = length (layers (env_conf env)).
Proof.
  unfold spatial_of, np_flip2.
  destruct (flip_of flip env); rewrite ?length_fmap; reflexivity.
Qed.

Lemma np_stack_layers env :
  conf_built (env_conf env) -> layers_shaped env ->
  np_stack ((fun l => layer_get l (game env)) <$> layers (env_conf env))
  = Ok ((fun l => layer_get l (game env)) <$> layers (env_conf env)).
Proof.
  intros [_ _ _ _ [rest Hly]] Hsh.
  apply (np_stack_grids (Z.to_nat (height env)) (Z.to_nat (width env))).
  - rewrite Hly. discriminate.
  - rewrite Forall_fmap. apply Forall_forall. intros l _. apply Hsh.
Qed.

Lemma mask_of_length flip env :
  conf_built (env_conf env) -> layers_shaped env ->
  0 <= width env -> 0 <= height env ->
  board_squares env = width env * height env ->
  Z.of_nat (length (mask_of flip env)) = num_actions env.
Proof.
  intros Hb Hsh Hw Hh Hbs. unfold mask_of, num_actions, flatten_first.
  pose proof Hb as [Hs Hp Hat Hpr [rest Hly]].
  rewrite length_fmap, length_app, length_take.
  assert (length (aa_types_of env) = length (action_types (env_conf env)))
    as -> by (unfold aa_types_of; apply length_fmap).
  rewrite (action_types_length _ Hb).
  rewrite (flatten_grids_length (Z.to_nat (height env)) (Z.to_nat (width env))).
  2: { apply Forall_take, spatial_of_grids, Hsh. }
  rewrite length_take, spatial_of_length, Hly, length_app, length_fmap, Hp.
  change (length fixed_positional_action_types) with 17%nat.
  rewrite Hbs. nia.
Qed.

(** C4.  For an environment whose configuration [EnvConf.__init__] built and
    whose layers return arrays of the board's dimensions: a call of
    [get_state] that returns gives a mask of length
    [len(simple_action_types) + len(positional_action_types) * board_squares]
    with a true entry; and when the buffer holds the layout, the call returns
    exactly when the mask has a true entry and raises AssertionError when it
    has none. *)
Theorem action_mask_has_legal_action load_config size ef el pf env flip :
  EnvConf_init load_config size ef el pf = Ok (env_conf env) ->
  layers_shaped env ->
  0 <= width env -> 0 <= height env ->
  board_squares env = width env * height env ->
  (forall sp ns mask env',
     get_state layer_get flip env = Ok ((sp, ns, mask), env') ->
     mask = mask_of flip env
     /\ Z.of_nat (length mask)
        = Z.of_nat (length (simple_action_types (env_conf env)))
          + Z.of_nat (length (positional_action_types (env_conf env)))
            * board_squares env
     /\ true ∈ mask)
  /\ ((layout_len (env_conf env) <= buffer_len env)%nat ->
      (true ∉ mask_of flip env ->
       get_state layer_get flip env = Raise AssertionError)
      /\ (true ∈ mask_of flip env ->
          exists ns, get_state layer_get flip env
                     = Ok ((spatial_of flip env, ns, mask_of flip env),
                           after_get_state env))).
Proof.
  intros Hinit Hsh Hw Hh Hbs.
  pose proof (EnvConf_init_built _ _ _ _ _ _ Hinit) as Hb.
  split.
  - intros sp ns mask env' H.
    apply (get_state_Ok flip env sp ns mask env' Hb) in H
      as (_ & _ & _ & _ & _ & -> & Htrue & _).
    split; [reflexivity|]. split; [|exact Htrue].
    exact (mask_of_length flip env Hb Hsh Hw Hh Hbs).
  - intros Hroom.
    destruct (get_state_runs flip env Hb Hroom (np_stack_layers env Hb Hsh))
      as (ns & _ & Hrun).
    split; intros Hmask.
    + apply py_in_false in Hmask. rewrite Hrun, Hmask. reflexivity.
    + apply py_in_true in Hmask. exists ns. rewrite Hrun, Hmask. reflexivity.
Qed.

(** ** [get_step_return], [step], [reset] and the constructor *)

Variable formation_actions : Formation -> Game -> option Team -> list Action.
Variable game_step : option Action -> Game -> Game.
Variable set_available_actions : Game -> Game.
Variable make_game : EnvConf -> Z -> Game.
Variable randint : Z -> nat -> Z.

Lemma get_step_return_Ok skip env r env' :
  get_step_return layer_get skip env = Ok (r, env') ->
  r.1.1.2 = 0%Q /\ r.2 = (∅ : Info) /\ r.1.2 = game_over (state (game env))
  /\ (game_over (state (game env)) || skip = true ->
      r.1.1.1 = none_obs /\ env' = env)
  /\ (game_over (state (game env)) || skip = false ->
      exists sp ns mask,
        get_state layer_get None env = Ok ((sp, ns, mask), env')
        /\ r.1.1.1 = (Some sp, Some ns, Some mask)).
Proof.
  unfold get_step_return. intros H.
  destruct (game_over (state (game env)) || skip) eqn:Hd;
    cbn [mbind result_bind] in H.
  - injection H as <- <-. cbn. repeat split; try reflexivity; discriminate.
  - destruct (get_state layer_get None env) as [[[[sp ns] mask] e]|] eqn:Hg;
      cbn [mbind result_bind] in H; [|discriminate H].
    injection H as <- <-. cbn. repeat split; try reflexivity; try discriminate.
    intros _. exists sp, ns, mask. split; reflexivity.
Qed.

Lemma do_game_step_fields a env :
  env_conf (do_game_step game_step a env) = env_conf env
  /\ num_non_spatial_observables (do_game_step game_step a env)
     = num_non_spatial_observables env
  /\ width (do_game_step game_step a env) = width env
  /\ height (do_game_step game_step a env) = height env
  /\ board_squares (do_game_step game_step a env) = board_squares env.
Proof. repeat split. Qed.

Lemma foldl_game_step_fields acts env :
  let env1 := foldl (fun e a => do_game_step game_step a e) env acts in
  env_conf env1 = env_conf env
  /\ num_non_spatial_observables env1 = num_non_spatial_observables env
  /\ engine_log env1 = engine_log env ++ (CallStep <$> acts).
Proof.
  revert env. induction acts as [|a acts IH]; intros env; cbn.
  - rewrite app_nil_r. auto.
  - destruct (IH (do_game_step game_step a env)) as (-> & -> & ->).
    cbn. rewrite <- app_assoc. auto.
Qed.

(** C9.  [get_step_return] and the base [step]: when the game is over or the
    observation is skipped the call returns the triple of absent values (and
    always returns); otherwise it returns what [get_state] computes.  A tuple
    that is returned has reward 0, an empty info mapping and the game-over
    flag as [done], and its observation is the triple of absent values
    exactly when the game is over or the observation was skipped. *)
Theorem base_step_return skip env :
  (game_over (state (game env)) || skip = true ->
   get_step_return layer_get skip env
   = Ok ((none_obs, 0%Q, game_over (state (game env)), ∅), env))
  /\ (game_over (state (game env)) || skip = false ->
      get_step_return layer_get skip env
      = (o ← get_state layer_get None env;
         Ok (((Some o.1.1.1, Some o.1.1.2, Some o.1.2) : StepObs, 0%Q,
              game_over (state (game env)), ∅), o.2)))
  /\ (forall r env',
        get_step_return layer_get skip env = Ok (r, env') ->
        r.1.1.2 = 0%Q /\ r.2 = (∅ : Info)
        /\ r.1.2 = game_over (state (game env))
        /\ (r.1.1.1 = none_obs <-> r.1.2 || skip = true))
  /\ (forall action_idx r env',
        step layer_get formation_actions game_step action_idx skip env
        = Ok (r, env') ->
        r.1.1.2 = 0%Q /\ r.2 = (∅ : Info)
        /\ (r.1.1.1 = none_obs <-> r.1.2 || skip = true)).
Proof.
  assert (forall e r env',
            get_step_return layer_get skip e = Ok (r, env') ->
            r.1.1.2 = 0%Q /\ r.2 = (∅ : Info)
            /\ r.1.2 = game_over (state (game e))
            /\ (r.1.1.1 = none_obs <-> r.1.2 || skip = true)) as Hret.
  { intros e r env' H.
    apply get_step_return_Ok in H as (Hr & Hi & Hd & Hskip & Hobs).
    split; [exact Hr|]. split; [exact Hi|]. split; [exact Hd|].
    rewrite Hd. destruct (game_over (state (game e)) || skip) eqn:E.
    - split; [reflexivity|]. intros _. apply Hskip. reflexivity.
    - destruct (Hobs eq_refl) as (sp & ns & mask & _ & ->).
      split; discriminate. }
  split; [|split; [|split]].
  - intros E. unfold get_step_return. rewrite E. reflexivity.
  - intros E. unfold get_step_return. rewrite E.
    destruct (get_state layer_get None env) as [o|]; reflexivity.
  - exact (Hret env).
  - intros a r env' H. unfold step in H.
    destruct (_compute_action _ _ _ _) as [acts|];
      cbn [mbind result_bind] in H; [|discriminate H].
    apply Hret in H as (Hr & Hi & _ & Hiff). auto.
Qed.

(** What the constructor leaves: the length of the layout is stored. *)
Lemma BotBowlEnv_init_num conf arena seed env :
  conf_built conf ->
  BotBowlEnv_init layer_get make_game randint conf arena seed = Ok env ->
  env_conf env = conf
  /\ num_non_spatial_observables env = Some (layout_len conf)
  /\ width env = arena_width arena /\ height env = arena_height arena
  /\ board_squares env = arena_width arena * arena_height arena.
Proof.
  intros Hb H. unfold BotBowlEnv_init in H.
  destruct (get_state _ _ _) as [[[[sp ns] mask] e]|] eqn:Hg;
    cbn [mbind result_bind] in H; [|discriminate H].
  injection H as <-.
  apply get_state_Ok in Hg as (_ & _ & -> & _); [|exact Hb].
  unfold after_get_state. cbn. auto.
Qed.

(** C5.  For an environment whose configuration [EnvConf.__init__] built.
    The first call of [get_state], when no length is stored yet, works on a
    buffer of 2000 slots and returns the vector cut after the last slot
    written, the last legality flag, at length
    [74 + len(action_types)], which it stores.  Once a length [n] is stored,
    every [get_state], [step] and [reset] that returns leaves [n] stored,
    and every non-spatial vector returned has length [n]. *)
Theorem non_spatial_length_fixed load_config size ef el pf env :
  EnvConf_init load_config size ef el pf = Ok (env_conf env) ->
  (num_non_spatial_observables env = None ->
   forall flip sp ns mask env',
     get_state layer_get flip env = Ok ((sp, ns, mask), env') ->
     buffer_len env = 2000%nat
     /\ (layout_len (env_conf env) <= 2000)%nat
     /\ length ns = layout_len (env_conf env)
     /\ (exists pre, length pre = 74%nat /\ ns = pre ++ aa_types_of env)
     /\ num_non_spatial_observables env' = Some (layout_len (env_conf env)))
  /\ (forall n,
        num_non_spatial_observables env = Some n ->
        (forall flip sp ns mask env',
           get_state layer_get flip env = Ok ((sp, ns, mask), env') ->
           length ns = n /\ num_non_spatial_observables env' = Some n)
        /\ (forall action_idx skip r env',
              step layer_get formation_actions game_step action_idx skip env
              = Ok (r, env') ->
              num_non_spatial_observables env' = Some n
              /\ forall ns, r.1.1.1.1.2 = Some ns -> length ns = n)
        /\ (forall skip o env',
              reset layer_get make_game randint skip env = Ok (o, env') ->
              num_non_spatial_observables env' = Some n
              /\ forall obs, o = Some obs -> length obs.1.2 = n)).
Proof.
  intros Hinit.
  pose proof (EnvConf_init_built _ _ _ _ _ _ Hinit) as Hb.
  assert (forall e n flip sp ns mask env',
            env_conf e = env_conf env ->
            num_non_spatial_observables e = Some n ->
            get_state layer_get flip e = Ok ((sp, ns, mask), env') ->
            length ns = n /\ num_non_spatial_observables env' = Some n) as Hlater.
  { intros e n flip sp ns mask env' Hc Hn H.
    apply get_state_Ok in H as (_ & Hl & -> & _); [|rewrite Hc; exact Hb].
    unfold after_get_state. rewrite Hn in *. auto. }
  split.
  - intros Hnone flip sp ns mask env' H.
    apply get_state_Ok in H
      as (Hroom & Hl & -> & _ & _ & _ & _ & (pre & post & Hns & Hpre & Hpost));
      [|exact Hb].
    unfold buffer_len, after_get_state in *. rewrite Hnone in *.
    rewrite (Hpost eq_refl), app_nil_r in Hns.
    split; [reflexivity|]. split; [exact Hroom|]. split; [exact Hl|].
    split; [exists pre; auto|reflexivity].
  - intros n Hn. split; [|split].
    + intros flip sp ns mask env'. apply Hlater; [reflexivity|exact Hn].
    + intros a skip r env' H. unfold step in H.
      destruct (_compute_action _ _ _ _) as [acts|];
        cbn [mbind result_bind] in H; [|discriminate H].
      destruct (foldl_game_step_fields acts env) as (Hc & Hnum & _).
      rewrite Hn in Hnum.
      apply get_step_return_Ok in H as (_ & _ & _ & Hskip & Hobs).
      destruct (game_over _ || skip).
      * destruct (Hskip eq_refl) as [-> ->]. split; [exact Hnum|].
        intros ns. discriminate.
      * destruct (Hobs eq_refl) as (sp & ns & mask & Hg & ->).
        destruct (Hlater _ n _ _ _ _ _ Hc Hnum Hg) as [Hl Hn'].
        split; [exact Hn'|]. intros ns' [= <-]. exact Hl.
    + intros skip o env' H. unfold reset in H.
      destruct skip.
      * injection H as <- <-. split; [exact Hn|]. intros obs. discriminate.
      * destruct (get_state _ _ _) as [[[[sp ns] mask] e]|] eqn:Hg;
          cbn [mbind result_bind] in H; [|discriminate H].
        injection H as <- <-.
        apply (Hlater _ n) in Hg as [Hl Hn']; [|reflexivity|exact Hn].
        split; [exact Hn'|]. intros obs [= <-]. exact Hl.
Qed.

(** ** The wrappers *)






End GetState.

End EnvProofs.

Module ApiProofs.
Import Api.

(** ** Ordered dictionaries *)

Lemma dict_set_fresh {V} (k : Z) (v : V) (d : list (Z * V)) :
  k ∉ d.*1 -> dict_set k v d = d ++ [(k, v)].
Proof.
  induction d as [|[k' v'] d IH]; intros Hk; cbn; [reflexivity|].
  cbn in Hk. apply not_elem_of_cons in Hk as [Hne Hk].
  rewrite decide_False by congruence. rewrite IH by exact Hk. reflexivity.
Qed.

Lemma dict_set_keys {V} (k : Z) (v : V) (d : list (Z * V)) :
  (dict_set k v d).*1 = if decide (k ∈ d.*1) then d.*1 else d.*1 ++ [k].
Proof.
  induction d as [|[k' v'] d IH]; cbn; [reflexivity|].
  destruct (decide (k' = k)) as [->|Hne]; cbn.
  - rewrite decide_True by left. reflexivity.
  - rewrite IH. destruct (decide (k ∈ d.*1)) as [Hin|Hnin].
    + rewrite decide_True by (right; exact Hin). reflexivity.
    + rewrite decide_False; [reflexivity|].
      intros Hc. apply elem_of_cons in Hc as [->|Hc]; [congruence|exact (Hnin Hc)].
Qed.

Lemma dict_set_NoDup {V} (k : Z) (v : V) (d : list (Z * V)) :
  NoDup d.*1 -> NoDup (dict_set k v d).*1.
Proof.
  intros Hnd. rewrite dict_set_keys.
  destruct (decide (k ∈ d.*1)) as [Hin|Hnin]; [exact Hnd|].
  apply NoDup_app. split; [exact Hnd|]. split.
  - intros k' Hk' Hin. apply list_elem_of_singleton in Hin as ->. exact (Hnin Hk').
  - apply NoDup_singleton.
Qed.

Lemma dict_of_items_NoDup {V} (items acc : list (Z * V)) :
  NoDup acc.*1 ->
  NoDup (foldl (fun d it => dict_set it.1 it.2 d) acc items).*1.
Proof.
  revert acc. induction items as [|[k v] items IH]; intros acc Hnd; cbn.
  - exact Hnd.
  - apply IH, dict_set_NoDup, Hnd.
Qed.

(** ** The two loops *)

Lemma replay_window_spec (items acc : list (Z * ReplayStep)) :
  NoDup (acc.*1 ++ items.*1) ->
  replay_window items acc = acc ++ firstn (100 - length acc) items.
Proof.
  revert acc. induction items as [|[i s] items IH]; intros acc Hnd;
    cbn [replay_window].
  - rewrite firstn_nil, app_nil_r. reflexivity.
  - destruct (Z.leb_spec 100 (Z.of_nat (length acc))) as [Hfull|Hroom].
    + replace (100 - length acc)%nat with 0%nat by lia.
      cbn. rewrite app_nil_r. reflexivity.
    + cbn [fmap list_fmap fst] in Hnd.
      assert (i ∉ acc.*1) as Hfresh.
      { apply NoDup_app in Hnd as (_ & Hdisj & _).
        intros Hin. apply (Hdisj i Hin). left. }
      rewrite (dict_set_fresh i s acc Hfresh).
      rewrite IH.
      * rewrite length_app. cbn [length].
        replace (100 - length acc)%nat with (S (100 - (length acc + 1)))%nat
          by lia.
        cbn [firstn]. rewrite <- app_assoc. reflexivity.
      * rewrite fmap_app. cbn. rewrite <- app_assoc. exact Hnd.
Qed.

Lemma replay_steps_loop_spec from_idx num_steps
    (items : list (Z * ReplayStep)) (c : Z) (acc : list (Z * ReplayStep)) :
  NoDup (acc.*1 ++ items.*1) ->
  replay_steps_loop from_idx num_steps items c acc
  = acc ++ firstn (Z.to_nat num_steps - length acc)
                  (skipn (Z.to_nat (from_idx - c)) items).
Proof.
  revert c acc. induction items as [|[i s] items IH]; intros c acc Hnd;
    cbn [replay_steps_loop].
  - rewrite skipn_nil, firstn_nil, app_nil_r. reflexivity.
  - cbn [fmap list_fmap fst] in Hnd.
    destruct (Z.ltb_spec c from_idx) as [Hskip|Hpast].
    + rewrite IH.
      * replace (Z.to_nat (from_idx - c)) with (S (Z.to_nat (from_idx - (c + 1))))
          by lia.
        reflexivity.
      * apply NoDup_app in Hnd as (Ha & Hdisj & Hi).
        apply NoDup_cons in Hi as [_ Hi].
        apply NoDup_app. split; [exact Ha|]. split; [|exact Hi].
        intros k Hk Hin. apply (Hdisj k Hk). right. exact Hin.
    + replace (Z.to_nat (from_idx - c)) with 0%nat by lia. cbn [skipn].
      destruct (Z.leb_spec num_steps (Z.of_nat (length acc))) as [Hfull|Hroom].
      * replace (Z.to_nat num_steps - length acc)%nat with 0%nat by lia.
        cbn. rewrite app_nil_r. reflexivity.
      * assert (i ∉ acc.*1) as Hfresh.
        { apply NoDup_app in Hnd as (_ & Hdisj & _).
          intros Hin. apply (Hdisj i Hin). left. }
        rewrite (dict_set_fresh i s acc Hfresh).
        rewrite IH.
        -- rewrite length_app. cbn [length].
           replace (Z.to_nat (from_idx - (c + 1))) with 0%nat by lia.
           cbn [skipn].
           replace (Z.to_nat num_steps - length acc)%nat
             with (S (Z.to_nat num_steps - (length acc + 1)))%nat by lia.
           cbn [firstn]. rewrite <- app_assoc. reflexivity.
        -- rewrite fmap_app. cbn. rewrite <- app_assoc. exact Hnd.
Qed.

Section ApiClaims.
Variable load_config : string -> result Configuration.
Variable load_team_by_name : string -> Z -> result LoadedTeam.
Variable uuid1 : nat -> string.
Variable make_game :
  string -> LoadedTeam -> LoadedTeam -> Agent -> Agent -> Configuration -> Game.
Variable game_step : option Action -> Game -> Game.
Variable load_replay : string -> result Replay.

(** ** [new_game] *)

Lemma game_modes_keys :
  game_modes !! "standard" = Some "web-11.json"
  /\ game_modes !! "7v7" = Some "web-7.json"
  /\ game_modes !! "5v5" = Some "web-5.json"
  /\ game_modes !! "3v3" = Some "web-3.json"
  /\ game_modes !! "1v1" = Some "web-1.json"
  /\ size game_modes = 5%nat.
Proof. repeat split; vm_compute; reflexivity. Qed.

Lemma default_game_mode_unknown : game_modes !! default_game_mode = None.
Proof. vm_compute. reflexivity. Qed.

(** With a mode of the table and loaders that succeed, [new_game] makes the
    game and registers it under the identifier drawn. *)
Lemma new_game_registers away_name home_name away_agent home_agent mode
    config_name config home away st :
  game_modes !! mode = Some config_name ->
  load_config config_name = Ok config ->
  load_team_by_name home_name (pitch_max config) = Ok home ->
  load_team_by_name away_name (pitch_max config) = Ok away ->
  exists st',
    new_game load_config load_team_by_name uuid1 make_game
             away_name home_name (Some away_agent) (Some home_agent)
             (Some mode) st
    = Ok (make_game (uuid1 (uuid_count st)) home away home_agent away_agent
                    config, st')
    /\ host st' !! uuid1 (uuid_count st)
       = Some (make_game (uuid1 (uuid_count st)) home away home_agent
                         away_agent config).
Proof.
  intros Hmode Hcfg Hhome Haway. unfold new_game.
  change (default default_game_mode (Some mode)) with mode.
  cbn [mbind result_bind]. rewrite Hmode. cbn [mbind result_bind].
  rewrite Hcfg. cbn [mbind result_bind]. rewrite Hhome.
  cbn [mbind result_bind]. rewrite Haway. cbn [mbind result_bind].
  eexists. split; [reflexivity|]. cbn. apply lookup_insert_eq.
Qed.

(** C3.  [new_game] with both agents and the [game_mode] argument left at
    its default: the default name "Standard" is no key of the table of game
    modes, whose keys are in lower case, and the call raises KeyError before
    a game is made. *)
Theorem new_game_default_mode_raises away_name home_name away_agent home_agent st :
  new_game load_config load_team_by_name uuid1 make_game
           away_name home_name (Some away_agent) (Some home_agent) None st
  = Raise KeyError.
Proof.
  unfold new_game.
  change (default default_game_mode None) with default_game_mode.
  cbn [mbind result_bind].
  rewrite default_game_mode_unknown. reflexivity.
Qed.

(** ** [step] *)

(** C2, as the code has it.  For a game that the host holds: when it has not
    started, its first available action is of a non-human agent's team and
    the other agent is human, [step] steps the engine once, with a START_GAME
    action, and returns the game without stepping the caller's action; when
    the game has started, or the first available action is of a human's team
    or the other agent is not human, it steps the engine once with the
    caller's action. *)
Theorem step_start_game_or_action game_id action st game :
  host st !! game_id = Some game ->
  (bot_starts game ->
   let a := Some (mkAction (AT ActionType.START_GAME)) in
   exists st',
     step game_step game_id action st = Ok (game_step a game, st')
     /\ host st' !! game_id = Some (game_step a game)
     /\ api_log st' = api_log st ++ [(game_id, CallStep a)])
  /\ (caller_steps game ->
      exists st',
        step game_step game_id action st = Ok (game_step action game, st')
        /\ host st' !! game_id = Some (game_step action game)
        /\ api_log st' = api_log st ++ [(game_id, CallStep action)]).
Proof.
  intros Hhost. split.
  - intros (Hns & ac & rest & Haa & Hbot & Hhuman) a.
    unfold step. rewrite Hhost, Hns, Haa. cbn [negb mbind result_bind].
    rewrite Hbot, Hhuman. cbn [negb andb].
    eexists. split; [reflexivity|]. cbn. split; [apply lookup_insert_eq|reflexivity].
  - intros Hc. unfold step. rewrite Hhost.
    assert ((if negb (is_started game)
             then match get_available_actions game with
                  | [] => Raise IndexError
                  | action_choice :: _ =>
                      Ok (negb (human (get_team_agent game
                                         (choice_team action_choice)))
                          && human (get_other_agent game
                                      (get_team_agent game
                                         (choice_team action_choice))))
                  end
             else Ok false) = Ok false) as ->.
    { destruct Hc as [->|(ac & rest & -> & [->| ->])]; cbn; [reflexivity| |].
      - destruct (is_started game); reflexivity.
      - destruct (is_started game); cbn; [reflexivity|].
        rewrite andb_false_r. reflexivity. }
    cbn [mbind result_bind].
    eexists. split; [reflexivity|]. cbn. split; [apply lookup_insert_eq|reflexivity].
Qed.

(** ** Replays *)

Lemma get_replay_steps_cached rid from_idx num_steps st full :
  caches_ok st ->
  is_Some (replay_cache st !! rid) ->
  step_cache st !! rid = Some full ->
  get_replay_steps rid from_idx num_steps st
  = Ok (firstn (Z.to_nat num_steps) (skipn (Z.to_nat from_idx) full)).
Proof.
  intros [_ Hnd] [r Hr] Hfull. unfold get_replay_steps.
  rewrite Hr, Hfull. cbn [mbind result_bind].
  rewrite replay_steps_loop_spec by (cbn; exact (Hnd _ _ Hfull)).
  cbn [app length]. rewrite Nat.sub_0_r, Z.sub_0_r. reflexivity.
Qed.

Lemma get_replay_Ok rid st r st' :
  caches_ok st ->
  get_replay load_replay rid st = Ok (r, st') ->
  caches_ok st'
  /\ replay_cache st' !! rid = Some r
  /\ exists full,
       step_cache st' !! rid = Some full
       /\ steps r = firstn 100 full
       /\ (is_Some (replay_cache st !! rid) -> step_cache st !! rid = Some full).
Proof.
  intros [Hsub Hnd] H. unfold get_replay in H.
  destruct (replay_cache st !! rid) as [cached|] eqn:Hc.
  - cbn [mbind result_bind] in H.
    destruct (Hsub rid) as [full Hfull]; [rewrite Hc; eauto|].
    rewrite Hfull in H. cbn [mbind result_bind] in H. injection H as <- <-.
    rewrite replay_window_spec by (cbn; exact (Hnd _ _ Hfull)).
    cbn [app length steps set_steps replay_cache step_cache].
    split; [|split].
    + split; cbn [replay_cache step_cache].
      * intros rid' His. apply Hsub.
        destruct (decide (rid = rid')) as [<-|Hne].
        -- rewrite Hc. eauto.
        -- rewrite lookup_insert_ne in His by exact Hne. exact His.
      * exact Hnd.
    + apply lookup_insert_eq.
    + exists full. rewrite Nat.sub_0_r. auto.
  - destruct (load_replay rid) as [loaded|]; cbn [mbind result_bind] in H;
      [|discriminate H].
    cbn [step_cache] in H. rewrite lookup_insert_eq in H.
    cbn [mbind result_bind] in H. injection H as <- <-.
    set (full := foldl (fun d it => dict_set it.1 it.2 d) [] (steps loaded)).
    assert (NoDup full.*1) as Hfull
      by (apply dict_of_items_NoDup; cbn; apply NoDup_nil_2).
    rewrite replay_window_spec by (cbn; exact Hfull).
    cbn [app length steps set_steps replay_cache step_cache].
    split; [|split].
    + split; cbn [replay_cache step_cache].
      * intros rid' His.
        destruct (decide (rid = rid')) as [<-|Hne].
        -- rewrite lookup_insert_eq. eauto.
        -- rewrite lookup_insert_ne by exact Hne. apply Hsub.
           rewrite !lookup_insert_ne in His by exact Hne. exact His.
      * intros rid' d Hd.
        destruct (decide (rid = rid')) as [<-|Hne].
        -- rewrite lookup_insert_eq in Hd. injection Hd as <-. exact Hfull.
        -- rewrite lookup_insert_ne in Hd by exact Hne. exact (Hnd _ _ Hd).
    + apply lookup_insert_eq.
    + exists full. rewrite Nat.sub_0_r, lookup_insert_eq.
      split; [reflexivity|]. split; [reflexivity|].
      intros [? Hx]. discriminate Hx.
Qed.

Lemma get_replay_runs rid st :
  caches_ok st ->
  is_Some (replay_cache st !! rid) \/ is_ok (load_replay rid) = true ->
  exists r st', get_replay load_replay rid st = Ok (r, st').
Proof.
  intros [Hsub _] Hhave. unfold get_replay.
  destruct (replay_cache st !! rid) as [cached|] eqn:Hc.
  - cbn [mbind result_bind].
    destruct (Hsub rid) as [full Hfull]; [rewrite Hc; eauto|].
    rewrite Hfull. cbn [mbind result_bind]. eauto.
  - destruct Hhave as [[? Hx]|Hload]; [discriminate Hx|].
    destruct (load_replay rid) as [loaded|]; [|discriminate Hload].
    cbn [mbind result_bind step_cache]. rewrite lookup_insert_eq.
    cbn [mbind result_bind]. eauto.
Qed.

(** C8.  In a state of the caches that the code keeps.  The replay that
    [get_replay] returns holds the first 100 items of the cached full history,
    so at most 100.  For a replay in the cache, [get_replay_steps] returns
    the items of the full history from position [from_idx] on, up to
    [num_steps] of them: with 150 items or more, [from_idx = 100] and
    [num_steps = 50] give exactly the items at positions 100 to 149.  For an
    identifier that is not in the replay cache it returns the empty
    mapping. *)
Theorem replay_pagination rid st :
  caches_ok st ->
  (forall r st',
     get_replay load_replay rid st = Ok (r, st') ->
     caches_ok st'
     /\ exists full,
          step_cache st' !! rid = Some full
          /\ steps r = firstn 100 full
          /\ (length (steps r) <= 100)%nat
          /\ forall from_idx num_steps,
               get_replay_steps rid from_idx num_steps st'
               = Ok (firstn (Z.to_nat num_steps)
                            (skipn (Z.to_nat from_idx) full)))
  /\ (is_Some (replay_cache st !! rid) ->
      exists full,
        step_cache st !! rid = Some full
        /\ (forall from_idx num_steps,
              exists page,
                get_replay_steps rid from_idx num_steps st = Ok page
                /\ page = firstn (Z.to_nat num_steps)
                                 (skipn (Z.to_nat from_idx) full)
                /\ (length page <= Z.to_nat num_steps)%nat)
        /\ ((150 <= length full)%nat ->
            exists page,
              get_replay_steps rid 100 50 st = Ok page
              /\ length page = 50%nat
              /\ forall k, (k < 50)%nat -> page !! k = full !! (100 + k)%nat))
  /\ (replay_cache st !! rid = None ->
      forall from_idx num_steps,
        get_replay_steps rid from_idx num_steps st = Ok []).
Proof.
  intros Hok. split; [|split].
  - intros r st' H.
    destruct (get_replay_Ok rid st r st' Hok H) as (Hok' & Hr & full & Hfull & Hsteps & _).
    split; [exact Hok'|]. exists full.
    split; [exact Hfull|]. split; [exact Hsteps|].
    split; [rewrite Hsteps, length_take; lia|].
    intros from_idx num_steps.
    apply get_replay_steps_cached; [exact Hok'|rewrite Hr; eauto|exact Hfull].
  - intros Hcached. destruct Hok as [Hsub Hnd].
    destruct (Hsub rid Hcached) as [full Hfull]. exists full.
    split; [exact Hfull|]. split.
    + intros from_idx num_steps. eexists.
      split; [apply get_replay_steps_cached;
              [split; assumption|exact Hcached|exact Hfull]|].
      split; [reflexivity|]. rewrite length_take. lia.
    + intros Hlen. eexists.
      split; [apply get_replay_steps_cached;
              [split; assumption|exact Hcached|exact Hfull]|].
      change (Z.to_nat 50) with 50%nat. change (Z.to_nat 100) with 100%nat.
      split; [rewrite length_take, length_drop; lia|].
      intros k Hk. rewrite lookup_take_lt by exact Hk.
      rewrite lookup_drop. reflexivity.
  - intros Hnone from_idx num_steps. unfold get_replay_steps.
    rewrite Hnone. reflexivity.
Qed.

End ApiClaims.
End ApiProofs.

(** * The theorems at the concrete instances *)

Module Witnesses.
Import Env EnvProofs.

Lemma demo_conf_init :
  EnvConf_init Demo.load_config 3 None None false = Ok Demo.conf.
Proof. vm_compute. reflexivity. Defined.

Lemma grid_of_is_grid h w v : is_grid h w (Demo.grid_of h w v).
Proof.
  split; [apply length_replicate|].
  apply Forall_replicate, length_replicate.
Qed.

Lemma demo_layers_shaped active :
  layers_shaped Demo.layer_get (Demo.env0 active)
  /\ layers_shaped Demo.layer_get (Demo.env_new active).
Proof.
  split; intros l g;
    (destruct l as [[]| | | | | | | | | | | | | | | | | | | | | | | |];
     exact (grid_of_is_grid 3 8 _)).
Qed.

(** The constructor on the demo board: the first observation is made inside
    it, and the length of the layout is stored when it returns. *)
Lemma BotBowlEnv_init_demo :
  exists env,
    BotBowlEnv_init Demo.layer_get Demo.make_game Demo.randint
                    Demo.conf Demo.arena 7 = Ok env
    /\ num_non_spatial_observables env = Some 113%nat
    /\ board_squares env = 24.
Proof.
  destruct (BotBowlEnv_init Demo.layer_get Demo.make_game Demo.randint
              Demo.conf Demo.arena 7) as [env|] eqn:Hinit;
    [|vm_compute in Hinit; discriminate Hinit].
  exists env. split; [reflexivity|].
  apply BotBowlEnv_init_num in Hinit as (_ & Hnum & _ & _ & Hbs).
  - split; [exact Hnum|exact Hbs].
  - exact (EnvConf_init_built _ _ _ _ _ _ demo_conf_init).
Qed.

Lemma action_index_roundtrip_witness :
  exists a,
    _compute_action Demo.formation_actions (Some 25) None
                    (Demo.env0 (Some Away)) = Ok [Some a]
    /\ _compute_action_idx a None (Demo.env0 (Some Away)) = Ok 25.
Proof.
  apply (action_index_roundtrip Demo.formation_actions Demo.load_config
           3 None None false Demo.conf (Demo.env0 (Some Away)) None 25).
  - vm_compute. reflexivity.
  - reflexivity.
  - reflexivity.
  - reflexivity.
  - reflexivity.
  - vm_compute. split; [discriminate|reflexivity].
  - unfold formation_index. vm_compute. intros [_ H]. discriminate H.
Defined.

Lemma END_SETUP_only_after_formation_witness :
  AT ActionType.END_SETUP ∉ action_types Demo.conf.
Proof.
  apply (END_SETUP_only_after_formation Demo.formation_actions
           Demo.load_config 3 None None false Demo.conf).
  vm_compute. reflexivity.
Defined.

Lemma action_mask_has_legal_action_witness :
  exists sp ns mask env',
    get_state Demo.layer_get None (Demo.env0 (Some Home))
    = Ok ((sp, ns, mask), env')
    /\ Z.of_nat (length mask) = 20 + 2 + 17 * 24
    /\ true ∈ mask.
Proof.
  destruct (action_mask_has_legal_action Demo.layer_get Demo.load_config
              3 None None false (Demo.env0 (Some Home)) None)
    as [Hret Hassert].
  - vm_compute. reflexivity.
  - exact (proj1 (demo_layers_shaped (Some Home))).
  - cbn. lia.
  - cbn. lia.
  - reflexivity.
  - destruct Hassert as [_ Hruns]; [vm_compute; lia|].
    destruct Hruns as [ns Hns]; [by_evaluation|].
    destruct (Hret _ _ _ _ Hns) as (_ & Hlen & Htrue).
    eexists _, _, _, _. split; [exact Hns|]. split; [exact Hlen|exact Htrue].
Defined.

Lemma non_spatial_length_fixed_witness :
  exists sp ns mask env',
    get_state Demo.layer_get None (Demo.env_new (Some Home))
    = Ok ((sp, ns, mask), env')
    /\ length ns = 113%nat
    /\ num_non_spatial_observables env' = Some 113%nat.
Proof.
  destruct (get_state Demo.layer_get None (Demo.env_new (Some Home)))
    as [[[[sp ns] mask] env']|] eqn:Hg; [|vm_compute in Hg; discriminate Hg].
  destruct (non_spatial_length_fixed Demo.layer_get Demo.formation_actions
              Demo.game_step Demo.make_game Demo.randint Demo.load_config
              3 None None false (Demo.env_new (Some Home)))
    as [Hfirst _].
  - vm_compute. reflexivity.
  - destruct (Hfirst eq_refl None sp ns mask env' Hg) as (_ & _ & Hl & _ & Hn).
    exists sp, ns, mask, env'. split; [reflexivity|]. split; [exact Hl|exact Hn].
Defined.



End Witnesses.

Module ApiWitnesses.
Import Api ApiProofs.

Lemma step_start_game_or_action_witness :
  exists st',
    step Demo.game_step "g1" Demo.end_turn Demo.web_state
    = Ok (Demo.game_step (Some (mkAction (AT ActionType.START_GAME)))
                         Demo.web_game, st')
    /\ api_log st'
       = [("g1", CallStep (Some (mkAction (AT ActionType.START_GAME))))].
Proof.
  destruct (step_start_game_or_action Demo.game_step "g1" Demo.end_turn
              Demo.web_state Demo.web_game) as [Hstart _].
  - vm_compute. reflexivity.
  - destruct Hstart as (st' & Hstep & _ & Hlog).
    + split; [reflexivity|]. eexists _, _.
      split; [reflexivity|]. split; reflexivity.
    + exists st'. split; [exact Hstep|exact Hlog].
Defined.

(** C2 as the claim states it fails: on a game that a bot is to start
    against a human, [step] with an END_TURN action makes one call into the
    engine, the START_GAME step, and not the two that the claim states. *)
Lemma step_start_game_counterexample :
  bot_starts Demo.web_game
  /\ host Demo.web_state !! "g1" = Some Demo.web_game
  /\ exists g st',
       step Demo.game_step "g1" Demo.end_turn Demo.web_state = Ok (g, st')
       /\ api_log st'
          = [("g1", CallStep (Some (mkAction (AT ActionType.START_GAME))))]
       /\ api_log st'
          <> api_log Demo.web_state
             ++ [("g1", CallStep (Some (mkAction (AT ActionType.START_GAME))));
                 ("g1", CallStep Demo.end_turn)].
Proof.
  split; [|split].
  - split; [reflexivity|]. eexists _, _.
    split; [reflexivity|]. split; reflexivity.
  - vm_compute. reflexivity.
  - eexists _, _. split; [vm_compute; reflexivity|].
    split; [reflexivity|]. cbn. discriminate.
Qed.

Lemma caches_ok_initial : caches_ok initial_state.
Proof.
  split.
  - intros rid [r Hr]. cbn in Hr. rewrite lookup_empty in Hr. discriminate Hr.
  - intros rid d Hd. cbn in Hd. rewrite lookup_empty in Hd. discriminate Hd.
Qed.

Lemma replay_pagination_witness :
  exists r st',
    get_replay Demo.load_replay "r1" initial_state = Ok (r, st')
    /\ (length (steps r) <= 100)%nat
    /\ get_replay_steps "r1" 1 1 st'
       = Ok [(1, {| step_payload := "b" |})]
    /\ get_replay_steps "r2" 1 1 st' = Ok [].
Proof.
  destruct (get_replay Demo.load_replay "r1" initial_state) as [[r st']|] eqn:Hg;
    [|vm_compute in Hg; discriminate Hg].
  destruct (replay_pagination Demo.load_replay "r1" initial_state
              caches_ok_initial) as (Hfirst & _ & _).
  destruct (Hfirst r st' Hg) as (Hok' & full & Hfull & Hsteps & Hlen & Hpage).
  exists r, st'. split; [reflexivity|]. split; [exact Hlen|].
  split.
  - rewrite Hpage.
    assert (Some full
            = Some [ (0, {| step_payload := "a" |});
                     (1, {| step_payload := "b" |});
                     (2, {| step_payload := "c" |}) ]) as [= ->].
    { rewrite <- Hfull. vm_compute in Hg. injection Hg as <- <-.
      vm_compute. reflexivity. }
    reflexivity.
  - destruct (replay_pagination Demo.load_replay "r2" st' Hok')
      as (_ & _ & Hnone).
    apply Hnone. vm_compute in Hg. injection Hg as <- <-.
    vm_compute. reflexivity.
Defined.

End ApiWitnesses.

(** * More properties of botbowl/ai/env.py *)

Module EnvMoreProofs.
Import Env EnvProofs EnvMore.

(** ** [EnvConf.__init__] *)

Lemma formation_defaults_lookup (size : Z) :
  formation_defaults !! size
  = if decide (size = 1 \/ size = 11)
    then Some ["def_spread.txt"; "def_zone.txt"; "off_line.txt";
               "off_wedge.txt"]
    else if decide (size = 3 \/ size = 5 \/ size = 7)
         then Some ["def_spread.txt"; "off_wedge.txt"]
         else None.
Proof.
  unfold formation_defaults.
  destruct (decide (size = 1)) as [->|N1]; [reflexivity|].
  rewrite lookup_insert_ne by congruence.
  destruct (decide (size = 3)) as [->|N3]; [reflexivity|].
  rewrite lookup_insert_ne by congruence.
  destruct (decide (size = 5)) as [->|N5]; [reflexivity|].
  rewrite lookup_insert_ne by congruence.
  destruct (decide (size = 7)) as [->|N7]; [reflexivity|].
  rewrite lookup_insert_ne by congruence.
  destruct (decide (size = 11)) as [->|N11]; [reflexivity|].
  rewrite lookup_insert_ne by congruence. rewrite lookup_empty.
  rewrite decide_False by lia. rewrite decide_False by lia. reflexivity.
Qed.

(** X1.  [EnvConf.__init__] fails with the loader's error when the
    configuration file does not load; with a configuration loaded it raises
    KeyError for every size other than 1, 3, 5, 7 and 11, and, the formation
    files being resolved by [load_formation], returns for these five with
    the size of the call and the configuration loaded, its pathfinding flag
    replaced. *)
Theorem EnvConf_init_sizes load_config size ef el pf :
  (forall e, load_config ("gym-" +:+ pretty size) = Raise e ->
             EnvConf_init load_config size ef el pf = Raise e)
  /\ (forall cfg, load_config ("gym-" +:+ pretty size) = Ok cfg ->
        (size ∉ [1; 3; 5; 7; 11] ->
         EnvConf_init load_config size ef el pf = Raise KeyError)
        /\ (size ∈ [1; 3; 5; 7; 11] ->
            exists conf, EnvConf_init load_config size ef el pf = Ok conf
                         /\ Env.size conf = size
                         /\ config conf = set_pathfinding cfg pf)).
Proof.
  split.
  - intros e He. unfold EnvConf_init. rewrite He. reflexivity.
  - intros cfg Hc. unfold EnvConf_init. rewrite Hc. cbn [mbind result_bind].
    rewrite formation_defaults_lookup. split.
    + intros Hnot. rewrite !not_elem_of_cons in Hnot.
      destruct Hnot as (N1 & N3 & N5 & N7 & N11 & _).
      rewrite decide_False by lia. rewrite decide_False by lia. reflexivity.
    + intros Hin. rewrite !elem_of_cons, elem_of_nil in Hin.
      assert (size = 1 \/ size = 3 \/ size = 5 \/ size = 7 \/ size = 11)
        as Hcases by tauto.
      destruct (decide (size = 1 \/ size = 11)) as [H|H].
      * cbn [mbind result_bind]. eexists. split; [reflexivity|]. split; reflexivity.
      * rewrite decide_True by lia. cbn [mbind result_bind].
        eexists. split; [reflexivity|]. split; reflexivity.
Qed.


(** ** The action codec, outside the round trip *)

Section CodecMore.
Variable formation_actions : Formation -> Game -> option Team -> list Action.

(** X3.  On a board with squares, an index at or beyond the end of the
    index space raises IndexError, and a positional index inside it decodes
    to one action of a positional type at a square of the board. *)
Theorem decode_bounds load_config size ef el pf conf env flip i :
  EnvConf_init load_config size ef el pf = Ok conf ->
  env_conf env = conf ->
  0 < width env -> 0 < height env ->
  board_squares env = width env * height env ->
  (num_actions env <= i ->
   _compute_action formation_actions (Some i) flip env = Raise IndexError)
  /\ (Z.of_nat (length (simple_action_types conf)) <= i < num_actions env ->
      exists t sq,
        _compute_action formation_actions (Some i) flip env
        = Ok [Some (mkActionAt (AT t) sq)]
        /\ t ∈ positional_action_types conf
        /\ 0 <= x sq < width env /\ 0 <= y sq < height env).
Proof.
  intros Hinit Hconf Hw Hh Hbs.
  pose proof (EnvConf_init_built _ _ _ _ _ _ Hinit) as Hb.
  assert (0 < board_squares env) as Hpos by nia.
  split.
  - intros Hi. subst conf. pose proof Hb as [_ Hp _ _ _].
    unfold num_actions in Hi. rewrite Hp in Hi.
    change (length fixed_positional_action_types) with 17%nat in Hi.
    unfold _compute_action.
    destruct (Z.ltb_spec i (Z.of_nat (length (simple_action_types (env_conf env)))))
      as [Hlt|_]; [nia|].
    unfold py_mod, py_floordiv.
    destruct (Z.eqb_spec (board_squares env) 0) as [E|_]; [lia|].
    destruct (Z.eqb_spec (width env) 0) as [E|_]; [lia|].
    cbn [mbind result_bind]. rewrite Hp. unfold py_getitem.
    set (s := i - Z.of_nat (length (simple_action_types (env_conf env)))).
    assert (17 <= s / board_squares env) as Hq.
    { apply Z.div_le_lower_bound; [lia|]. unfold s. lia. }
    change (length fixed_positional_action_types) with 17%nat.
    destruct (Z.ltb_spec (s / board_squares env) 0) as [Hneg|_]; [lia|].
    destruct (Z.ltb_spec (s / board_squares env) 0) as [Hneg|_]; [lia|].
    destruct (Z.leb_spec (Z.of_nat 17) (s / board_squares env)) as [_|Hlt];
      [reflexivity|lia].
  - intros Hi.
    destruct (decode_positional formation_actions conf env flip i Hb Hconf
                Hw Hh Hbs Hi) as (t & Ht & Hdec).
    eexists t, _. split; [exact Hdec|].
    destruct Hb as [_ Hp _ _ _]. rewrite Hp.
    split; [eapply list_elem_of_lookup_2, Ht|].
    cbn [x y].
    set (p := (i - Z.of_nat (length (simple_action_types conf)))
              mod board_squares env).
    assert (0 <= p < board_squares env) as Hpr
      by (apply Z.mod_pos_bound; lia).
    pose proof (Z.mod_pos_bound p (width env) Hw) as Hx.
    assert (0 <= p / width env < height env) as Hy.
    { split; [apply Z.div_pos; lia|].
      apply Z.div_lt_upper_bound; [lia|]. lia. }
    split; [|exact Hy].
    destruct (match flip with Some b => b | None => away_team_active env end);
      lia.
Qed.

(** X4.  A negative index is not refused: it counts from the end of the
    simple catalogue and decodes, by the branch of the plain simple actions,
    to one action whose type is that entry, a formation object for the last
    entries, with no placements and no END_SETUP.  Below minus the length of
    the catalogue it raises IndexError. *)
Theorem decode_negative_index load_config size ef el pf conf env flip i :
  EnvConf_init load_config size ef el pf = Ok conf ->
  env_conf env = conf ->
  i < 0 ->
  let n := Z.of_nat (length (simple_action_types conf)) in
  (- n <= i ->
   exists k,
     simple_action_types conf !! Z.to_nat (n + i) = Some k
     /\ _compute_action formation_actions (Some i) flip env
        = Ok [Some (mkAction k)]
     /\ (- Z.of_nat (length (formations conf)) <= i ->
         exists f, k = Form f /\ f ∈ formations conf))
  /\ (i < - n ->
      _compute_action formation_actions (Some i) flip env = Raise IndexError).
Proof.
  intros Hinit Hconf Hneg n.
  pose proof (EnvConf_init_built _ _ _ _ _ _ Hinit) as Hb.
  pose proof (simple_length _ Hb) as Hlen. subst conf.
  assert (_compute_action formation_actions (Some i) flip env
          = (k ← py_getitem (simple_action_types (env_conf env)) i;
             Ok [Some (mkAction k)])) as Hdec.
  { unfold _compute_action.
    destruct (Z.ltb_spec i (Z.of_nat (length (simple_action_types (env_conf env)))))
      as [_|Hge]; [|lia].
    destruct (Z.leb_spec
                (Z.of_nat (length (simple_action_types (env_conf env)))
                 - Z.of_nat (length (formations (env_conf env)))) i)
      as [Hle|_]; [lia|reflexivity]. }
  rewrite Hdec. unfold py_getitem. fold n.
  destruct (Z.ltb_spec i 0) as [_|Hge]; [|lia].
  split.
  - intros Hlo.
    destruct (Z.ltb_spec (n + i) 0) as [Hlt|_]; [lia|].
    destruct (Z.leb_spec n (n + i)) as [Hle|_]; [lia|]. cbn [orb].
    destruct (lookup_lt_is_Some_2 (simple_action_types (env_conf env))
                (Z.to_nat (n + i))) as [k Hk]; [lia|].
    exists k. rewrite Hk. split; [reflexivity|]. split; [reflexivity|].
    intros Hform. destruct Hb as [Hs _ _ _ _].
    rewrite Hs, lookup_app_r in Hk
      by (rewrite length_fmap;
          change (length fixed_simple_action_types) with 20%nat; lia).
    rewrite list_lookup_fmap in Hk.
    destruct (formations (env_conf env) !! _) as [f|] eqn:Hf; [|discriminate Hk].
    injection Hk as <-. exists f. split; [reflexivity|].
    eapply list_elem_of_lookup_2, Hf.
  - intros Hlo.
    destruct (Z.ltb_spec (n + i) 0) as [_|Hge]; [reflexivity|lia].
Qed.

(** X5.  The round trip from the action: on a board with squares, an action
    of a positional type whose position, or else whose player's position, is
    a square of the board encodes to an index of the positional range, and
    that index decodes, under the same flip choice, to the action of this
    type at this square. *)
Theorem encode_then_decode load_config size ef el pf conf env flip a t sq :
  EnvConf_init load_config size ef el pf = Ok conf ->
  env_conf env = conf ->
  0 < width env -> 0 < height env ->
  board_squares env = width env * height env ->
  action_type a = AT t -> t ∈ positional_action_types conf ->
  match position a with
  | Some p => Some p
  | None => player a ≫= player_position
  end = Some sq ->
  0 <= x sq < width env -> 0 <= y sq < height env ->
  exists i,
    _compute_action_idx a flip env = Ok i
    /\ Z.of_nat (length (simple_action_types conf)) <= i < num_actions env
    /\ _compute_action formation_actions (Some i) flip env
       = Ok [Some (mkActionAt (AT t) sq)].
Proof.
  intros Hinit Hconf Hw Hh Hbs Hty Ht Hpos Hx Hy.
  pose proof (EnvConf_init_built _ _ _ _ _ _ Hinit) as Hb.
  pose proof Hb as [Hs Hp _ _ _]. subst conf. rewrite Hp in Ht.
  apply list_elem_of_lookup_1 in Ht as [q Hq].
  pose proof (lookup_lt_Some _ _ _ Hq) as Hq17.
  change (length fixed_positional_action_types) with 17%nat in Hq17.
  set (fl := match flip with Some b => b | None => away_team_active env end).
  set (x' := if fl then width env - x sq - 1 else x sq).
  assert (0 <= x' < width env) as Hx' by (unfold x'; destruct fl; lia).
  set (p := x' + y sq * width env).
  assert (0 <= p < board_squares env) as Hpr by (unfold p; nia).
  set (i := Z.of_nat (length (simple_action_types (env_conf env)))
            + board_squares env * Z.of_nat q + p).
  assert (_compute_action_idx a flip env = Ok i) as Henc.
  { unfold _compute_action_idx. rewrite Hty.
    assert (t ∈ fixed_positional_action_types) as Hin
      by (eapply list_elem_of_lookup_2, Hq).
    assert (py_in (AT t) (simple_action_types (env_conf env)) = false) as ->.
    { apply py_in_false. rewrite Hs, elem_of_app, AT_elem_of_fmap.
      intros [H|H]; [exact (fixed_positional_not_simple _ Hin H)
                    |exact (AT_not_Form _ _ H)]. }
    rewrite Hp.
    assert (py_in (AT t) (AT <$> fixed_positional_action_types) = true) as ->
      by (apply py_in_true, AT_elem_of_fmap, Hin).
    assert (match position a with
            | Some p0 => Ok p0
            | None => match player a with
                      | Some pl => match player_position pl with
                                   | Some p0 => Ok p0
                                   | None => Raise AttributeError
                                   end
                      | None => Raise AttributeError
                      end
            end = Ok sq) as ->.
    { destruct (position a) as [p0|]; [congruence|].
      destruct (player a) as [pl|]; cbn in Hpos; [|discriminate Hpos].
      rewrite Hpos. reflexivity. }
    cbn [mbind result_bind].
    rewrite (py_index_lookup _ q (AT t) fixed_positional_NoDup)
      by (rewrite list_lookup_fmap, Hq; reflexivity).
    reflexivity. }
  assert (Z.of_nat (length (simple_action_types (env_conf env))) <= i
          < num_actions env) as Hi.
  { unfold i, num_actions. rewrite Hp.
    change (length fixed_positional_action_types) with 17%nat. nia. }
  exists i. split; [exact Henc|]. split; [exact Hi|].
  destruct (decode_positional formation_actions (env_conf env) env flip i
              Hb eq_refl Hw Hh Hbs Hi) as (t' & Ht' & ->).
  assert ((i - Z.of_nat (length (simple_action_types (env_conf env))))
          = Z.of_nat q * board_squares env + p) as Hsi by (unfold i; lia).
  rewrite Hsi in *.
  assert ((Z.of_nat q * board_squares env + p) `div` board_squares env
          = Z.of_nat q) as Hdiv.
  { rewrite Z.div_add_l by lia. rewrite Z.div_small by lia. lia. }
  assert ((Z.of_nat q * board_squares env + p) `mod` board_squares env = p)
    as Hmod.
  { rewrite Z.add_comm, Z.mod_add by lia. apply Z.mod_small. lia. }
  rewrite Hdiv, Nat2Z.id in Ht'. rewrite Hq in Ht'. injection Ht' as <-.
  rewrite Hmod.
  assert (p `div` width env = y sq) as ->.
  { unfold p. rewrite Z.div_add by lia. rewrite Z.div_small by lia. lia. }
  assert (p `mod` width env = x') as ->.
  { unfold p. rewrite Z.mod_add by lia. apply Z.mod_small. lia. }
  fold fl. destruct sq as [sx sy]. cbn [x y] in *. unfold x'.
  destruct fl; repeat f_equal; lia.
Qed.

(** X6.  [_compute_action_idx] raises AttributeError for an action whose type
    is in neither catalogue, as END_SETUP and PLACE_PLAYER are for every
    configuration built, and for an action of a positional type that has
    neither a position nor a player with one. *)
Theorem encode_errors load_config size ef el pf conf env flip a :
  EnvConf_init load_config size ef el pf = Ok conf ->
  env_conf env = conf ->
  (action_type a ∉ action_types conf ->
   _compute_action_idx a flip env = Raise AttributeError)
  /\ (AT ActionType.END_SETUP ∉ action_types conf)
  /\ (AT ActionType.PLACE_PLAYER ∉ action_types conf)
  /\ (forall t,
        action_type a = AT t -> t ∈ positional_action_types conf ->
        position a = None -> player a ≫= player_position = None ->
        _compute_action_idx a flip env = Raise AttributeError).
Proof.
  intros Hinit Hconf.
  pose proof (EnvConf_init_built _ _ _ _ _ _ Hinit) as Hb.
  pose proof Hb as [Hs Hp Hat _ _]. subst conf.
  split; [|split; [|split]].
  - intros Hnot. rewrite Hat, elem_of_app in Hnot.
    unfold _compute_action_idx.
    rewrite (proj2 (py_in_false _ _)) by tauto.
    rewrite (proj2 (py_in_false _ _)) by tauto. reflexivity.
  - exact (END_SETUP_not_action_type _ Hb).
  - rewrite Hat, Hs, Hp, !elem_of_app, !AT_elem_of_fmap.
    assert (ActionType.PLACE_PLAYER ∉ fixed_simple_action_types) as H1
      by by_evaluation.
    assert (ActionType.PLACE_PLAYER ∉ fixed_positional_action_types) as H2
      by by_evaluation.
    intros [[H|H]|H]; [exact (H1 H)|exact (AT_not_Form _ _ H)|exact (H2 H)].
  - intros t Hty Ht Hnopos Hnoplayer. rewrite Hp in Ht.
    unfold _compute_action_idx. rewrite Hty.
    assert (py_in (AT t) (simple_action_types (env_conf env)) = false) as ->.
    { apply py_in_false. rewrite Hs, elem_of_app, AT_elem_of_fmap.
      intros [H|H]; [exact (fixed_positional_not_simple _ Ht H)
                    |exact (AT_not_Form _ _ H)]. }
    rewrite Hp.
    assert (py_in (AT t) (AT <$> fixed_positional_action_types) = true) as ->
      by (apply py_in_true, AT_elem_of_fmap, Ht).
    rewrite Hnopos. destruct (player a) as [pl|]; [|reflexivity].
    cbn in Hnoplayer. rewrite Hnoplayer. reflexivity.
Qed.

(** X7.  Flipping mirrors the column of the decoded square and nothing
    else: for a positional index the two flip choices give the same action
    type and row, and columns [x] and [width - 1 - x]; with no flip given the
    choice is whether the away team is active. *)
Theorem decode_flip_mirrors load_config size ef el pf conf env i :
  EnvConf_init load_config size ef el pf = Ok conf ->
  env_conf env = conf ->
  0 < width env -> 0 < height env ->
  board_squares env = width env * height env ->
  Z.of_nat (length (simple_action_types conf)) <= i < num_actions env ->
  exists t col row,
    _compute_action formation_actions (Some i) (Some false) env
    = Ok [Some (mkActionAt (AT t) {| x := col; y := row |})]
    /\ _compute_action formation_actions (Some i) (Some true) env
       = Ok [Some (mkActionAt (AT t)
                     {| x := width env - 1 - col; y := row |})]
    /\ _compute_action formation_actions (Some i) None env
       = _compute_action formation_actions (Some i)
                         (Some (away_team_active env)) env.
Proof.
  intros Hinit Hconf Hw Hh Hbs Hi.
  pose proof (EnvConf_init_built _ _ _ _ _ _ Hinit) as Hb.
  destruct (decode_positional formation_actions conf env (Some false) i
              Hb Hconf Hw Hh Hbs Hi) as (t & Ht & Hf).
  destruct (decode_positional formation_actions conf env (Some true) i
              Hb Hconf Hw Hh Hbs Hi) as (t' & Ht' & Htr).
  rewrite Ht in Ht'. injection Ht' as <-.
  eexists t, _, _. split; [exact Hf|]. split.
  - rewrite Htr.
    match goal with
    | |- context [width env - ?m - 1] =>
        replace (width env - m - 1) with (width env - 1 - m) by ring
    end.
    reflexivity.
  - reflexivity.
Qed.

End CodecMore.

(** ** The action mask and the decoded actions *)

Lemma concat_lookup_uniform {A} (ls : list (list A)) (m q p : nat) :
  Forall (fun l => length l = m) ls -> (p < m)%nat ->
  concat ls !! (q * m + p)%nat = ls !! q ≫= (fun l => l !! p).
Proof.
  intros HF Hp. revert q. induction HF as [|l ls Hl HF IH]; intros q.
  - reflexivity.
  - cbn [concat]. destruct q as [|q].
    + cbn. apply lookup_app_l. lia.
    + replace (S q * m + p)%nat with (length l + (q * m + p))%nat by lia.
      rewrite lookup_app_r by lia.
      replace (length l + (q * m + p) - length l)%nat with (q * m + p)%nat
        by lia.
      apply IH.
Qed.

Lemma concat_uniform_rows (h w : nat) (gs : list (list (list Q))) :
  Forall (is_grid h w) gs -> Forall (fun r => length r = w) (concat gs).
Proof.
  induction 1 as [|g gs [_ Hg] _ IH]; cbn [concat]; [constructor|].
  apply Forall_app. split; assumption.
Qed.

Lemma elem_of_concat {A} (x : A) (ls : list (list A)) :
  x ∈ concat ls <-> exists l, x ∈ l /\ l ∈ ls.
Proof.
  rewrite list_elem_of_In, in_concat. split.
  - intros (l & Hl & Hx). exists l. rewrite !list_elem_of_In. auto.
  - intros (l & Hx & Hl). exists l. rewrite <- !list_elem_of_In. auto.
Qed.

Section MaskMore.
Variable layer_get : FeatureLayer -> Game -> Grid.
Variable formation_actions : Formation -> Game -> option Team -> list Action.

Local Abbreviation spatial_of := (Env.spatial_of layer_get).
Local Abbreviation mask_of := (Env.mask_of layer_get).
Local Abbreviation layers_shaped := (Env.layers_shaped layer_get).

Lemma aa_types_of_length env :
  length (aa_types_of env) = length (action_types (env_conf env)).
Proof. unfold aa_types_of. apply length_fmap. Qed.

Lemma mask_of_simple_part flip env (n : nat) :
  conf_built (env_conf env) ->
  (n < length (simple_action_types (env_conf env)))%nat ->
  mask_of flip env !! n = positive <$> (aa_types_of env !! n).
Proof.
  intros Hb Hn. unfold Env.mask_of.
  rewrite list_lookup_fmap, lookup_app_l.
  - rewrite lookup_take_lt by exact Hn. reflexivity.
  - rewrite length_take, aa_types_of_length, (action_types_length _ Hb). lia.
Qed.

(** X8.  What an entry of the action mask says.  For a configuration built
    by the constructor, layers of the board's dimensions and a board with
    squares: the entry at a simple index is whether the legality flag of that
    entry of the catalogue is above zero; the entry at a positional index is
    whether the available-position layer of the action type that the index
    decodes to is above zero at the square that the index decodes to, under
    the same flip choice. *)
Theorem mask_entry_is_decoded_action load_config size ef el pf env flip :
  EnvConf_init load_config size ef el pf = Ok (env_conf env) ->
  layers_shaped env ->
  0 < width env -> 0 < height env ->
  board_squares env = width env * height env ->
  (forall n k,
     simple_action_types (env_conf env) !! n = Some k ->
     mask_of flip env !! n
     = Some (positive
               (aa_entry (game env) (active_team (game env))
                  (bool_decide (proc_type <$> get_procedure (game env)
                                = Some procedures.Setup))
                  ((fun c => AT (choice_action_type c))
                   <$> get_available_actions (game env)) k)))
  /\ (forall i,
        Z.of_nat (length (simple_action_types (env_conf env))) <= i
        < num_actions env ->
        exists t sq v,
          _compute_action formation_actions (Some i) flip env
          = Ok [Some (mkActionAt (AT t) sq)]
          /\ layer_get (AvailablePositionLayer t) (game env)
               !! Z.to_nat (y sq) ≫= (fun row => row !! Z.to_nat (x sq))
             = Some v
          /\ mask_of flip env !! Z.to_nat i = Some (positive v)).
Proof.
  intros Hinit Hsh Hw Hh Hbs.
  pose proof (EnvConf_init_built _ _ _ _ _ _ Hinit) as Hb.
  pose proof Hb as [Hs Hp Hat _ [rest Hly]].
  split.
  - intros n k Hk.
    rewrite (mask_of_simple_part flip env n Hb (lookup_lt_Some _ _ _ Hk)).
    unfold aa_types_of. rewrite list_lookup_fmap, Hat.
    rewrite lookup_app_l by (exact (lookup_lt_Some _ _ _ Hk)).
    rewrite Hk. reflexivity.
  - intros i Hi.
    destruct (decode_positional formation_actions (env_conf env) env flip i
                Hb eq_refl Hw Hh Hbs Hi) as (t & Ht & Hdec).
    set (ns := length (simple_action_types (env_conf env))) in *.
    set (s := i - Z.of_nat ns) in *.
    set (p := s mod board_squares env) in *.
    set (fl := match flip with Some b => b | None => away_team_active env end)
      in *.
    set (W := Z.to_nat (width env)). set (H := Z.to_nat (height env)).
    assert (0 < board_squares env) as Hpos by nia.
    unfold num_actions in Hi. fold ns in Hi. rewrite Hp in Hi.
    change (length fixed_positional_action_types) with 17%nat in Hi.
    assert (0 <= s < 17 * board_squares env) as Hsr by (unfold s; lia).
    assert (0 <= s / board_squares env < 17) as Hq.
    { split; [apply Z.div_pos; lia|apply Z.div_lt_upper_bound; lia]. }
    assert (0 <= p < board_squares env) as Hpr
      by (apply Z.mod_pos_bound; lia).
    pose proof (Z.mod_pos_bound p (width env) Hw) as Hxr.
    assert (0 <= p / width env < height env) as Hyr.
    { split; [apply Z.div_pos; lia|apply Z.div_lt_upper_bound; lia]. }
    set (q := Z.to_nat (s / board_squares env)) in *.
    set (yn := Z.to_nat (p / width env)).
    set (xn := Z.to_nat (p mod width env)).
    assert (q < 17)%nat as Hq17 by (unfold q; lia).
    assert (yn < H)%nat as Hyn by (unfold yn, H; lia).
    assert (xn < W)%nat as Hxn by (unfold xn, W; lia).
    (* the layer of the decoded type, and its row and cell *)
    assert (layers (env_conf env) !! q = Some (AvailablePositionLayer t))
      as Hlayer.
    { rewrite Hly, lookup_app_l
        by (rewrite length_fmap;
            change (length fixed_positional_action_types) with 17%nat; lia).
      rewrite list_lookup_fmap, Ht. reflexivity. }
    destruct (Hsh (AvailablePositionLayer t) (game env)) as [Hrows Hcols].
    fold H in Hrows. fold W in Hcols.
    destruct (lookup_lt_is_Some_2
                (layer_get (AvailablePositionLayer t) (game env)) yn)
      as [row Hrow]; [lia|].
    assert (length row = W) as Hrowlen.
    { rewrite Forall_forall in Hcols. apply Hcols.
      eapply list_elem_of_lookup_2, Hrow. }
    set (xd := if fl then (W - S xn)%nat else xn).
    assert (xd < W)%nat as Hxd by (unfold xd; destruct fl; lia).
    destruct (lookup_lt_is_Some_2 row xd) as [v Hv]; [lia|].
    eexists t, _, v. split; [exact Hdec|]. cbn [x y].
    assert (Z.to_nat (if fl then width env - p mod width env - 1
                      else p mod width env) = xd) as ->.
    { unfold xd, xn, W. destruct fl; lia. }
    fold yn. rewrite Hrow. cbn [mbind option_bind]. split; [exact Hv|].
    (* the entry of the mask *)
    unfold Env.mask_of, flatten_first. fold ns. rewrite Hp.
    change (length fixed_positional_action_types) with 17%nat.
    rewrite list_lookup_fmap.
    assert (length (firstn ns (aa_types_of env)) = ns) as Hpre.
    { rewrite length_take, aa_types_of_length, (action_types_length _ Hb).
      fold ns. lia. }
    assert (Z.to_nat i = (ns + ((q * H + yn) * W + xn))%nat) as ->.
    { pose proof (Z.div_mod s (board_squares env) ltac:(lia)) as Hdm1.
      pose proof (Z.div_mod p (width env) ltac:(lia)) as Hdm2.
      fold p in Hdm1.
      apply Nat2Z.inj.
      rewrite Z2Nat.id by lia.
      rewrite Nat2Z.inj_add, Nat2Z.inj_add, Nat2Z.inj_mul, Nat2Z.inj_add,
        Nat2Z.inj_mul.
      unfold q, yn, xn, W, H. rewrite !Z2Nat.id by lia.
      set (d1 := s / board_squares env) in *.
      set (d2 := p / width env) in *. set (m2 := p mod width env) in *.
      clearbody d1 d2 m2 p. unfold s in *. nia. }
    rewrite lookup_app_r by lia.
    replace (ns + ((q * H + yn) * W + xn) - length (firstn ns (aa_types_of env)))%nat
      with ((q * H + yn) * W + xn)%nat by lia.
    pose proof (spatial_of_grids layer_get flip env Hsh) as Hgrids.
    fold H W in Hgrids.
    rewrite (concat_lookup_uniform _ W (q * H + yn) xn);
      [|apply (concat_uniform_rows H W), Forall_take, Hgrids|exact Hxn].
    rewrite (concat_lookup_uniform _ H q yn);
      [|eapply Forall_impl; [apply Forall_take, Hgrids|];
        intros g [Hg _]; exact Hg|exact Hyn].
    rewrite lookup_take_lt by exact Hq17.
    unfold Env.spatial_of, flip_of. fold fl.
    destruct fl.
    + unfold np_flip2. rewrite !list_lookup_fmap, Hlayer.
      cbn [fmap option_fmap option_map mbind option_bind].
      rewrite list_lookup_fmap, Hrow.
      cbn [fmap option_fmap option_map mbind option_bind].
      rewrite reverse_lookup by lia. rewrite Hrowlen.
      unfold xd in Hv. rewrite Hv. reflexivity.
    + rewrite list_lookup_fmap, Hlayer.
      cbn [fmap option_fmap option_map mbind option_bind].
      rewrite Hrow. cbn [mbind option_bind].
      unfold xd in Hv. rewrite Hv. reflexivity.
Qed.

End MaskMore.

(** ** [get_state] and the flip choice *)

Section FlipMore.
Variable layer_get : FeatureLayer -> Game -> Grid.

Local Abbreviation spatial_of := (Env.spatial_of layer_get).
Local Abbreviation mask_of := (Env.mask_of layer_get).

Lemma np_flip2_involutive (t : Tensor) : np_flip2 (np_flip2 t) = t.
Proof.
  unfold np_flip2. rewrite <- list_fmap_compose.
  rewrite <- (list_fmap_id t) at 2. apply list_fmap_ext. intros _ g _.
  cbn. rewrite <- list_fmap_compose.
  rewrite <- (list_fmap_id g) at 2. apply list_fmap_ext. intros _ r _.
  cbn. apply reverse_involutive.
Qed.

Lemma spatial_of_flip env :
  spatial_of (Some true) env = np_flip2 (spatial_of (Some false) env).
Proof. reflexivity. Qed.

Lemma elem_of_flatten_flip (n : nat) (t : Tensor) (v : Q) :
  v ∈ flatten_first n (np_flip2 t) <-> v ∈ flatten_first n t.
Proof.
  unfold flatten_first, np_flip2. rewrite <- fmap_take.
  rewrite !elem_of_concat. split.
  - intros (r & Hv & Hr). apply elem_of_concat in Hr as (g & Hr & Hg).
    apply list_elem_of_fmap in Hg as (g0 & -> & Hg0).
    apply list_elem_of_fmap in Hr as (r0 & -> & Hr0).
    rewrite elem_of_reverse in Hv.
    exists r0. split; [exact Hv|]. apply elem_of_concat. eauto.
  - intros (r & Hv & Hr). apply elem_of_concat in Hr as (g & Hr & Hg).
    exists (reverse r). split; [apply elem_of_reverse_2, Hv|].
    apply elem_of_concat. exists (reverse <$> g). split.
    + apply list_elem_of_fmap. eauto.
    + apply list_elem_of_fmap. exists g. auto.
Qed.

Lemma mask_of_true_flip flip flip' env :
  true ∈ mask_of flip env -> true ∈ mask_of flip' env.
Proof.
  assert (forall f, true ∈ mask_of f env <-> true ∈ mask_of (Some false) env)
    as Hany.
  { intros f. unfold Env.mask_of.
    rewrite !list_elem_of_fmap. unfold Env.spatial_of, flip_of.
    destruct (match f with Some b => b | None => away_team_active env end);
      cbn [away_team_active]; [|reflexivity].
    split; intros (v & Hv & Hin); exists v; (split; [exact Hv|]);
      rewrite elem_of_app in *;
      (destruct Hin as [Hin|Hin]; [left; exact Hin|right]);
      apply elem_of_flatten_flip; exact Hin. }
  intros H. apply Hany. apply Hany in H. exact H.
Qed.

(** The non-spatial vector and the environment left do not depend on the
    flip choice. *)
Lemma get_state_flip_same_vector flip flip' env o o' e e' :
  get_state layer_get flip env = Ok (o, e) ->
  get_state layer_get flip' env = Ok (o', e') ->
  o.1.2 = o'.1.2 /\ e = e'.
Proof.
  unfold get_state.
  destruct (np_stack _) as [t|]; [|discriminate].
  cbn [mbind result_bind].
  destruct (ns_put_all _ _) as [[b1 i1]|]; [|discriminate].
  cbn [mbind result_bind].
  match goal with
  | |- mbind _ ?m = _ -> _ => destruct m as [[b2 i2]|]; [|discriminate]
  end.
  cbn [mbind result_bind].
  match goal with
  | |- mbind _ ?m = _ -> _ => destruct m as [[b3 i3]|]; [|discriminate]
  end.
  cbn [mbind result_bind].
  match goal with
  | |- mbind _ ?m = _ -> _ => destruct m as [[b4 i4]|]; [|discriminate]
  end.
  cbn [mbind result_bind].
  match goal with
  | |- mbind _ ?m = _ -> _ => destruct m as [[b5 i5]|]; [|discriminate]
  end.
  cbn [mbind result_bind].
  destruct (ns_slice_assign _ _ _) as [buf|]; cbn [mbind result_bind];
    [|intros H; inversion H].
  destruct (num_non_spatial_observables env);
    (destruct (py_in true _); [|discriminate]);
    (destruct (py_in true _); [|discriminate]);
    intros [= <- <-] [= <- <-]; auto.
Qed.

(** X9.  The flip choice changes the spatial observation and the order of
    the positional entries of the mask, and nothing else: [get_state]
    returns under one flip choice exactly when it does under another, with
    the same non-spatial vector, the same length stored, masks of one length
    that agree on the simple entries, and, between flipping and not, spatial
    observations that mirror each other row by row. *)
Theorem get_state_flip load_config size ef el pf env flip flip' sp ns mask env' :
  EnvConf_init load_config size ef el pf = Ok (env_conf env) ->
  get_state layer_get flip env = Ok ((sp, ns, mask), env') ->
  exists sp' mask',
    get_state layer_get flip' env = Ok ((sp', ns, mask'), env')
    /\ length mask' = length mask
    /\ firstn (length (simple_action_types (env_conf env))) mask'
       = firstn (length (simple_action_types (env_conf env))) mask
    /\ sp' = (if bool_decide (flip_of flip env = flip_of flip' env)
              then sp else np_flip2 sp).
Proof.
  intros Hinit Hget.
  pose proof (EnvConf_init_built _ _ _ _ _ _ Hinit) as Hb.
  pose proof Hget as Hget0.
  apply (get_state_Ok layer_get flip env sp ns mask env' Hb) in Hget
    as (Hroom & Hlen & Henv & Hstack & Hsp & Hmask & Htrue & _).
  destruct (get_state_runs layer_get flip' env Hb Hroom Hstack)
    as (ns' & _ & Hrun).
  rewrite Hmask in Htrue.
  rewrite (proj2 (py_in_true _ _) (mask_of_true_flip flip flip' env Htrue))
    in Hrun.
  destruct (get_state_flip_same_vector flip flip' env _ _ _ _ Hget0 Hrun)
    as [Hns _]. cbn in Hns. subst ns'.
  exists (spatial_of flip' env), (mask_of flip' env).
  rewrite Henv. split; [exact Hrun|].
  subst mask sp. unfold Env.mask_of.
  split; [|split].
  - rewrite !length_fmap, !length_app. f_equal.
    unfold flatten_first, Env.spatial_of.
    assert (forall (n : nat) (t : Tensor),
              length (concat (concat (firstn n (np_flip2 t))))
              = length (concat (concat (firstn n t)))) as Hflip.
    { intros n t. revert n. induction t as [|g t IH]; intros [|n];
        cbn [np_flip2 fmap list_fmap firstn concat]; try reflexivity.
      rewrite !concat_app, !length_app. f_equal; [|apply IH].
      clear. induction g as [|r g IH]; [reflexivity|].
      cbn. rewrite !length_app, length_reverse. f_equal. exact IH. }
    destruct (flip_of flip env), (flip_of flip' env);
      rewrite ?Hflip; reflexivity.
  - rewrite <- !fmap_take. rewrite !take_app_le
      by (rewrite length_take, aa_types_of_length,
            (action_types_length _ Hb); lia).
    reflexivity.
  - unfold Env.spatial_of.
    destruct (flip_of flip env), (flip_of flip' env); cbn;
      rewrite ?np_flip2_involutive; reflexivity.
Qed.

End FlipMore.

(** ** The layout of the non-spatial vector *)

Lemma ns_put_all_lookup vs buf i buf' i' :
  ns_put_all vs (buf, i) = Ok (buf', i') ->
  same_outside i (i + length vs) buf buf'
  /\ forall k v, vs !! k = Some v -> buf' !! (i + k)%nat = Some v.
Proof.
  revert buf i. induction vs as [|v0 vs IH]; intros buf i; cbn [ns_put_all].
  - intros [= <- <-]. split; [intros j _; reflexivity|]. intros k v Hk.
    discriminate Hk.
  - destruct (ns_put v0 (buf, i)) as [[b1 i1]|] eqn:E; [|discriminate].
    cbn [mbind result_bind]. intros H.
    unfold ns_put in E.
    destruct (decide (i < length buf)%nat) as [Hlt|]; [|discriminate E].
    injection E as <- <-.
    apply IH in H as [Hout Hin]. cbn [length]. split.
    + intros j Hj. rewrite Hout by lia.
      apply list_lookup_insert_ne. lia.
    + intros [|k] v Hk; cbn in Hk.
      * injection Hk as ->. rewrite Nat.add_0_r, Hout by lia.
        apply list_lookup_insert_eq. exact Hlt.
      * replace (i + S k)%nat with (S i + k)%nat by lia. apply Hin, Hk.
Qed.

Lemma ns_zip_put_lookup {A} (f : A -> Q) xs buf i buf' i' :
  ns_zip_put f xs (buf, i) = Ok (buf', i') ->
  same_outside i (i + length xs) buf buf'
  /\ forall k a, xs !! k = Some a -> buf' !! (i + k)%nat = Some (f a).
Proof.
  revert buf i. induction xs as [|a0 xs IH]; intros buf i; cbn [ns_zip_put].
  - intros [= <- <-]. split; [intros j _; reflexivity|]. intros k a Hk.
    discriminate Hk.
  - destruct (ns_put (f a0) (buf, i)) as [[b1 i1]|] eqn:E; [|discriminate].
    cbn [mbind result_bind]. intros H.
    unfold ns_put in E.
    destruct (decide (i < length buf)%nat) as [Hlt|]; [|discriminate E].
    injection E as <- <-.
    apply IH in H as [Hout Hin]. cbn [length]. split.
    + intros j Hj. rewrite Hout by lia.
      apply list_lookup_insert_ne. lia.
    + intros [|k] a Hk; cbn in Hk.
      * injection Hk as ->. rewrite Nat.add_0_r, Hout by lia.
        apply list_lookup_insert_eq. exact Hlt.
      * replace (i + S k)%nat with (S i + k)%nat by lia. apply Hin, Hk.
Qed.

Section LayoutMore.
Variable layer_get : FeatureLayer -> Game -> Grid.
Variable formation_actions : Formation -> Game -> option Team -> list Action.
Variable game_step : option Action -> Game -> Game.
Variable make_game : EnvConf -> Z -> Game.
Variable randint : Z -> nat -> Z.

(** X10.  Where the non-spatial vector that [get_state] returns has what.
    Slot 0 is the half minus one; with no active team the slots 16 to 37 are
    zero; slot [50 + k] is whether the [k]-th tracked procedure type is on
    the stack; slot 73, the counter value that [zip] draws and drops, is
    always zero; and slot [74 + k] is the legality flag of the [k]-th entry of
    [action_types]. *)
Theorem non_spatial_layout load_config size ef el pf env flip sp ns mask env' :
  EnvConf_init load_config size ef el pf = Ok (env_conf env) ->
  get_state layer_get flip env = Ok ((sp, ns, mask), env') ->
  ns !! 0%nat = Some (z2q (half (state (game env))) - 1)%Q
  /\ (active_team (game env) = None ->
      forall j, (16 <= j < 38)%nat -> ns !! j = Some 0%Q)
  /\ (forall k pt,
        fixed_procedures !! k = Some pt ->
        ns !! (50 + k)%nat
        = Some (b2q (py_in pt (proc_type <$> stack_items (state (game env))))))
  /\ ns !! 73%nat = Some 0%Q
  /\ (forall k, (k < length (action_types (env_conf env)))%nat ->
                ns !! (74 + k)%nat = aa_types_of env !! k).
Proof.
  intros Hinit H.
  pose proof (EnvConf_init_built _ _ _ _ _ _ Hinit) as Hb.
  pose proof (get_state_Ok layer_get flip env sp ns mask env' Hb H)
    as (Hroom & _).
  unfold layout_len in Hroom.
  unfold get_state in H.
  destruct (np_stack _) as [t|] eqn:Hstack; [|discriminate H].
  cbn [mbind result_bind] in H.
  set (buf0 := match num_non_spatial_observables env with
               | None => replicate 2000 0%Q
               | Some n => replicate n 0%Q
               end) in H.
  assert (forall j, (j < buffer_len env)%nat -> buf0 !! j = Some 0%Q) as Hzero.
  { intros j Hj. unfold buf0, buffer_len in *.
    destruct (num_non_spatial_observables env);
      apply lookup_replicate_2; exact Hj. }
  clearbody buf0.
  match type of H with
  | mbind _ ?m = Ok _ =>
      destruct m as [[b1 i1]|] eqn:E1; [|discriminate H];
      cbn [mbind result_bind] in H
  end.
  pose proof (ns_put_all_Ok _ _ _ _ _ E1) as (-> & _ & _).
  apply ns_put_all_lookup in E1 as [O1 W1].
  match type of H with
  | mbind _ ?m = Ok _ =>
      destruct m as [[b2 i2]|] eqn:E2; [|discriminate H];
      cbn [mbind result_bind] in H
  end.
  assert (i2 = 38%nat /\ same_outside 16 38 b1 b2
          /\ (active_team (game env) = None -> b2 = b1)) as (-> & O2 & N2).
  { destruct (active_team (game env)).
    - pose proof (ns_put_all_Ok _ _ _ _ _ E2) as (-> & _ & _).
      apply ns_put_all_lookup in E2 as [O2 _].
      rewrite length_app, !team_block_length in *. cbn in *.
      split; [reflexivity|]. split; [exact O2|discriminate].
    - injection E2 as <- <-. cbn. split; [reflexivity|].
      split; [intros j _; reflexivity|reflexivity]. }
  clear E2.
  match type of H with
  | mbind _ ?m = Ok _ =>
      destruct m as [[b3 i3]|] eqn:E3; [|discriminate H];
      cbn [mbind result_bind] in H
  end.
  assert (i3 = 44%nat /\ same_outside 38 44 b2 b3) as (-> & O3).
  { destruct (current_turn (game env)).
    - pose proof (ns_put_all_Ok _ _ _ _ _ E3) as (-> & _ & _).
      apply ns_put_all_lookup in E3 as [O3 _]. cbn in *.
      split; [reflexivity|exact O3].
    - injection E3 as <- <-. cbn. split; [reflexivity|].
      intros j _; reflexivity. }
  clear E3.
  match type of H with
  | mbind _ ?m = Ok _ =>
      destruct m as [[b4 i4]|] eqn:E4; [|discriminate H];
      cbn [mbind result_bind] in H
  end.
  assert (i4 = 50%nat /\ same_outside 44 50 b3 b4) as (-> & O4).
  { destruct (active_player (state (game env))).
    - pose proof (ns_put_all_Ok _ _ _ _ _ E4) as (-> & _ & _).
      apply ns_put_all_lookup in E4 as [O4 _]. cbn in *.
      split; [reflexivity|exact O4].
    - injection E4 as <- <-. cbn. split; [reflexivity|].
      intros j _; reflexivity. }
  clear E4.
  match type of H with
  | mbind _ ?m = Ok _ =>
      destruct m as [[b5 i5]|] eqn:E5; [|discriminate H];
      cbn [mbind result_bind] in H
  end.
  pose proof Hb as [Hs Hp Hat Hpr Hly]. rewrite Hpr in E5.
  pose proof (ns_zip_put_Ok _ _ _ _ _ _ E5) as (-> & _ & _).
  apply ns_zip_put_lookup in E5 as [O5 W5].
  change (length fixed_procedures) with 23%nat in *.
  cbn [fst snd] in H. fold (aa_types_of env) in H.
  change (50 + 23 + 1)%nat with 74%nat in H.
  destruct (ns_slice_assign _ _ _) as [buf|] eqn:Hslice;
    cbn [mbind result_bind] in H; [|inversion H].
  apply ns_slice_assign_Ok in Hslice as [_ Hfit].
  pose proof (aa_types_of_length env) as Haa.
  assert (2 <= length (aa_types_of env))%nat as H2.
  { rewrite Haa, Hat, Hp, length_app, !length_fmap.
    change (length fixed_positional_action_types) with 17%nat. lia. }
  destruct (Hfit H2) as [Hlen5 Hbuf]. clear Hfit.
  (* the slots of the vector returned, below and from slot 74 *)
  assert (length (firstn 74 b5) = 74%nat) as Hpre
    by (rewrite length_take; lia).
  assert (forall j, (j < 74)%nat -> ns !! j = b5 !! j) as Hlow.
  { intros j Hj.
    destruct (num_non_spatial_observables env);
      (destruct (py_in true _); [|discriminate H]);
      injection H as <- <- <- <-; rewrite Hbuf.
    - rewrite lookup_app_l by lia. apply lookup_take_lt, Hj.
    - rewrite lookup_take_lt by lia.
      rewrite lookup_app_l by lia. apply lookup_take_lt, Hj. }
  assert (forall k, (k < length (aa_types_of env))%nat ->
                    ns !! (74 + k)%nat = aa_types_of env !! k) as Hhigh.
  { intros k Hk.
    destruct (num_non_spatial_observables env);
      (destruct (py_in true _); [|discriminate H]);
      injection H as <- <- <- <-; rewrite Hbuf.
    - rewrite lookup_app_r by lia. rewrite Hpre.
      replace (74 + k - 74)%nat with k by lia. apply lookup_app_l, Hk.
    - rewrite lookup_take_lt by lia.
      rewrite lookup_app_r by lia. rewrite Hpre.
      replace (74 + k - 74)%nat with k by lia. apply lookup_app_l, Hk. }
  assert (74 + length (action_types (env_conf env)) <= buffer_len env)%nat
    as Hroom' by exact Hroom.
  split; [|split; [|split; [|split]]].
  - rewrite Hlow, O5, O4, O3, O2 by lia. exact (W1 0%nat _ eq_refl).
  - intros Hnone j Hj.
    rewrite Hlow, O5, O4, O3 by lia. rewrite (N2 Hnone).
    rewrite O1 by (cbn; lia). apply Hzero. lia.
  - intros k pt Hk. pose proof (lookup_lt_Some _ _ _ Hk) as Hk23.
    change (length fixed_procedures) with 23%nat in Hk23.
    rewrite Hlow by lia. exact (W5 k pt Hk).
  - rewrite Hlow, O5, O4, O3, O2, O1 by (cbn; lia). apply Hzero. lia.
  - intros k Hk. apply Hhigh. rewrite Haa. exact Hk.
Qed.

(** ** [step] and the engine *)

Lemma foldl_game_step_game acts env :
  game (foldl (fun e a => do_game_step game_step a e) env acts)
  = foldl (fun g a => game_step a g) (game env) acts.
Proof.
  revert env. induction acts as [|a acts IH]; intros env; cbn; [reflexivity|].
  rewrite IH. reflexivity.
Qed.

(** X11.  A [step] that returns has decoded its index, stepped the engine
    with the decoded actions in order, and made no other call into the
    engine: one step without an action when no index is given, one step with
    the action for an index that is not of a formation, and for a formation
    index the steps of the placements followed by the END_SETUP step. *)
Theorem step_engine_calls load_config size ef el pf env action_idx skip r env' :
  EnvConf_init load_config size ef el pf = Ok (env_conf env) ->
  step layer_get formation_actions game_step action_idx skip env
  = Ok (r, env') ->
  exists acts,
    _compute_action formation_actions action_idx None env = Ok acts
    /\ engine_log env' = engine_log env ++ (CallStep <$> acts)
    /\ game env' = foldl (fun g a => game_step a g) (game env) acts
    /\ (action_idx = None -> acts = [None])
    /\ (forall i, action_idx = Some i -> 0 <= i ->
          formation_index (env_conf env) i ->
          exists f,
            simple_action_types (env_conf env) !! Z.to_nat i = Some (Form f)
            /\ acts = (Some <$> formation_actions f (game env)
                                  (active_team (game env)))
                      ++ [Some (mkAction (AT ActionType.END_SETUP))])
    /\ (forall i, action_idx = Some i -> 0 <= i ->
          ~ formation_index (env_conf env) i ->
          exists a, acts = [Some a]).
Proof.
  intros Hinit H.
  pose proof (EnvConf_init_built _ _ _ _ _ _ Hinit) as Hb.
  unfold step in H.
  destruct (_compute_action _ _ _ _) as [acts|] eqn:Hdec;
    cbn [mbind result_bind] in H; [|discriminate H].
  exists acts. split; [reflexivity|].
  apply get_step_return_reads in H as [Hgame Hlog].
  destruct (foldl_game_step_fields game_step acts env) as (_ & _ & Hlog').
  split; [rewrite Hlog; exact Hlog'|].
  split; [rewrite Hgame; apply foldl_game_step_game|].
  split; [|split].
  - intros ->. cbn in Hdec. injection Hdec as <-. reflexivity.
  - intros i -> H0 Hf.
    destruct (decode_formation formation_actions (env_conf env) env None i
                Hb eq_refl Hf H0) as (f & Hl & Hd).
    exists f. split; [exact Hl|]. rewrite Hd in Hdec.
    injection Hdec as <-. reflexivity.
  - intros i -> H0 Hnf. cbn in Hdec. unfold formation_index in Hnf.
    destruct (Z.ltb_spec i (Z.of_nat (length (simple_action_types (env_conf env)))))
      as [Hlt|Hge].
    + destruct (Z.leb_spec
                  (Z.of_nat (length (simple_action_types (env_conf env)))
                   - Z.of_nat (length (formations (env_conf env)))) i)
        as [Hle|_]; [lia|].
      destruct (py_getitem _ i) as [k|]; [|discriminate Hdec].
      cbn in Hdec. injection Hdec as <-. eauto.
    + destruct (py_mod _ _) as [p|]; [|discriminate Hdec]. cbn in Hdec.
      destruct (py_floordiv p _) as [row|]; [|discriminate Hdec]. cbn in Hdec.
      destruct (py_mod p _) as [c|]; [|discriminate Hdec]. cbn in Hdec.
      destruct (py_floordiv _ _) as [q|]; [|discriminate Hdec]. cbn in Hdec.
      destruct (py_getitem _ q) as [t|]; [|discriminate Hdec].
      cbn in Hdec. injection Hdec as <-. eauto.
Qed.

(** ** [seed] and [reset] *)

Local Abbreviation after_reset :=
  (EnvMore.after_reset layer_get make_game randint).

(** X12.  With the construction of the game and of its agents taken as the
    engine's [make_game], a [reset] that skips the observation returns
    nothing; it installs the game made for the next draw of the random
    stream and changes neither the configuration, the stored length nor the
    record of engine calls.
    [seed] with a seed restarts the stream: the [n+1]-th reset after it
    installs the game of draw number [n] of the stream of that seed, whatever
    was drawn before; [seed] without one changes nothing and returns the
    seed in use. *)
Theorem seed_restarts_stream env s n :
  reset layer_get make_game randint true env = Ok (None, after_reset env)
  /\ game (after_reset env)
     = make_game (env_conf env) (randint (_seed env) (rng_draws env))
  /\ env_conf (after_reset env) = env_conf env
  /\ num_non_spatial_observables (after_reset env)
     = num_non_spatial_observables env
  /\ engine_log (after_reset env) = engine_log env
  /\ (seed (Some s) env).1 = s
  /\ game (Nat.iter (S n) after_reset (seed (Some s) env).2)
     = make_game (env_conf env) (randint s n)
  /\ seed None env = (_seed env, env).
Proof.
  assert (forall e,
            env_conf (after_reset e) = env_conf e
            /\ _seed (after_reset e) = _seed e
            /\ rng_draws (after_reset e) = S (rng_draws e)) as Hone
    by (intros e; repeat split).
  assert (forall k e,
            env_conf (Nat.iter k after_reset e) = env_conf e
            /\ _seed (Nat.iter k after_reset e) = _seed e
            /\ rng_draws (Nat.iter k after_reset e) = (rng_draws e + k)%nat)
    as Hiter.
  { induction k as [|k IH]; intros e.
    - cbn. rewrite Nat.add_0_r. auto.
    - change (Nat.iter (S k) after_reset e)
        with (after_reset (Nat.iter k after_reset e)).
      destruct (IH e) as (Hc & Hs & Hd).
      destruct (Hone (Nat.iter k after_reset e)) as (-> & -> & ->).
      rewrite Hc, Hs, Hd. repeat split. lia. }
  repeat split.
  change (Nat.iter (S n) after_reset (seed (Some s) env).2)
    with (after_reset (Nat.iter n after_reset (seed (Some s) env).2)).
  destruct (Hiter n (seed (Some s) env).2) as (Hc & Hs & Hd).
  set (e := Nat.iter n after_reset (seed (Some s) env).2) in *.
  change (game (after_reset e))
    with (make_game (env_conf e) (randint (_seed e) (rng_draws e))).
  rewrite Hc, Hs, Hd. reflexivity.
Qed.

End LayoutMore.

(** ** [_create_agent] *)

(** X13.  [_create_agent] returns an agent object as it is; the names
    "human" and "random" give the gym learner and the random bot of the seed
    whether or not the registry has a bot of that name; any other name gives
    the registry's bot when the registry lists it and raises AttributeError
    when it does not.  So the call returns exactly for an agent object, for
    "human", for "random" and for a registered name. *)
Theorem create_agent_cases RandomBot registry_list registry_make o s :
  (forall a, o = OptAgent a ->
     _create_agent RandomBot registry_list registry_make o s = Ok a)
  /\ (o = OptName "human" ->
      _create_agent RandomBot registry_list registry_make o s
      = Ok {| agent_name := "Gym Learner"; human := true |})
  /\ (o = OptName "random" ->
      _create_agent RandomBot registry_list registry_make o s
      = Ok (RandomBot "Random bot" s))
  /\ (forall name, o = OptName name -> name <> "human" -> name <> "random" ->
        (name ∈ registry_list ->
         _create_agent RandomBot registry_list registry_make o s
         = Ok (registry_make name))
        /\ (name ∉ registry_list ->
            _create_agent RandomBot registry_list registry_make o s
            = Raise AttributeError))
  /\ (is_ok (_create_agent RandomBot registry_list registry_make o s) = true
      <-> (exists a, o = OptAgent a)
          \/ (exists name, o = OptName name
                /\ name ∈ "human" :: "random" :: registry_list)).
Proof.
  split; [intros a ->; reflexivity|].
  split; [intros ->; reflexivity|].
  split; [intros ->; reflexivity|].
  split.
  - intros name -> Hh Hr. cbn.
    rewrite decide_False by exact Hh. rewrite decide_False by exact Hr.
    split; intros Hin.
    + rewrite (proj2 (py_in_true _ _) Hin). reflexivity.
    + rewrite (proj2 (py_in_false _ _) Hin). reflexivity.
  - destruct o as [a|name]; cbn.
    + split; [eauto|reflexivity].
    + destruct (decide (name = "human")) as [->|Hh].
      { cbn. split; [|reflexivity]. intros _. right. eexists. split; [reflexivity|].
        left. }
      destruct (decide (name = "random")) as [->|Hr].
      { cbn. split; [|reflexivity]. intros _. right. eexists. split; [reflexivity|].
        right. left. }
      destruct (py_in name registry_list) eqn:Hin; cbn.
      * apply py_in_true in Hin. split; [|reflexivity]. intros _. right.
        eexists. split; [reflexivity|]. right. right. exact Hin.
      * apply py_in_false in Hin. split; [discriminate|].
        intros [[a Ha]|(nm & [= <-] & Hnm)]; [discriminate Ha|].
        rewrite !elem_of_cons in Hnm. destruct Hnm as [?|[?|?]]; congruence.
Qed.

(** ** The scripted-action wrapper *)

Section ScriptedMore.
Variable layer_get : FeatureLayer -> Game -> Grid.
Variable game_step : option Action -> Game -> Game.


(** X15.  With a scripted function that never gives an action the wrapper
    adds nothing: its loop makes no step, its [step] is the wrapped step
    without observation followed by the step return of the root environment,
    and its [reset] is the wrapped reset followed by the observation of the
    root environment. *)
Theorem scripted_without_actions fuel (inner : StepFn)
    (inner_reset : BotBowlEnv -> result (option EnvObs * BotBowlEnv))
    action skip env :
  do_scripted_actions game_step (S fuel) (fun _ => None) env = Some env
  /\ ScriptedActionWrapper_step layer_get game_step (S fuel) inner
       (fun _ => None) action skip env
     = Some (r ← inner action true env;
             get_step_return layer_get skip r.2)
  /\ ScriptedActionWrapper_reset layer_get game_step (S fuel) inner_reset
       (fun _ => None) env
     = Some (r ← inner_reset env; get_state layer_get None r.2).
Proof.
  assert (forall e, do_scripted_actions game_step (S fuel) (fun _ => None) e
                    = Some e) as Hloop.
  { intros e. cbn [do_scripted_actions]. destruct (_ && _); reflexivity. }
  split; [apply Hloop|]. split.
  - unfold ScriptedActionWrapper_step.
    destruct (inner action true env) as [r|]; [|reflexivity].
    rewrite Hloop. reflexivity.
  - unfold ScriptedActionWrapper_reset.
    destruct (inner_reset env) as [r|]; [|reflexivity].
    rewrite Hloop. reflexivity.
Qed.

End ScriptedMore.

(** ** [get_wrapper_with_type] *)

(** X16.  [get_wrapper_with_type] returns the outermost wrapper of the chain
    whose exact type is the type asked for: the wrappers outside the one
    returned have other types.  It returns nothing exactly when no wrapper of
    the chain has that type; so never the root environment, also when its
    type is asked for. *)
Theorem get_wrapper_with_type_first w wrapper_type :
  (forall w',
     get_wrapper_with_type w wrapper_type = Some w' ->
     type_of w' = wrapper_type
     /\ exists outer,
          wrappers w = outer ++ wrappers w'
          /\ Forall (fun v => type_of v <> wrapper_type) outer)
  /\ (get_wrapper_with_type w wrapper_type = None
      <-> Forall (fun v => type_of v <> wrapper_type) (wrappers w))
  /\ get_wrapper_with_type w TBotBowlEnv = None.
Proof.
  induction w as [|e IH|e IH hf af|e IH f|e IH d];
    cbn [get_wrapper_with_type wrappers].
  - split; [discriminate|]. split; [|reflexivity].
    split; [constructor|reflexivity].
  - destruct IH as (IHsome & IHnone & IHroot).
    destruct (decide (type_of (BotBowlWrapper e) = wrapper_type)) as [E|N].
    + split; [|split].
      * intros w' [= <-]. split; [exact E|]. exists []. split; [reflexivity|constructor].
      * split; [discriminate|]. intros H. apply Forall_cons in H as [H _]. contradiction.
      * cbn. exact IHroot.
    + split; [|split].
      * intros w' H. destruct (IHsome w' H) as (Ht & outer & Ho & HF).
        split; [exact Ht|]. exists (BotBowlWrapper e :: outer).
        rewrite Ho. split; [reflexivity|]. constructor; assumption.
      * rewrite IHnone, Forall_cons. tauto.
      * cbn. exact IHroot.
  - destruct IH as (IHsome & IHnone & IHroot).
    destruct (decide (type_of (RewardWrapper e hf af) = wrapper_type)) as [E|N].
    + split; [|split].
      * intros w' [= <-]. split; [exact E|]. exists []. split; [reflexivity|constructor].
      * split; [discriminate|]. intros H. apply Forall_cons in H as [H _]. contradiction.
      * cbn. exact IHroot.
    + split; [|split].
      * intros w' H. destruct (IHsome w' H) as (Ht & outer & Ho & HF).
        split; [exact Ht|]. exists (RewardWrapper e hf af :: outer).
        rewrite Ho. split; [reflexivity|]. constructor; assumption.
      * rewrite IHnone, Forall_cons. tauto.
      * cbn. exact IHroot.
  - destruct IH as (IHsome & IHnone & IHroot).
    destruct (decide (type_of (ScriptedActionWrapper e f) = wrapper_type)) as [E|N].
    + split; [|split].
      * intros w' [= <-]. split; [exact E|]. exists []. split; [reflexivity|constructor].
      * split; [discriminate|]. intros H. apply Forall_cons in H as [H _]. contradiction.
      * cbn. exact IHroot.
    + split; [|split].
      * intros w' H. destruct (IHsome w' H) as (Ht & outer & Ho & HF).
        split; [exact Ht|]. exists (ScriptedActionWrapper e f :: outer).
        rewrite Ho. split; [reflexivity|]. constructor; assumption.
      * rewrite IHnone, Forall_cons. tauto.
      * cbn. exact IHroot.
  - destruct IH as (IHsome & IHnone & IHroot).
    destruct (decide (type_of (PPCGWrapper e d) = wrapper_type)) as [E|N].
    + split; [|split].
      * intros w' [= <-]. split; [exact E|]. exists []. split; [reflexivity|constructor].
      * split; [discriminate|]. intros H. apply Forall_cons in H as [H _]. contradiction.
      * cbn. exact IHroot.
    + split; [|split].
      * intros w' H. destruct (IHsome w' H) as (Ht & outer & Ho & HF).
        split; [exact Ht|]. exists (PPCGWrapper e d :: outer).
        rewrite Ho. split; [reflexivity|]. constructor; assumption.
      * rewrite IHnone, Forall_cons. tauto.
      * cbn. exact IHroot.
Qed.

(** ** The progressive-difficulty wrapper *)

Section PPCGMore.
Variable layer_get : FeatureLayer -> Game -> Grid.
Variable set_available_actions : Game -> Game.




End PPCGMore.
(** ** The declared action space *)

Section ActionSpaceMore.
Variable formation_actions : Formation -> Game -> option Team -> list Action.

(** X18.  The action space that [BotBowlEnv.__init__] declares has one
    index for each action type, not one for each entry of the action mask:
    the mask is longer by seventeen times the number of squares less one,
    so the two agree only on a board of one square.  Every index of the mask
    that is outside the declared space still decodes, to a positional action
    on a square. *)
Theorem action_space_smaller_than_mask conf env flip :
  conf_built conf -> env_conf env = conf ->
  0 < width env -> 0 < height env ->
  board_squares env = width env * height env ->
  num_actions env - action_space env = 17 * (board_squares env - 1)
  /\ action_space env <= num_actions env
  /\ (action_space env = num_actions env <-> board_squares env = 1)
  /\ forall i, action_space env <= i < num_actions env ->
       exists a sq,
         a ∈ fixed_positional_action_types
         /\ _compute_action formation_actions (Some i) flip env
            = Ok [Some (mkActionAt (AT a) sq)].
Proof.
  intros Hb Hc Hw Hh Hbs.
  assert (0 < board_squares env) as Hpos by nia.
  assert (action_space env
          = Z.of_nat (length (simple_action_types conf)) + 17) as Hsp.
  { unfold action_space. rewrite Hc.
    rewrite (built_action_types _ Hb), length_app, length_fmap.
    rewrite (built_positional _ Hb).
    change (length fixed_positional_action_types) with 17%nat. lia. }
  assert (num_actions env
          = Z.of_nat (length (simple_action_types conf))
            + 17 * board_squares env) as Hnum.
  { unfold num_actions. rewrite Hc, (built_positional _ Hb).
    change (length fixed_positional_action_types) with 17%nat. lia. }
  split; [lia|]. split; [lia|]. split; [lia|].
  intros i Hi.
  destruct (decode_positional formation_actions conf env flip i Hb Hc Hw Hh Hbs)
    as (a & Ha & Hdec); [lia|].
  eexists a, _. split; [eapply list_elem_of_lookup_2, Ha|exact Hdec].
Qed.

End ActionSpaceMore.

End EnvMoreProofs.

(** * More properties of botbowl/web/api.py *)

Module ApiMoreProofs.
Import Api ApiProofs ApiMore.

Section ApiMoreClaims.
Variable load_config : string -> result Configuration.
Variable load_team_by_name : string -> Z -> result LoadedTeam.
Variable uuid1 : nat -> string.
Variable make_game :
  string -> LoadedTeam -> LoadedTeam -> Agent -> Agent -> Configuration -> Game.
Variable game_step : option Action -> Game -> Game.
Variable load_replay : string -> result Replay.
Variable actor : Game -> option Agent.
Variable refresh : Game -> Game.
Variable load_all_teams : Z -> list LoadedTeam.

(** ** Game modes *)

Lemma game_modes_lookup (mode : string) :
  game_modes !! mode
  = if decide (mode = "standard") then Some "web-11.json"
    else if decide (mode = "7v7") then Some "web-7.json"
    else if decide (mode = "5v5") then Some "web-5.json"
    else if decide (mode = "3v3") then Some "web-3.json"
    else if decide (mode = "1v1") then Some "web-1.json"
    else None.
Proof.
  unfold game_modes.
  destruct (decide (mode = "standard")) as [->|N1]; [reflexivity|].
  rewrite lookup_insert_ne by (intros E; exact (N1 (eq_sym E))).
  destruct (decide (mode = "7v7")) as [->|N2]; [reflexivity|].
  rewrite lookup_insert_ne by (intros E; exact (N2 (eq_sym E))).
  destruct (decide (mode = "5v5")) as [->|N3]; [reflexivity|].
  rewrite lookup_insert_ne by (intros E; exact (N3 (eq_sym E))).
  destruct (decide (mode = "3v3")) as [->|N4]; [reflexivity|].
  rewrite lookup_insert_ne by (intros E; exact (N4 (eq_sym E))).
  destruct (decide (mode = "1v1")) as [->|N5]; [reflexivity|].
  rewrite lookup_insert_ne by (intros E; exact (N5 (eq_sym E))). apply lookup_empty.
Qed.

(** X19.  [get_teams] and [new_game] resolve a game mode alike: a name that
    is none of "standard", "7v7", "5v5", "3v3" and "1v1", spelled so, raises
    KeyError before any file is loaded; for these five [get_teams] loads the
    configuration "web-11.json", "web-7.json", "web-5.json", "web-3.json" or
    "web-1.json" and returns the teams of its [pitch_max]. *)
Theorem game_mode_resolution mode :
  (mode ∉ ["standard"; "7v7"; "5v5"; "3v3"; "1v1"] ->
   get_teams load_config load_all_teams mode = Raise KeyError
   /\ forall away_name home_name away_agent home_agent st,
        new_game load_config load_team_by_name uuid1 make_game
                 away_name home_name (Some away_agent) (Some home_agent)
                 (Some mode) st
        = Raise KeyError)
  /\ (forall n : Z,
        (mode, n) ∈ [("standard", 11); ("7v7", 7); ("5v5", 5); ("3v3", 3);
                     ("1v1", 1)] ->
        game_modes !! mode = Some (get_config_name n)
        /\ get_teams load_config load_all_teams mode
           = (config ← load_config (get_config_name n);
              Ok (load_all_teams (pitch_max config)))).
Proof.
  split.
  - intros Hnot. rewrite !not_elem_of_cons in Hnot.
    destruct Hnot as (N1 & N2 & N3 & N4 & N5 & _).
    assert (game_modes !! mode = None) as Hnone.
    { rewrite game_modes_lookup.
      rewrite !decide_False by assumption. reflexivity. }
    split.
    + unfold get_teams. rewrite Hnone. reflexivity.
    + intros. unfold new_game.
      change (default default_game_mode (Some mode)) with mode.
      cbn [mbind result_bind]. rewrite Hnone. reflexivity.
  - intros n Hin. rewrite !elem_of_cons, elem_of_nil in Hin.
    assert (game_modes !! mode = Some (get_config_name n)) as Hsome.
    { destruct Hin as [[= -> ->]|[[= -> ->]|[[= -> ->]|[[= -> ->]|[[= -> ->]|[]]]]]];
        vm_compute; reflexivity. }
    split; [exact Hsome|].
    unfold get_teams. rewrite Hsome. cbn [mbind result_bind].
    destruct (load_config _); reflexivity.
Qed.

(** ** [new_game] and [get_game] *)

(** X20.  [new_game] asserts the agents before anything else: without the
    away agent, or with it and without the home agent, it raises
    AssertionError, whatever the game mode and the teams are. *)
Theorem new_game_requires_agents away_name home_name away_agent home_agent
    mode st :
  (away_agent = None \/ home_agent = None) ->
  new_game load_config load_team_by_name uuid1 make_game
           away_name home_name away_agent home_agent mode st
  = Raise AssertionError.
Proof.
  intros [-> | ->]; unfold new_game; [reflexivity|].
  destruct away_agent; reflexivity.
Qed.

(** X21.  A game created is a game the host returns.  With a mode of the
    table and loaders that succeed, [new_game] registers the new game under
    the identifier drawn and leaves every other identifier of the host as it
    was; [get_game] for that identifier then returns the game, refreshed
    when its actor is human and as created otherwise. *)
Theorem new_game_then_get_game away_name home_name away_agent home_agent mode
    config_name config home away st :
  game_modes !! mode = Some config_name ->
  load_config config_name = Ok config ->
  load_team_by_name home_name (pitch_max config) = Ok home ->
  load_team_by_name away_name (pitch_max config) = Ok away ->
  let game_id := uuid1 (uuid_count st) in
  let game := make_game game_id home away home_agent away_agent config in
  exists st',
    new_game load_config load_team_by_name uuid1 make_game
             away_name home_name (Some away_agent) (Some home_agent)
             (Some mode) st
    = Ok (game, st')
    /\ host st' = <[game_id := game]> (host st)
    /\ (forall other, other <> game_id -> host st' !! other = host st !! other)
    /\ uuid_count st' = S (uuid_count st)
    /\ (get_game actor refresh game_id st').1
       = Some (match actor game with
               | Some a => if human a then refresh game else game
               | None => game
               end).
Proof.
  intros Hmode Hcfg Hhome Haway game_id game. unfold new_game.
  change (default default_game_mode (Some mode)) with mode.
  cbn [mbind result_bind]. rewrite Hmode. cbn [mbind result_bind].
  rewrite Hcfg. cbn [mbind result_bind]. rewrite Hhome.
  cbn [mbind result_bind]. rewrite Haway. cbn [mbind result_bind].
  eexists. split; [reflexivity|]. cbn [host uuid_count].
  split; [reflexivity|].
  split; [intros other Hne; apply lookup_insert_ne;
          intros E; exact (Hne (eq_sym E))|].
  split; [reflexivity|].
  unfold get_game. cbn [host]. fold game_id. fold game.
  rewrite lookup_insert_eq.
  destruct (actor game) as [a|]; [|reflexivity].
  destruct (human a); reflexivity.
Qed.

(** X22.  [get_game] for an identifier that the host does not hold returns
    nothing and changes nothing.  For one it holds, the host keeps the same
    identifiers; the game is refreshed exactly when it has an actor and the
    actor is human, and then the host holds the refreshed game. *)
Theorem get_game_refreshes_for_humans game_id st :
  (host st !! game_id = None -> get_game actor refresh game_id st = (None, st))
  /\ (forall game,
        host st !! game_id = Some game ->
        let refreshed :=
          match actor game with Some a => human a | None => false end in
        let game' := if refreshed then refresh game else game in
        (get_game actor refresh game_id st).1 = Some game'
        /\ host (get_game actor refresh game_id st).2 !! game_id = Some game'
        /\ (refreshed = false -> (get_game actor refresh game_id st).2 = st))
  /\ dom (host (get_game actor refresh game_id st).2) = dom (host st).
Proof.
  split; [|split].
  - intros Hnone. unfold get_game. rewrite Hnone. reflexivity.
  - intros game Hgame. unfold get_game. rewrite Hgame.
    destruct (actor game) as [a|]; [destruct (human a)|]; cbn.
    + split; [reflexivity|].
      split; [apply lookup_insert_eq|discriminate].
    + auto.
    + auto.
  - unfold get_game.
    destruct (host st !! game_id) as [game|] eqn:Hgame; [|reflexivity].
    destruct (actor game) as [a|]; [destruct (human a)|]; cbn;
      try reflexivity.
    rewrite dom_insert_L.
    assert (game_id ∈ dom (host st)) as Hin
      by (apply elem_of_dom; rewrite Hgame; eauto).
    apply subseteq_union_1_L, singleton_subseteq_l, Hin.
Qed.

(** ** [step] *)

(** X23.  [step] on a game that has not started and offers no action raises
    IndexError, whatever the action given, and steps nothing. *)
Theorem step_without_available_actions game_id action st game :
  host st !! game_id = Some game ->
  is_started game = false ->
  get_available_actions game = [] ->
  step game_step game_id action st = Raise IndexError.
Proof.
  intros Hhost Hns Haa. unfold step. rewrite Hhost, Hns, Haa. reflexivity.
Qed.

End ApiMoreClaims.

(** ** Names of saved games *)

Lemma lower_ascii_facts (a : Ascii.ascii) :
  lower_ascii (lower_ascii a) = lower_ascii a
  /\ (lower_ascii a = slash <-> a = slash)
  /\ (lower_ascii a = dot <-> a = dot)
  /\ ~ (65 <= Ascii.nat_of_ascii (lower_ascii a) <= 90)%nat.
Proof.
  destruct a as [[] [] [] [] [] [] [] []]; vm_compute;
    (split; [reflexivity|]);
    (split; [split; intros E; first [reflexivity|discriminate E]|]);
    (split; [split; intros E; first [reflexivity|discriminate E]|]);
    intros [H1 H2];
    repeat (apply le_S_n in H1 || apply le_S_n in H2);
    first [inversion H1; fail | inversion H2; fail].
Qed.

Lemma chars_remove_char c s :
  chars (remove_char c s) = filter (fun a => a <> c) (chars s).
Proof.
  induction s as [|a s IH]; [reflexivity|]. cbn [remove_char chars].
  rewrite filter_cons. destruct (decide (a = c)) as [->|N].
  - rewrite decide_False by (intros H; apply H; reflexivity). exact IH.
  - rewrite decide_True by exact N. cbn [chars]. rewrite IH. reflexivity.
Qed.

Lemma chars_lower s : chars (lower s) = lower_ascii <$> chars s.
Proof.
  induction s as [|a s IH]; [reflexivity|]. cbn. rewrite IH. reflexivity.
Qed.

Lemma remove_char_absent c s : c ∉ chars s -> remove_char c s = s.
Proof.
  induction s as [|a s IH]; [reflexivity|]. cbn [remove_char chars].
  intros Hc. apply not_elem_of_cons in Hc as [Hne Hc].
  rewrite decide_False by congruence. rewrite IH by exact Hc. reflexivity.
Qed.

Lemma lower_lower s : lower (lower s) = lower s.
Proof.
  induction s as [|a s IH]; [reflexivity|]. cbn. rewrite IH.
  rewrite (proj1 (lower_ascii_facts a)). reflexivity.
Qed.

Lemma chars_lower_has c s :
  (forall a, lower_ascii a = c <-> a = c) ->
  c ∈ chars (lower s) <-> c ∈ chars s.
Proof.
  intros Hc. rewrite chars_lower, list_elem_of_fmap. split.
  - intros (a & Ha & Hin). symmetry in Ha. apply (proj1 (Hc a)) in Ha.
    subst a. exact Hin.
  - intros Hin. exists c. split; [symmetry; apply Hc; reflexivity|exact Hin].
Qed.

Lemma saved_name_chars name :
  chars (saved_name name)
  = lower_ascii
    <$> filter (fun a => a <> dot) (filter (fun a => a <> slash) (chars name)).
Proof.
  unfold saved_name. rewrite chars_lower, !chars_remove_char. reflexivity.
Qed.

Section SavesMore.
Variable Saves : Type.
Variable host_save_game : string -> string -> Saves -> Saves.

(** X24.  The name under which [save_game] asks the host to save a game of
    an ASCII name is the name without its "/" and "." characters, in lower
    case: it has no "/", no "." and no upper-case letter, and cleaning it
    again changes nothing. *)
Theorem save_game_cleans_name game_id name saves :
  is_ascii name ->
  save_game Saves host_save_game game_id name saves
  = host_save_game game_id (saved_name name) saves
  /\ chars (saved_name name)
     = lower_ascii
       <$> filter (fun a => a <> dot)
                  (filter (fun a => a <> slash) (chars name))
  /\ (slash ∉ chars (saved_name name))
  /\ (dot ∉ chars (saved_name name))
  /\ Forall (fun a => ~ (65 <= Ascii.nat_of_ascii a <= 90)%nat)
            (chars (saved_name name))
  /\ saved_name (saved_name name) = saved_name name.
Proof.
  intros _.
  assert (slash ∉ chars (saved_name name)) as Hslash.
  { rewrite saved_name_chars, list_elem_of_fmap.
    intros (a & Ha & Hin). symmetry in Ha.
    apply (proj1 (proj1 (proj2 (lower_ascii_facts a)))) in Ha. subst a.
    apply list_elem_of_filter in Hin as [_ Hin].
    apply list_elem_of_filter in Hin as [Hne _]. exact (Hne eq_refl). }
  assert (dot ∉ chars (saved_name name)) as Hdot.
  { rewrite saved_name_chars, list_elem_of_fmap.
    intros (a & Ha & Hin). symmetry in Ha.
    apply (proj1 (proj1 (proj2 (proj2 (lower_ascii_facts a))))) in Ha. subst a.
    apply list_elem_of_filter in Hin as [Hne _]. exact (Hne eq_refl). }
  split; [reflexivity|]. split; [apply saved_name_chars|].
  split; [exact Hslash|]. split; [exact Hdot|]. split.
  - rewrite saved_name_chars, Forall_fmap. apply Forall_forall.
    intros a _. cbn. apply lower_ascii_facts.
  - unfold saved_name at 1.
    rewrite (remove_char_absent slash) by exact Hslash.
    rewrite (remove_char_absent dot) by exact Hdot.
    unfold saved_name. apply lower_lower.
Qed.

(** X25.  [save_game_exists] finds a name exactly when a saved game has the
    lower-case form of the name: it ignores case, but it does not drop "/"
    and "." as [save_game] does.  So a game saved under a name is found
    under every spelling whose lower-case form is the cleaned name, and when
    every saved name is free of "/" and "." no name with a "/" or a "." is
    ever found. *)
Theorem save_game_exists_matches (saved_games : list (string * string)) name :
  is_ascii name ->
  (save_game_exists saved_games name = true
   <-> exists save, save ∈ saved_games /\ save.2 = lower name)
  /\ (forall file original,
        (file, saved_name original) ∈ saved_games ->
        lower name = saved_name original ->
        save_game_exists saved_games name = true)
  /\ (Forall (fun save => (slash ∉ chars save.2) /\ (dot ∉ chars save.2))
             saved_games ->
      slash ∈ chars name \/ dot ∈ chars name ->
      save_game_exists saved_games name = false).
Proof.
  intros _.
  assert (save_game_exists saved_games name = true
          <-> exists save, save ∈ saved_games /\ save.2 = lower name) as Hiff.
  { unfold save_game_exists. rewrite existsb_exists. split.
    - intros (save & Hin & Heq). exists save.
      split; [apply list_elem_of_In, Hin|].
      apply bool_decide_eq_true in Heq. exact Heq.
    - intros (save & Hin & Heq). exists save.
      split; [apply list_elem_of_In, Hin|].
      apply bool_decide_eq_true. exact Heq. }
  split; [exact Hiff|]. split.
  - intros file original Hin Hlow. apply Hiff.
    exists (file, saved_name original). split; [exact Hin|]. cbn. congruence.
  - intros Hclean Hhas.
    apply not_true_is_false. intros E.
    apply (proj1 Hiff) in E as (save & Hin & Heq).
    rewrite Forall_forall in Hclean. destruct (Hclean save Hin) as [Hs Hd].
    rewrite Heq in Hs, Hd. exfalso. destruct Hhas as [Hhas|Hhas].
    + apply Hs. apply chars_lower_has; [|exact Hhas].
      intros a. apply lower_ascii_facts.
    + apply Hd. apply chars_lower_has; [|exact Hhas].
      intros a. apply lower_ascii_facts.
Qed.

End SavesMore.

(** ** Replays *)

Section ReplaysMore.
Variable load_replay : string -> result Replay.

(** X26.  A replay is loaded once: after a [get_replay] that returned, a
    further [get_replay] for the same identifier returns the same replay and
    leaves the caches as they are, whatever storage holds by then. *)
Theorem get_replay_cached rid st r st' (load_replay' : string -> result Replay) :
  caches_ok st ->
  get_replay load_replay rid st = Ok (r, st') ->
  get_replay load_replay' rid st' = Ok (r, st').
Proof.
  intros Hok H.
  destruct (get_replay_Ok load_replay rid st r st' Hok H)
    as ([_ Hnd] & Hr & full & Hfull & Hsteps & _).
  unfold get_replay. rewrite Hr. cbn [mbind result_bind].
  rewrite Hfull. cbn [mbind result_bind].
  rewrite replay_window_spec by (cbn; exact (Hnd _ _ Hfull)).
  cbn [app length]. rewrite Nat.sub_0_r, <- Hsteps.
  assert (set_steps r (steps r) = r) as -> by (destruct r; reflexivity).
  rewrite (insert_id _ _ _ Hr). destruct st'; reflexivity.
Qed.

(** X27.  The window of [get_replay_steps] at its edges, for a replay in the
    cache: a start that is not positive is the start of the history; a
    count that is not positive gives the empty mapping, and so does a start
    at or beyond the end of the history. *)
Theorem get_replay_steps_edges rid st full from_idx num_steps :
  caches_ok st ->
  is_Some (replay_cache st !! rid) ->
  step_cache st !! rid = Some full ->
  (from_idx <= 0 ->
   get_replay_steps rid from_idx num_steps st
   = Ok (firstn (Z.to_nat num_steps) full))
  /\ (num_steps <= 0 -> get_replay_steps rid from_idx num_steps st = Ok [])
  /\ (Z.of_nat (length full) <= from_idx ->
      get_replay_steps rid from_idx num_steps st = Ok []).
Proof.
  intros Hok Hc Hfull.
  rewrite (get_replay_steps_cached rid from_idx num_steps st full Hok Hc Hfull).
  split; [|split].
  - intros Hle. replace (Z.to_nat from_idx) with 0%nat by lia. reflexivity.
  - intros Hle. replace (Z.to_nat num_steps) with 0%nat by lia. reflexivity.
  - intros Hge. rewrite drop_ge by lia. rewrite take_nil. reflexivity.
Qed.

(** X28.  Pages join up.  For a replay in the cache and counts that are not
    negative, the page of [n] steps from a start followed by the page of [m]
    steps from [n] further on is the page of [n + m] steps from that start;
    the page of the whole length from 0 is the whole history; and the steps
    that [get_replay] shows are the page of 100 steps from 0. *)
Theorem replay_pages_join rid st full from_idx n m :
  caches_ok st ->
  is_Some (replay_cache st !! rid) ->
  step_cache st !! rid = Some full ->
  0 <= from_idx -> 0 <= n -> 0 <= m ->
  (exists page1 page2,
     get_replay_steps rid from_idx n st = Ok page1
     /\ get_replay_steps rid (from_idx + n) m st = Ok page2
     /\ get_replay_steps rid from_idx (n + m) st = Ok (page1 ++ page2))
  /\ get_replay_steps rid 0 (Z.of_nat (length full)) st = Ok full
  /\ (forall r st',
        get_replay load_replay rid st = Ok (r, st') ->
        get_replay_steps rid 0 100 st' = Ok (steps r)).
Proof.
  intros Hok Hc Hfull Hf Hn Hm.
  rewrite !(get_replay_steps_cached rid _ _ st full Hok Hc Hfull).
  split; [|split].
  - eexists _, _. split; [reflexivity|]. split; [reflexivity|]. f_equal.
    rewrite !Z2Nat.inj_add by lia.
    rewrite <- (drop_drop full (Z.to_nat n) (Z.to_nat from_idx)).
    symmetry. apply take_take_drop.
  - rewrite Nat2Z.id. cbn [Z.to_nat skipn]. rewrite firstn_all. reflexivity.
  - intros r st' H.
    destruct (get_replay_Ok load_replay rid st r st' Hok H)
      as (Hok' & Hr & full' & Hfull' & Hsteps & _).
    rewrite (get_replay_steps_cached rid 0 100 st' full' Hok'
               ltac:(rewrite Hr; eauto) Hfull').
    rewrite Hsteps. reflexivity.
Qed.

End ReplaysMore.

End ApiMoreProofs.

(** * The extras of the environment on the demo board *)

Module EnvMoreWitnesses.
Import Env EnvProofs EnvMore EnvMoreProofs.

Ltac evaluated :=
  first [ reflexivity | (vm_compute; reflexivity) | (cbn; lia) | by_evaluation ].


Lemma decode_bounds_witness :
  _compute_action Demo.formation_actions (Some 430) None
                  (Demo.env0 (Some Home)) = Raise IndexError
  /\ exists t sq,
       _compute_action Demo.formation_actions (Some 429) None
                       (Demo.env0 (Some Home))
       = Ok [Some (mkActionAt (AT t) sq)]
       /\ t ∈ positional_action_types Demo.conf
       /\ 0 <= x sq < 8 /\ 0 <= y sq < 3.
Proof.
  split.
  - destruct (decode_bounds Demo.formation_actions Demo.load_config
                3 None None false Demo.conf (Demo.env0 (Some Home)) None 430)
      as [Hhi _]; [evaluated..|].
    apply Hhi. by_evaluation.
  - destruct (decode_bounds Demo.formation_actions Demo.load_config
                3 None None false Demo.conf (Demo.env0 (Some Home)) None 429)
      as [_ Hin]; [evaluated..|].
    apply Hin. by_evaluation.
Defined.

Lemma decode_negative_index_witness :
  (exists k,
     _compute_action Demo.formation_actions (Some (-1)) None
                     (Demo.env0 (Some Home)) = Ok [Some (mkAction k)]
     /\ exists f, k = Form f /\ f ∈ formations Demo.conf)
  /\ _compute_action Demo.formation_actions (Some (-23)) None
                     (Demo.env0 (Some Home)) = Raise IndexError.
Proof.
  split.
  - pose proof (decode_negative_index Demo.formation_actions Demo.load_config
                  3 None None false Demo.conf (Demo.env0 (Some Home)) None (-1))
      as H.
    cbv zeta in H. destruct H as [Hin _]; [evaluated..|].
    destruct Hin as (k & _ & Hdec & Hform); [by_evaluation|].
    exists k. split; [exact Hdec|]. apply Hform. by_evaluation.
  - pose proof (decode_negative_index Demo.formation_actions Demo.load_config
                  3 None None false Demo.conf (Demo.env0 (Some Home)) None
                  (-23)) as H.
    cbv zeta in H. destruct H as [_ Hout]; [evaluated..|].
    apply Hout. by_evaluation.
Defined.

Lemma encode_then_decode_witness :
  exists i,
    _compute_action_idx (mkActionAt (AT ActionType.MOVE) {| x := 2; y := 1 |})
                        None (Demo.env0 (Some Away)) = Ok i
    /\ 22 <= i < 430
    /\ _compute_action Demo.formation_actions (Some i) None
                       (Demo.env0 (Some Away))
       = Ok [Some (mkActionAt (AT ActionType.MOVE) {| x := 2; y := 1 |})].
Proof.
  apply (encode_then_decode Demo.formation_actions Demo.load_config
           3 None None false Demo.conf (Demo.env0 (Some Away)) None
           (mkActionAt (AT ActionType.MOVE) {| x := 2; y := 1 |})
           ActionType.MOVE {| x := 2; y := 1 |}); evaluated.
Defined.

Lemma encode_errors_witness :
  _compute_action_idx (mkAction (AT ActionType.END_SETUP)) None
                      (Demo.env0 (Some Home)) = Raise AttributeError.
Proof.
  destruct (encode_errors Demo.load_config 3 None None false Demo.conf
              (Demo.env0 (Some Home)) None
              (mkAction (AT ActionType.END_SETUP)))
    as (Hout & Hend & _); [evaluated..|].
  apply Hout. exact Hend.
Defined.

Lemma decode_flip_mirrors_witness :
  exists t col row,
    _compute_action Demo.formation_actions (Some 25) (Some false)
                    (Demo.env0 (Some Away))
    = Ok [Some (mkActionAt (AT t) {| x := col; y := row |})]
    /\ _compute_action Demo.formation_actions (Some 25) (Some true)
                       (Demo.env0 (Some Away))
       = Ok [Some (mkActionAt (AT t) {| x := 8 - 1 - col; y := row |})]
    /\ _compute_action Demo.formation_actions (Some 25) None
                       (Demo.env0 (Some Away))
       = _compute_action Demo.formation_actions (Some 25) (Some true)
                         (Demo.env0 (Some Away)).
Proof.
  apply (decode_flip_mirrors Demo.formation_actions Demo.load_config
           3 None None false Demo.conf (Demo.env0 (Some Away)) 25); evaluated.
Defined.

Lemma mask_entry_is_decoded_action_witness :
  exists t sq v,
    _compute_action Demo.formation_actions (Some 25) None
                    (Demo.env0 (Some Home))
    = Ok [Some (mkActionAt (AT t) sq)]
    /\ Demo.layer_get (AvailablePositionLayer t) (game (Demo.env0 (Some Home)))
         !! Z.to_nat (y sq) ≫= (fun row => row !! Z.to_nat (x sq))
       = Some v
    /\ mask_of Demo.layer_get None (Demo.env0 (Some Home)) !! 25%nat
       = Some (positive v).
Proof.
  destruct (mask_entry_is_decoded_action Demo.layer_get Demo.formation_actions
              Demo.load_config 3 None None false (Demo.env0 (Some Home)) None)
    as [_ Hpos].
  - vm_compute. reflexivity.
  - intros l g.
    destruct l as [[]| | | | | | | | | | | | | | | | | | | | | | | |];
      (split; [reflexivity|by_evaluation]).
  - cbn. lia.
  - cbn. lia.
  - reflexivity.
  - apply (Hpos 25). by_evaluation.
Defined.

Lemma get_state_flip_witness :
  exists sp ns mask env' sp' mask',
    get_state Demo.layer_get (Some false) (Demo.env0 (Some Away))
    = Ok ((sp, ns, mask), env')
    /\ get_state Demo.layer_get (Some true) (Demo.env0 (Some Away))
       = Ok ((sp', ns, mask'), env')
    /\ length mask' = length mask
    /\ sp' = np_flip2 sp.
Proof.
  destruct (get_state Demo.layer_get (Some false) (Demo.env0 (Some Away)))
    as [[[[sp ns] mask] env']|] eqn:Hg; [|vm_compute in Hg; discriminate Hg].
  destruct (get_state_flip Demo.layer_get Demo.load_config 3 None None false
              (Demo.env0 (Some Away)) (Some false) (Some true)
              sp ns mask env') as (sp' & mask' & Hg' & Hlen & _ & Hsp).
  - vm_compute. reflexivity.
  - exact Hg.
  - exists sp, ns, mask, env', sp', mask'.
    split; [reflexivity|]. split; [exact Hg'|]. split; [exact Hlen|exact Hsp].
Defined.

Lemma non_spatial_layout_witness :
  exists sp ns mask env',
    get_state Demo.layer_get None (Demo.env0 (Some Home))
    = Ok ((sp, ns, mask), env')
    /\ ns !! 0%nat = Some (z2q 1 - 1)%Q
    /\ ns !! 73%nat = Some 0%Q.
Proof.
  destruct (get_state Demo.layer_get None (Demo.env0 (Some Home)))
    as [[[[sp ns] mask] env']|] eqn:Hg; [|vm_compute in Hg; discriminate Hg].
  destruct (non_spatial_layout Demo.layer_get Demo.load_config 3 None None
              false (Demo.env0 (Some Home)) None sp ns mask env')
    as (Hhalf & _ & _ & Hgap & _).
  - vm_compute. reflexivity.
  - exact Hg.
  - exists sp, ns, mask, env'.
    split; [reflexivity|]. split; [exact Hhalf|exact Hgap].
Defined.

Lemma step_engine_calls_witness :
  exists r env' acts,
    step Demo.layer_get Demo.formation_actions Demo.game_step (Some 25) true
         (Demo.env0 (Some Home)) = Ok (r, env')
    /\ _compute_action Demo.formation_actions (Some 25) None
                       (Demo.env0 (Some Home)) = Ok acts
    /\ engine_log env'
       = engine_log (Demo.env0 (Some Home)) ++ (CallStep <$> acts)
    /\ exists a, acts = [Some a].
Proof.
  destruct (step Demo.layer_get Demo.formation_actions Demo.game_step
              (Some 25) true (Demo.env0 (Some Home)))
    as [[r env']|] eqn:Hs; [|vm_compute in Hs; discriminate Hs].
  destruct (step_engine_calls Demo.layer_get Demo.formation_actions
              Demo.game_step Demo.load_config 3 None None false
              (Demo.env0 (Some Home)) (Some 25) true r env')
    as (acts & Hdec & Hlog & _ & _ & _ & Hone).
  - vm_compute. reflexivity.
  - exact Hs.
  - exists r, env', acts. split; [reflexivity|]. split; [exact Hdec|].
    split; [exact Hlog|]. apply (Hone 25); [reflexivity|lia|].
    unfold formation_index. by_evaluation.
Defined.



Lemma action_space_smaller_than_mask_witness :
  num_actions (Demo.env0 (Some Home)) - action_space (Demo.env0 (Some Home))
  = 17 * (24 - 1)
  /\ exists a sq,
       a ∈ fixed_positional_action_types
       /\ _compute_action Demo.formation_actions (Some 39) None
                          (Demo.env0 (Some Home))
          = Ok [Some (mkActionAt (AT a) sq)].
Proof.
  destruct (action_space_smaller_than_mask Demo.formation_actions Demo.conf
              (Demo.env0 (Some Home)) None) as (Hdiff & _ & _ & Hdec).
  - split; [reflexivity..|]. eexists. reflexivity.
  - reflexivity.
  - cbn. lia.
  - cbn. lia.
  - reflexivity.
  - split; [exact Hdiff|]. apply Hdec. by_evaluation.
Defined.

End EnvMoreWitnesses.

(** * The extras of the web side on the demo host *)

Module ApiMoreWitnesses.
Import Api ApiProofs ApiMore ApiMoreProofs.

Lemma new_game_requires_agents_witness :
  new_game DemoMore.load_config DemoMore.load_team_by_name DemoMore.uuid1
           DemoMore.make_game "orc" "human" None (Some DemoMore.learner)
           (Some "standard") initial_state
  = Raise AssertionError.
Proof.
  apply (new_game_requires_agents DemoMore.load_config
           DemoMore.load_team_by_name DemoMore.uuid1 DemoMore.make_game
           "orc" "human" None (Some DemoMore.learner) (Some "standard")
           initial_state).
  left. reflexivity.
Defined.

Lemma new_game_then_get_game_witness :
  exists g st',
    new_game DemoMore.load_config DemoMore.load_team_by_name DemoMore.uuid1
             DemoMore.make_game "orc" "human" (Some DemoMore.bot)
             (Some DemoMore.learner) (Some "standard") initial_state
    = Ok (g, st')
    /\ uuid_count st' = 1%nat
    /\ (get_game DemoMore.actor DemoMore.refresh (DemoMore.uuid1 0) st').1
       = Some g.
Proof.
  pose proof (new_game_then_get_game DemoMore.load_config
                DemoMore.load_team_by_name DemoMore.uuid1 DemoMore.make_game
                DemoMore.actor DemoMore.refresh "orc" "human"
                DemoMore.bot DemoMore.learner "standard" (get_config_name 11)
                {| config_name := get_config_name 11;
                   pathfinding_enabled := true; config_ruleset := "BB2016";
                   config_arena := "ff-pitch-11.txt"; pitch_max := 11 |}
                {| loaded_team_name := "human"; loaded_board_size := 11 |}
                {| loaded_team_name := "orc"; loaded_board_size := 11 |}
                initial_state) as H.
  cbv zeta in H.
  destruct H as (st' & Hnew & _ & _ & Hcount & Hget);
    [vm_compute; reflexivity|reflexivity|reflexivity|reflexivity|].
  eexists _, st'. split; [exact Hnew|]. split; [exact Hcount|exact Hget].
Defined.

Lemma step_without_available_actions_witness :
  step Demo.game_step "g2" Demo.end_turn DemoMore.idle_state
  = Raise IndexError.
Proof.
  apply (step_without_available_actions Demo.game_step "g2" Demo.end_turn
           DemoMore.idle_state DemoMore.idle_game).
  - vm_compute. reflexivity.
  - reflexivity.
  - reflexivity.
Defined.

Lemma save_game_cleans_name_witness :
  save_game (list (string * string)) DemoMore.host_save_game
            "g1" "My/Save.1" []
  = [("g1", "mysave1")]
  /\ saved_name "mysave1" = "mysave1".
Proof.
  destruct (save_game_cleans_name (list (string * string))
              DemoMore.host_save_game "g1" "My/Save.1" [])
    as (Hsave & _ & _ & _ & _ & Hagain).
  - unfold is_ascii. by_evaluation.
  - split; [exact Hsave|exact Hagain].
Defined.

Lemma save_game_exists_matches_witness :
  save_game_exists [("g1", saved_name "My/Save.1")] "MYSAVE1" = true
  /\ save_game_exists [("g1", saved_name "My/Save.1")] "My/Save.1" = false.
Proof.
  split.
  - destruct (save_game_exists_matches [("g1", saved_name "My/Save.1")]
                "MYSAVE1") as (_ & Hfound & _).
    + unfold is_ascii. by_evaluation.
    + apply (Hfound "g1" "My/Save.1"); [by_evaluation|reflexivity].
  - destruct (save_game_exists_matches [("g1", saved_name "My/Save.1")]
                "My/Save.1") as (_ & _ & Hnot).
    + unfold is_ascii. by_evaluation.
    + apply Hnot; [by_evaluation|left; by_evaluation].
Defined.

(** The demo replay once loaded: the caches hold it with its three steps. *)
Lemma demo_replay_loaded :
  exists r st',
    get_replay Demo.load_replay "r1" initial_state = Ok (r, st')
    /\ caches_ok st'
    /\ replay_cache st' !! "r1" = Some r
    /\ step_cache st' !! "r1"
       = Some [ (0, {| step_payload := "a" |});
                (1, {| step_payload := "b" |});
                (2, {| step_payload := "c" |}) ].
Proof.
  assert (caches_ok initial_state) as Hinit.
  { split.
    - intros rid [r Hr]. cbn in Hr. rewrite lookup_empty in Hr. discriminate Hr.
    - intros rid d Hd. cbn in Hd. rewrite lookup_empty in Hd. discriminate Hd. }
  destruct (get_replay Demo.load_replay "r1" initial_state)
    as [[r st']|] eqn:Hg; [|vm_compute in Hg; discriminate Hg].
  destruct (get_replay_Ok Demo.load_replay "r1" initial_state r st' Hinit Hg)
    as (Hok & Hr & _).
  exists r, st'. split; [reflexivity|]. split; [exact Hok|].
  split; [exact Hr|].
  vm_compute in Hg. injection Hg as <- <-. vm_compute. reflexivity.
Qed.

Lemma get_replay_cached_witness :
  exists r st',
    get_replay Demo.load_replay "r1" initial_state = Ok (r, st')
    /\ get_replay (fun _ => Raise KeyError) "r1" st' = Ok (r, st').
Proof.
  destruct (get_replay Demo.load_replay "r1" initial_state)
    as [[r st']|] eqn:Hg; [|vm_compute in Hg; discriminate Hg].
  exists r, st'. split; [reflexivity|].
  apply (get_replay_cached Demo.load_replay "r1" initial_state r st'
           (fun _ => Raise KeyError)).
  - split.
    + intros rid [r0 Hr]. cbn in Hr. rewrite lookup_empty in Hr.
      discriminate Hr.
    + intros rid d Hd. cbn in Hd. rewrite lookup_empty in Hd. discriminate Hd.
  - exact Hg.
Defined.

Lemma get_replay_steps_edges_witness :
  exists r st',
    get_replay Demo.load_replay "r1" initial_state = Ok (r, st')
    /\ get_replay_steps "r1" (-2) 2 st'
       = Ok [ (0, {| step_payload := "a" |}); (1, {| step_payload := "b" |}) ]
    /\ get_replay_steps "r1" 1 0 st' = Ok []
    /\ get_replay_steps "r1" 3 5 st' = Ok [].
Proof.
  destruct demo_replay_loaded as (r & st' & Hg & Hok & Hr & Hfull).
  exists r, st'. split; [exact Hg|].
  assert (is_Some (replay_cache st' !! "r1")) as Hc by (rewrite Hr; eauto).
  split; [|split].
  - destruct (get_replay_steps_edges "r1" st' _ (-2) 2 Hok Hc Hfull)
      as (Hlow & _ & _).
    apply Hlow. lia.
  - destruct (get_replay_steps_edges "r1" st' _ 1 0 Hok Hc Hfull)
      as (_ & Hnone & _).
    apply Hnone. lia.
  - destruct (get_replay_steps_edges "r1" st' _ 3 5 Hok Hc Hfull)
      as (_ & _ & Hend).
    apply Hend. cbn. lia.
Defined.

Lemma replay_pages_join_witness :
  exists r st' page1 page2,
    get_replay Demo.load_replay "r1" initial_state = Ok (r, st')
    /\ get_replay_steps "r1" 0 1 st' = Ok page1
    /\ get_replay_steps "r1" (0 + 1) 2 st' = Ok page2
    /\ get_replay_steps "r1" 0 (1 + 2) st' = Ok (page1 ++ page2)
    /\ exists r2 st2,
         get_replay Demo.load_replay "r1" st' = Ok (r2, st2)
         /\ get_replay_steps "r1" 0 100 st2 = Ok (steps r2).
Proof.
  destruct demo_replay_loaded as (r & st' & Hg & Hok & Hr & Hfull).
  assert (is_Some (replay_cache st' !! "r1")) as Hc by (rewrite Hr; eauto).
  destruct (replay_pages_join Demo.load_replay "r1" st' _ 0 1 2
              Hok Hc Hfull) as ((page1 & page2 & H1 & H2 & H12) & _ & Hshow);
    [lia..|].
  exists r, st', page1, page2. split; [exact Hg|]. split; [exact H1|].
  split; [exact H2|]. split; [exact H12|].
  destruct (get_replay_runs Demo.load_replay "r1" st' Hok (or_introl Hc))
    as (r2 & st2 & Hg2).
  exists r2, st2. split; [exact Hg2|]. apply (Hshow r2 st2 Hg2).
Defined.

End ApiMoreWitnesses.
